(** * trading_binary: the hedged-pair trading core, embedded in Rocq

    A shallow embedding of the decision core of the repository:

    - [src/core/position.py]           (Position, PairPosition)
    - [src/market/polymarket_api.py]   (OrderBookLevel, OrderBook)
    - [src/execution/order_manager.py] (Order, OrderManager)
    - [src/monitor/price_monitor.py]   (PriceMonitor)
    - [src/risk/stop_conditions.py]    (RiskController)
    - [src/rebalancing/balancer.py]    (Rebalancer)
    - [src/market/simulator.py]        (MarketSimulator.execute_limit_order)
    - [src/dashboard/display.py]       (Dashboard.add_trade_log)
    - [dashboard.py]                   (check_buy_conditions)
    - [main.py]                        (TradingBot)

    Conventions of the embedding.

    - Python [float] values are exact rationals ([Q]); the comparisons
      [<], [<=], [==] of the source are the boolean tests [Qltb],
      [Qle_bool], [Qeq_bool].  Rounding is not modelled there: the
      ledger and the placing of an order, where a rounded sum decides,
      are embedded once more over binary64 in the module [Binary64].
    - Python [int] configuration values are [Z].
    - Sides are Python strings; they stay strings here, since the source
      compares them once through [.upper()] and once literally.
    - Mutable objects are threaded explicitly: a method returns its
      result together with the new state of [self].
    - [datetime.now(timezone.utc)] is an input: every reading of the clock
      that a call makes is a field of the [Clock] record it receives.
    - A raised exception is the [Raises] constructor of [outcome]. *)

From Stdlib Require Import QArith Lqa ZArith Bool List String Ascii Lia.
From Stdlib Require Floats.
Import ListNotations.

(** A decimal literal of type [float] denotes the nearest binary64
    number, as it does in Python. *)
Set Warnings "-inexact-float".

Local Open Scope Q_scope.

(** ** Numbers and strings as Python has them *)

(** [a < b] on floats. *)
Definition Qltb (a b : Q) : bool := negb (Qle_bool b a).

(** Python's [min(a, b)]: the first argument unless the second is smaller. *)
Definition py_min (a b : Q) : Q := if Qltb b a then b else a.

(** Python's [abs] on a float. *)
Definition py_abs (a : Q) : Q := if Qltb a 0 then - a else a.

(** [int(x)] on a float: truncation toward zero. *)
Definition py_int (x : Q) : Z := Z.quot (Qnum x) (Z.pos (Qden x)).

(** [str.upper()] on ASCII text. *)
Definition upper_ascii (c : ascii) : ascii :=
  let n := nat_of_ascii c in
  if (97 <=? n)%nat && (n <=? 122)%nat then ascii_of_nat (n - 32) else c.

Fixpoint upper (s : string) : string :=
  match s with
  | EmptyString => EmptyString
  | String c rest => String (upper_ascii c) (upper rest)
  end.

Inductive exn : Type :=
| ValueError (msg : string).

Inductive outcome (A : Type) : Type :=
| Returns (a : A)
| Raises (e : exn).
Arguments Returns {A} a.
Arguments Raises {A} e.

(** The fee-adjusted ceiling of the admission formula. *)
Definition fee_ceiling : Q := 98 # 100.

(** ** src/core/position.py *)

Module Position.

Record t : Type := mk { qty : Q; cost : Q }.

(** [Position()]: both fields default to 0.0. *)
Definition init : t := mk 0 0.

Definition avg_price (self : t) : Q :=
  if Qeq_bool (qty self) 0 then 1 # 2 else cost self / qty self.

Definition add_position (self : t) (q price : Q) : t :=
  mk (qty self + q) (cost self + price * q).

End Position.

Module PairPosition.

Record t : Type := mk { yes : Position.t; no : Position.t }.

Definition init : t := mk Position.init Position.init.

Definition total_cost (self : t) : Q :=
  Position.cost (yes self) + Position.cost (no self).

Definition min_qty (self : t) : Q :=
  py_min (Position.qty (yes self)) (Position.qty (no self)).

Definition pair_cost (self : t) : Q :=
  Position.avg_price (yes self) + Position.avg_price (no self).

Definition is_profitable (self : t) : bool :=
  if Qeq_bool (min_qty self) 0 then false
  else Qltb (total_cost self) (min_qty self).

Definition can_buy (self : t) (side : string) (q price : Q) : outcome bool :=
  let allowed (current_pos : Position.t) (opposite_avg : Q) : bool :=
    let new_cost := Position.cost current_pos + price * q in
    let new_qty := Position.qty current_pos + q in
    let new_avg := if Qltb 0 new_qty then new_cost / new_qty else price in
    Qltb (new_avg + opposite_avg) fee_ceiling in
  if String.eqb (upper side) "YES" then
    Returns (allowed (yes self) (Position.avg_price (no self)))
  else if String.eqb (upper side) "NO" then
    Returns (allowed (no self) (Position.avg_price (yes self)))
  else Raises (ValueError ("Invalid side: " ++ side)).

Definition get_imbalance_ratio (self : t) : Q :=
  let total := Position.qty (yes self) + Position.qty (no self) in
  if Qeq_bool total 0 then 0
  else py_abs (Position.qty (yes self) - Position.qty (no self)) / total.

Definition get_target_side (self : t) : option string :=
  if Qltb (Position.qty (no self) * (12 # 10)) (Position.qty (yes self))
  then Some "NO"%string
  else if Qltb (Position.qty (yes self) * (12 # 10)) (Position.qty (no self))
  then Some "YES"%string
  else None.

End PairPosition.

(** ** src/market/polymarket_api.py: the order-book snapshot

    [src/market/simulator.py] declares the same two classes without the
    [timestamp] field; the monitor reads only the mid-prices. *)

Module OrderBookLevel.
Record t : Type := mk { price : Q; qty : Q }.
End OrderBookLevel.

Module OrderBook.

(** [timestamp] is the UTC instant of the snapshot, in seconds. *)
Record t : Type := mk {
  yes_bids : list OrderBookLevel.t;
  yes_asks : list OrderBookLevel.t;
  no_bids : list OrderBookLevel.t;
  no_asks : list OrderBookLevel.t;
  timestamp : Q
}.

(** [(bids[0].price + asks[0].price) / 2] when both queues are non-empty. *)
Definition mid (bids asks : list OrderBookLevel.t) : Q :=
  match bids, asks with
  | b :: _, a :: _ => (OrderBookLevel.price b + OrderBookLevel.price a) / 2
  | _, _ => 1 # 2
  end.

Definition yes_mid_price (self : t) : Q := mid (yes_bids self) (yes_asks self).
Definition no_mid_price (self : t) : Q := mid (no_bids self) (no_asks self).

Definition get_best_ask (self : t) (side : string) : option OrderBookLevel.t :=
  if String.eqb (upper side) "YES" then hd_error (yes_asks self)
  else if String.eqb (upper side) "NO" then hd_error (no_asks self)
  else None.

End OrderBook.

(** ** src/execution/order_manager.py *)

Inductive OrderStatus : Type := PENDING | FILLED | CANCELLED.

Definition OrderStatus_eqb (a b : OrderStatus) : bool :=
  match a, b with
  | PENDING, PENDING | FILLED, FILLED | CANCELLED, CANCELLED => true
  | _, _ => false
  end.

Module Order.

Record t : Type := mk {
  side : string;
  price : Q;
  qty : Q;
  status : OrderStatus;
  filled_qty : Q;
  filled_price : Q;
  timestamp : Q;
  is_simulated : bool
}.

(** [Order(side=, price=, qty=, is_simulated=True)] created at [now]. *)
Definition new (side : string) (price qty now : Q) : t :=
  mk side price qty PENDING 0 0 now true.

(** The dataclass [__eq__]: field by field. *)
Definition eqb (a b : t) : bool :=
  String.eqb (side a) (side b) && Qeq_bool (price a) (price b)
  && Qeq_bool (qty a) (qty b) && OrderStatus_eqb (status a) (status b)
  && Qeq_bool (filled_qty a) (filled_qty b)
  && Qeq_bool (filled_price a) (filled_price b)
  && Qeq_bool (timestamp a) (timestamp b)
  && Bool.eqb (is_simulated a) (is_simulated b).

End Order.

(** [list.remove(x)]: drops the first element equal to [x]. *)
Fixpoint remove_first (x : Order.t) (l : list Order.t) : list Order.t :=
  match l with
  | [] => []
  | y :: rest => if Order.eqb y x then rest else y :: remove_first x rest
  end.

Module OrderManager.

Record t : Type := mk {
  position : PairPosition.t;
  pending_orders : list Order.t;
  filled_orders : list Order.t;
  current_orderbook : option OrderBook.t;
  trade_history : list Order.t
}.

Definition init (position : PairPosition.t) : t := mk position [] [] None [].

Definition update_orderbook (self : t) (orderbook : OrderBook.t) : t :=
  mk (position self) (pending_orders self) (filled_orders self)
     (Some orderbook) (trade_history self).

(** [_try_fill_order], called on an order that is the last element of
    [pending_orders]: the order object is shared between the caller and
    that list, so the entry is written here as the list without its last
    element, [others], and the order itself.  Returns the order as it is
    after the call and the new manager. *)
Definition _try_fill_order (self : t) (others : list Order.t) (order : Order.t)
  : Order.t * t :=
  if negb (OrderStatus_eqb (Order.status order) PENDING) then (order, self)
  else
    match current_orderbook self with
    | None => (order, self)
    | Some book =>
      match OrderBook.get_best_ask book (Order.side order) with
      | Some best_ask =>
        if Qle_bool (OrderBookLevel.price best_ask) (Order.price order) then
          let fq := py_min (Order.qty order) (OrderBookLevel.qty best_ask) in
          let fp := OrderBookLevel.price best_ask in
          let order' :=
            Order.mk (Order.side order) (Order.price order) (Order.qty order)
                     FILLED fq fp (Order.timestamp order)
                     (Order.is_simulated order) in
          let pos := position self in
          let pos' :=
            if String.eqb (Order.side order) "YES" then
              PairPosition.mk
                (Position.add_position (PairPosition.yes pos) fq fp)
                (PairPosition.no pos)
            else
              PairPosition.mk
                (PairPosition.yes pos)
                (Position.add_position (PairPosition.no pos) fq fp) in
          (order',
           mk pos' (remove_first order' (others ++ [order']))
              (filled_orders self ++ [order'])
              (current_orderbook self)
              (trade_history self ++ [order']))
        else (order, self)
      | None => (order, self)
      end
    end.

(** [place_limit_order].  [fetched] is what [api.get_orderbook] answers
    when the manager holds no snapshot; [now] is the creation time given
    to the order. *)
Definition place_limit_order (self : t) (fetched : option OrderBook.t)
    (now : Q) (side : string) (qty max_price : Q) : option Order.t * t :=
  let book_opt :=
    match current_orderbook self with
    | Some b => Some b
    | None => fetched
    end in
  let self1 :=
    mk (position self) (pending_orders self) (filled_orders self)
       book_opt (trade_history self) in
  match book_opt with
  | None => (None, self1)
  | Some book =>
    match OrderBook.get_best_ask book side with
    | None => (None, self1)
    | Some best_ask =>
      if Qltb max_price (OrderBookLevel.price best_ask) then (None, self1)
      else
        let target_price := OrderBookLevel.price best_ask in
        let order := Order.new side target_price qty now in
        let self2 :=
          mk (position self1) (pending_orders self1 ++ [order])
             (filled_orders self1) (current_orderbook self1)
             (trade_history self1) in
        let '(order', self3) :=
          _try_fill_order self2 (pending_orders self1) order in
        (Some order', self3)
    end
  end.

(** [cancel_all_orders]: the pending list is cleared; the cancelled
    orders are returned as the objects the caller may still hold. *)
Definition cancel_all_orders (self : t) : list Order.t * t :=
  (map (fun o => Order.mk (Order.side o) (Order.price o) (Order.qty o)
                   CANCELLED (Order.filled_qty o) (Order.filled_price o)
                   (Order.timestamp o) (Order.is_simulated o))
       (pending_orders self),
   mk (position self) [] (filled_orders self) (current_orderbook self)
      (trade_history self)).

Definition calculate_target_price (self : t) (side : string)
    (opposite_avg : Q) : Q :=
  let current_pos :=
    if String.eqb side "YES" then PairPosition.yes (position self)
    else PairPosition.no (position self) in
  let max_new_avg := fee_ceiling - opposite_avg in
  if Qeq_bool (Position.qty current_pos) 0 then max_new_avg
  else max_new_avg * (95 # 100).

End OrderManager.

(** ** src/monitor/price_monitor.py *)

Module PriceMonitor.

(** [callback] records whether a callback was given; the call the
    monitor makes to it is part of what [check_price] returns. *)
Record t : Type := mk {
  entry_price_min : Q;
  entry_price_max : Q;
  callback : bool;
  last_yes_price : Q;
  last_no_price : Q
}.

Definition init (entry_price_min entry_price_max : Q) (callback : bool) : t :=
  mk entry_price_min entry_price_max callback (1 # 2) (1 # 2).

(** The constructor's defaults: the band [0.35, 0.50], no callback. *)
Definition default : t := init (35 # 100) (50 # 100) false.

(** [self.entry_price_min <= p <= self.entry_price_max] *)
Definition in_band (self : t) (p : Q) : bool :=
  Qle_bool (entry_price_min self) p && Qle_bool p (entry_price_max self).

(** [last < self.entry_price_min or last > self.entry_price_max] *)
Definition was_outside (self : t) (last : Q) : bool :=
  Qltb last (entry_price_min self) || Qltb (entry_price_max self) last.

(** One call of the callback: the side and the price it is given. *)
Definition Alert : Type := (string * Q)%type.

Record Tick : Type := mkTick {
  returned : option string;
  alerted : option Alert;
  after : t
}.

Definition check_price (self : t) (order_book : OrderBook.t) : Tick :=
  let yes_price := OrderBook.yes_mid_price order_book in
  let no_price := OrderBook.no_mid_price order_book in
  if in_band self yes_price && was_outside self (last_yes_price self) then
    mkTick (Some "YES"%string)
           (if callback self then Some ("YES"%string, yes_price) else None)
           self
  else if in_band self no_price && was_outside self (last_no_price self) then
    mkTick (Some "NO"%string)
           (if callback self then Some ("NO"%string, no_price) else None)
           self
  else
    mkTick None None
           (mk (entry_price_min self) (entry_price_max self) (callback self)
               yes_price no_price).

(** A sequence of [check_price] calls on one monitor: what each call
    returned, in order. *)
Fixpoint run (self : t) (ticks : list OrderBook.t) : list (option string) :=
  match ticks with
  | [] => []
  | ob :: rest =>
    let r := check_price self ob in
    returned r :: run (after r) rest
  end.

End PriceMonitor.

(** ** src/risk/stop_conditions.py *)

(** A value stored in the [details] dictionary. *)
Inductive value : Type :=
| VStr (s : string)
| VFloat (q : Q)
| VInt (z : Z)
| VBool (b : bool).

(** The [reason] message: which f-string of the source produced it, with
    the values interpolated into it (before their formatting). *)
Inductive Reason : Type :=
| ProfitLocked
| UnhedgedTooLong (seconds max_seconds : Z)
| PairCostTooHigh (pair_cost max_pair_cost : Q)
| CapitalExceeded (total_cost max_total_capital : Q)
| SideCostExceeded (side : string) (cost max_pos_per_window : Q)
| SettlementNear (seconds_left buffer_seconds : Z)
| AllChecksPassed.

Record StopConditionResult : Type := mkResult {
  should_stop : bool;
  reason : Reason;
  details : list (string * value)
}.

(** A [datetime]: its fields read as a UTC instant in seconds, and whether
    it carries a [tzinfo]. *)
Record datetime : Type := mkDatetime { utc_seconds : Q; tz_aware : bool }.

(** The readings of [datetime.now(timezone.utc)] one call can make, in
    program order: when the clock is (re)started, when the unhedged
    duration is measured, and when the time to settlement is measured. *)
Record Clock : Type := mkClock {
  now_start : Q;
  now_duration : Q;
  now_settlement : Q
}.

(** No wall-clock time passes during the call. *)
Definition frozen (now : Q) : Clock := mkClock now now now.

Definition opt_string_eqb (a b : option string) : bool :=
  match a, b with
  | Some x, Some y => String.eqb x y
  | None, None => true
  | _, _ => false
  end.

Module RiskController.

Record t : Type := mk {
  max_total_capital : Q;
  max_pos_per_window : Q;
  max_unhedged_seconds : Z;
  max_pair_cost : Q;
  max_loss_ratio : Q;
  settlement_buffer_seconds : Z;
  pair_cost_check_delay_seconds : Z;
  unhedged_start_time : option Q;
  last_unhedged_side : option string
}.

Definition init (max_total_capital max_pos_per_window : Q)
    (max_unhedged_seconds : Z) (max_pair_cost max_loss_ratio : Q)
    (settlement_buffer_seconds pair_cost_check_delay_seconds : Z) : t :=
  mk max_total_capital max_pos_per_window max_unhedged_seconds max_pair_cost
     max_loss_ratio settlement_buffer_seconds pair_cost_check_delay_seconds
     None None.

(** [RiskController()]: every argument at the default of [__init__]. *)
Definition default : t := init 1000 200 120 (98 # 100) (1 # 10) 60 60.

(** The controller with its two clock fields replaced. *)
Definition with_clock (self : t) (start : option Q) (side : option string) : t :=
  mk (max_total_capital self) (max_pos_per_window self)
     (max_unhedged_seconds self) (max_pair_cost self) (max_loss_ratio self)
     (settlement_buffer_seconds self) (pair_cost_check_delay_seconds self)
     start side.

Definition reset (self : t) : t := with_clock self None None.

(** The checks numbered 3, 4 and 5 in the source, which read no clock
    field of the controller. *)
Definition check_limits (self : t) (position : PairPosition.t)
    (market_end_time : option datetime) (clock : Clock) : StopConditionResult :=
  let yes := PairPosition.yes position in
  let no := PairPosition.no position in
  if Qltb (max_total_capital self) (PairPosition.total_cost position) then
    mkResult true
      (CapitalExceeded (PairPosition.total_cost position) (max_total_capital self))
      [("type", VStr "max_capital_exceeded");
       ("total_cost", VFloat (PairPosition.total_cost position));
       ("max_allowed", VFloat (max_total_capital self))]%string
  else if Qltb (max_pos_per_window self) (Position.cost yes) then
    mkResult true
      (SideCostExceeded "YES" (Position.cost yes) (max_pos_per_window self))
      [("type", VStr "max_pos_exceeded");
       ("side", VStr "YES");
       ("cost", VFloat (Position.cost yes));
       ("max_allowed", VFloat (max_pos_per_window self))]%string
  else if Qltb (max_pos_per_window self) (Position.cost no) then
    mkResult true
      (SideCostExceeded "NO" (Position.cost no) (max_pos_per_window self))
      [("type", VStr "max_pos_exceeded");
       ("side", VStr "NO");
       ("cost", VFloat (Position.cost no));
       ("max_allowed", VFloat (max_pos_per_window self))]%string
  else
    let passed := mkResult false AllChecksPassed [] in
    match market_end_time with
    | Some end_time =>
      (* a naive [market_end_time] is read as UTC *)
      let end_time :=
        if negb (tz_aware end_time)
        then mkDatetime (utc_seconds end_time) true
        else end_time in
      let time_to_settlement := utc_seconds end_time - now_settlement clock in
      if Qle_bool time_to_settlement (inject_Z (settlement_buffer_seconds self)) then
        mkResult true
          (SettlementNear (py_int time_to_settlement) (settlement_buffer_seconds self))
          [("type", VStr "settlement_time_near");
           ("time_to_settlement", VFloat time_to_settlement);
           ("buffer_seconds", VInt (settlement_buffer_seconds self))]%string
      else passed
    | None => passed
    end.

Definition check_stop_conditions (self : t) (position : PairPosition.t)
    (orderbook : option OrderBook.t) (market_end_time : option datetime)
    (clock : Clock) : StopConditionResult * t :=
  let yes := PairPosition.yes position in
  let no := PairPosition.no position in
  if PairPosition.is_profitable position then
    (mkResult true ProfitLocked
       [("type", VStr "profit_locked");
        ("min_qty", VFloat (PairPosition.min_qty position));
        ("total_cost", VFloat (PairPosition.total_cost position));
        ("profit", VFloat (PairPosition.min_qty position
                           - PairPosition.total_cost position))]%string,
     self)
  else
    let has_yes := Qltb 0 (Position.qty yes) in
    let has_no := Qltb 0 (Position.qty no) in
    let is_unhedged := (has_yes && negb has_no) || (has_no && negb has_yes) in
    if is_unhedged then
      let current_side := (if has_yes then "YES" else "NO")%string in
      let self1 :=
        if negb (opt_string_eqb (last_unhedged_side self) (Some current_side))
        then with_clock self (Some (now_start clock)) (Some current_side)
        else match unhedged_start_time self with
             | None => with_clock self (Some (now_start clock))
                                  (last_unhedged_side self)
             | Some _ => self
             end in
      let continue := (check_limits self1 position market_end_time clock, self1) in
      match unhedged_start_time self1 with
      | Some start =>
        let unhedged_duration := now_duration clock - start in
        if Qltb (inject_Z (max_unhedged_seconds self1)) unhedged_duration then
          (mkResult true
             (UnhedgedTooLong (py_int unhedged_duration) (max_unhedged_seconds self1))
             [("type", VStr "unhedged_timeout");
              ("side", VStr current_side);
              ("duration_seconds", VFloat unhedged_duration);
              ("max_allowed", VInt (max_unhedged_seconds self1))]%string,
           self1)
        else continue
      | None => continue
      end
    else
      let self1 := with_clock self None None in
      let continue := (check_limits self1 position market_end_time clock, self1) in
      match orderbook with
      | Some _ =>
        if has_yes && has_no then
          let pair_cost := Position.avg_price yes + Position.avg_price no in
          if Qltb (max_pair_cost self1) pair_cost then
            (mkResult true
               (PairCostTooHigh pair_cost (max_pair_cost self1))
               [("type", VStr "pair_cost_too_high");
                ("pair_cost", VFloat pair_cost);
                ("max_allowed", VFloat (max_pair_cost self1));
                ("yes_avg", VFloat (Position.avg_price yes));
                ("no_avg", VFloat (Position.avg_price no));
                ("is_hedged", VBool true)]%string,
             self1)
          else continue
        else continue
      | None => continue
      end.

End RiskController.

(** ** src/config.py: the constants the application passes to the core *)

Module Config.
Definition ENTRY_PRICE_MIN : Q := 35 # 100.
Definition ENTRY_PRICE_MAX : Q := 50 # 100.
Definition SETTLEMENT_BUFFER_SECONDS : Z := 60.
Definition MAX_TOTAL_CAPITAL : Q := 1000.
Definition MAX_POS_PER_WINDOW : Q := 300.
Definition MAX_UNHEDGED_SEC : Z := 120.
Definition MAX_PAIR_COST : Q := 98 # 100.
Definition MAX_LOSS_RATIO : Q := 1 # 10.
Definition PAIR_COST_CHECK_DELAY_SECONDS : Z := 60.
Definition DEFAULT_ORDER_SIZE : Q := 100.
Definition REBALANCE_ORDER_SIZE : Q := 50.
Definition IMBALANCE_THRESHOLD : Q := 2 # 10.
End Config.

(** ** src/rebalancing/balancer.py *)

(** The truth value of a Python string: false for the empty string. *)
Definition py_truthy (s : string) : bool := negb (String.eqb s "").

Module Rebalancer.

Record t : Type := mk { imbalance_threshold : Q }.

(** [Rebalancer()]: the threshold defaults to 0.2. *)
Definition default : t := mk (2 # 10).

Definition should_rebalance (self : t) (position : PairPosition.t) : bool :=
  Qltb (imbalance_threshold self) (PairPosition.get_imbalance_ratio position).

Definition get_priority_side (self : t) (position : PairPosition.t) : string :=
  let fewer :=
    if Qltb (Position.qty (PairPosition.yes position))
            (Position.qty (PairPosition.no position))
    then "YES"%string else "NO"%string in
  match PairPosition.get_target_side position with
  | Some target_side => if py_truthy target_side then target_side else fewer
  | None => fewer
  end.

End Rebalancer.

(** ** src/market/simulator.py: filling against the simulated book *)

Module MarketSimulator.


End MarketSimulator.

(** ** src/dashboard/display.py: the trade log of the terminal dashboard *)

Module Display.

(** [add_trade_log] on the list [self.trade_logs]: the entry is appended
    and, past 100 entries, the oldest one is dropped. *)
Definition add_trade_log {A : Type} (trade_logs : list A) (log_entry : A)
  : list A :=
  let logs := trade_logs ++ [log_entry] in
  if (100 <? List.length logs)%nat then tl logs else logs.

End Display.

(** ** dashboard.py: the buy decision of the Streamlit dashboard *)

(** [d[key] = v] on a dictionary kept in insertion order: an existing key
    keeps its place and takes the new value, a new key goes last. *)
Fixpoint dict_set {V : Type} (d : list (string * V)) (key : string) (v : V)
  : list (string * V) :=
  match d with
  | [] => [(key, v)]
  | (k, old) :: rest =>
    if String.eqb k key then (k, v) :: rest else (k, old) :: dict_set rest key v
  end.

(** [d.get(key)] *)
Fixpoint dict_get {V : Type} (d : list (string * V)) (key : string) : option V :=
  match d with
  | [] => None
  | (k, v) :: rest => if String.eqb k key then Some v else dict_get rest key
  end.

Module DashboardScript.

(** The message of [result["reason"]]: the string of the source that
    produced it, with the values formatted into it. *)
Inductive BuyReason : Type :=
| NoReason
| AutoTradingOff
| PriceOutOfRange (entry_min entry_max : Q)
| BuyOtherSideFirst (target_side : string) (imbalance_percent : Q)
| Cooldown (seconds_left : Z)
| ProfitAlreadyLocked
| NoOrderManager
| NoBestAsk
| NotAdmitted (pair_cost_after : Q)
| TargetBelowAsk (target_price best_ask_price : Q)
| AllConditionsMet.

(** A value of [result["details"]]; [None] is Python's [None]. *)
Definition detail : Type := option value.

Record BuyCheck : Type := mkCheck {
  can_buy : bool;
  reason : BuyReason;
  details : list (string * detail)
}.

Definition check_buy_conditions (side : string) (price : Q)
    (position : PairPosition.t) (order_manager : option OrderManager.t)
    (orderbook : OrderBook.t) (auto_trading_enabled : bool)
    (last_check_time : option Q) (now : Q) : outcome BuyCheck :=
  let yes := PairPosition.yes position in
  let no := PairPosition.no position in
  let d0 : list (string * detail) := [] in
  if negb auto_trading_enabled then
    Returns (mkCheck false AutoTradingOff
               (dict_set d0 "auto_trading" (Some (VBool false))))
  else
  let d1 := dict_set d0 "auto_trading" (Some (VBool true)) in
  let has_yes := Qltb 0 (Position.qty yes) in
  let has_no := Qltb 0 (Position.qty no) in
  let is_empty := negb has_yes && negb has_no in
  let is_unhedged := (has_yes && negb has_no) || (has_no && negb has_yes) in
  let is_hedged := has_yes && has_no in
  if (is_empty || is_unhedged)
     && negb (Qle_bool Config.ENTRY_PRICE_MIN price
              && Qle_bool price Config.ENTRY_PRICE_MAX)
  then
    Returns (mkCheck false
               (PriceOutOfRange Config.ENTRY_PRICE_MIN Config.ENTRY_PRICE_MAX)
               (dict_set
                  (dict_set
                     (dict_set d1 "price_in_range" (Some (VBool false)))
                     "current_price" (Some (VFloat price)))
                  "stage"
                  (Some (VStr (if is_empty then "initial" else "unhedged")))))
  else
  let imbalance_ratio := PairPosition.get_imbalance_ratio position in
  let other_side_first : option string :=
    if is_hedged then
      match PairPosition.get_target_side position with
      | Some target_side =>
        if py_truthy target_side && negb (String.eqb target_side side)
        then Some target_side else None
      | None => None
      end
    else None in
  match other_side_first with
  | Some target_side =>
    Returns (mkCheck false
               (BuyOtherSideFirst target_side (imbalance_ratio * 100))
               (dict_set
                  (dict_set
                     (dict_set
                        (dict_set
                           (dict_set d1 "should_buy_other_side"
                              (Some (VBool true)))
                           "target_side" (Some (VStr target_side)))
                        "imbalance_ratio" (Some (VFloat imbalance_ratio)))
                     "yes_qty" (Some (VFloat (Position.qty yes))))
                  "no_qty" (Some (VFloat (Position.qty no)))))
  | None =>
  let stage :=
    (if is_hedged then "hedged"
     else if is_unhedged then "unhedged" else "initial")%string in
  let d2 :=
    dict_set
      (dict_set (dict_set d1 "price_in_range" (Some (VBool true)))
                "current_price" (Some (VFloat price)))
      "stage" (Some (VStr stage)) in
  let cooling : option Q :=
    match last_check_time with
    | Some last =>
      let time_diff := now - last in
      if Qle_bool time_diff 5 then Some time_diff else None
    | None => None
    end in
  match cooling with
  | Some time_diff =>
    Returns (mkCheck false (Cooldown (5 - py_int time_diff))
               (dict_set (dict_set d2 "cooldown" (Some (VBool true)))
                         "time_remaining" (Some (VFloat (5 - time_diff)))))
  | None =>
  let d3 := dict_set d2 "cooldown" (Some (VBool false)) in
  if PairPosition.is_profitable position then
    Returns (mkCheck false ProfitAlreadyLocked
               (dict_set
                  (dict_set (dict_set d3 "profit_locked" (Some (VBool true)))
                            "min_qty"
                            (Some (VFloat (PairPosition.min_qty position))))
                  "total_cost"
                  (Some (VFloat (PairPosition.total_cost position)))))
  else
  let d4 := dict_set d3 "profit_locked" (Some (VBool false)) in
  match order_manager with
  | None =>
    Returns (mkCheck false NoOrderManager
               (dict_set d4 "order_manager" (Some (VBool false))))
  | Some manager =>
  let d5 := dict_set d4 "order_manager" (Some (VBool true)) in
  match OrderBook.get_best_ask orderbook side with
  | None =>
    Returns (mkCheck false NoBestAsk (dict_set d5 "best_ask" None))
  | Some best_ask =>
  let d6 :=
    dict_set
      (dict_set d5 "best_ask" (Some (VFloat (OrderBookLevel.price best_ask))))
      "best_ask_qty" (Some (VFloat (OrderBookLevel.qty best_ask))) in
  let qty := Config.DEFAULT_ORDER_SIZE in
  match PairPosition.can_buy position side qty price with
  | Raises e => Raises e
  | Returns false =>
    let is_yes := String.eqb side "YES" in
    let opposite_side := (if is_yes then "NO" else "YES")%string in
    let current_pos := if is_yes then yes else no in
    let opposite_pos := if is_yes then no else yes in
    let new_cost := Position.cost current_pos + price * qty in
    let new_qty := Position.qty current_pos + qty in
    let new_avg := if Qltb 0 new_qty then new_cost / new_qty else price in
    let opposite_avg :=
      if Qltb 0 (Position.qty opposite_pos) then Position.avg_price opposite_pos
      else if String.eqb opposite_side "NO"
           then OrderBook.no_mid_price orderbook
           else OrderBook.yes_mid_price orderbook in
    let pair_cost_after := new_avg + opposite_avg in
    let current_yes_avg :=
      if Qltb 0 (Position.qty yes) then Position.avg_price yes
      else OrderBook.yes_mid_price orderbook in
    let current_no_avg :=
      if Qltb 0 (Position.qty no) then Position.avg_price no
      else OrderBook.no_mid_price orderbook in
    let current_pair_cost := current_yes_avg + current_no_avg in
    Returns (mkCheck false (NotAdmitted pair_cost_after)
               (dict_set
                  (dict_set
                     (dict_set
                        (dict_set
                           (dict_set
                              (dict_set d6 "can_buy" (Some (VBool false)))
                              "current_pair_cost"
                              (Some (VFloat current_pair_cost)))
                           "pair_cost_after" (Some (VFloat pair_cost_after)))
                        "current_avg"
                        (Some (VFloat (Position.avg_price current_pos))))
                     "opposite_avg" (Some (VFloat opposite_avg)))
                  "new_avg_after" (Some (VFloat new_avg))))
  | Returns true =>
  let d7 := dict_set d6 "can_buy" (Some (VBool true)) in
  let opposite_avg :=
    if String.eqb side "YES" then Position.avg_price no
    else Position.avg_price yes in
  let target_price :=
    OrderManager.calculate_target_price manager side opposite_avg in
  if Qltb target_price (OrderBookLevel.price best_ask) then
    Returns (mkCheck false
               (TargetBelowAsk target_price (OrderBookLevel.price best_ask))
               (dict_set
                  (dict_set
                     (dict_set d7 "target_price" (Some (VFloat target_price)))
                     "best_ask_price"
                     (Some (VFloat (OrderBookLevel.price best_ask))))
                  "price_diff"
                  (Some (VFloat (OrderBookLevel.price best_ask - target_price)))))
  else
    let d8 := dict_set d7 "target_price" (Some (VFloat target_price)) in
    Returns (mkCheck true AllConditionsMet
               (dict_set (dict_set d8 "qty" (Some (VFloat qty)))
                         "target_price" (Some (VFloat target_price))))
  end
  end
  end
  end
  end.

End DashboardScript.

(** ** main.py: the trading bot *)

Module TradingBot.

(** The messages the bot hands to [Dashboard.add_trade_log]: the f-string
    of the source that produced each, with the values formatted into it. *)
Inductive LogMessage : Type :=
| ProfitLockedStop
| NotAdmitted (side : string) (price : Q)
| BuySignal (side : string) (price target_price : Q)
| SimulatedFill (side : string) (filled_qty filled_price cost : Q)
| RebalanceTrade (side : string) (price : Q)
| RebalanceFill (side : string) (filled_qty filled_price : Q).

(** The order [on_price_alert] hands to [asyncio.create_task]:
    [_place_order_with_log(side, qty, target_price)], run later. *)
Record Task : Type := mkTask { task_side : string; task_qty : Q; task_max_price : Q }.

(** [position] is the ledger object the bot creates; once the bot has an
    order manager, the manager holds that same object, and the ledger is
    read and written through it (see [ledger]).  [trade_logs] and
    [current_orderbook] are the fields of the bot's [Dashboard]; a log
    entry is the clock reading stamped on it and the message. *)
Record t : Type := mk {
  position : PairPosition.t;
  order_manager : option OrderManager.t;
  monitor : PriceMonitor.t;
  rebalancer : Rebalancer.t;
  trade_logs : list (Q * LogMessage);
  current_orderbook : option OrderBook.t;
  is_trading : bool
}.

(** [TradingBot()] *)
Definition init : t :=
  mk PairPosition.init None
     (PriceMonitor.init Config.ENTRY_PRICE_MIN Config.ENTRY_PRICE_MAX true)
     (Rebalancer.mk Config.IMBALANCE_THRESHOLD) [] None true.

(** [self.position] *)
Definition ledger (self : t) : PairPosition.t :=
  match order_manager self with
  | Some manager => OrderManager.position manager
  | None => position self
  end.

(** [self.order_manager = OrderManager(api, condition_id, self.position)] *)
Definition attach_order_manager (self : t) : t :=
  mk (position self) (Some (OrderManager.init (ledger self))) (monitor self)
     (rebalancer self) (trade_logs self) (current_orderbook self)
     (is_trading self).

Definition with_manager (self : t) (manager : OrderManager.t) : t :=
  mk (position self) (Some manager) (monitor self) (rebalancer self)
     (trade_logs self) (current_orderbook self) (is_trading self).

Definition log (self : t) (now : Q) (message : LogMessage) : t :=
  mk (position self) (order_manager self) (monitor self) (rebalancer self)
     (Display.add_trade_log (trade_logs self) (now, message))
     (current_orderbook self) (is_trading self).

Definition stop_trading (self : t) : t :=
  mk (position self) (order_manager self) (monitor self) (rebalancer self)
     (trade_logs self) (current_orderbook self) false.

(** [on_price_alert(side, price, order_book)]: the bot after the call and
    the task it created, if any. *)
Definition on_price_alert (self : t) (now : Q) (side : string) (price : Q)
  : outcome (t * option Task) :=
  match order_manager self with
  | None => Returns (self, None)
  | Some manager =>
    if negb (is_trading self) then Returns (self, None)
    else if PairPosition.is_profitable (ledger self) then
      Returns (log (stop_trading self) now ProfitLockedStop, None)
    else
      let qty := Config.DEFAULT_ORDER_SIZE in
      match PairPosition.can_buy (ledger self) side qty price with
      | Raises e => Raises e
      | Returns false => Returns (log self now (NotAdmitted side price), None)
      | Returns true =>
        let opposite_avg :=
          if String.eqb side "YES"
          then Position.avg_price (PairPosition.no (ledger self))
          else Position.avg_price (PairPosition.yes (ledger self)) in
        let target_price :=
          OrderManager.calculate_target_price manager side opposite_avg in
        Returns (log self now (BuySignal side price target_price),
                 Some (mkTask side qty target_price))
      end
  end.

(** [_place_order_with_log(side, qty, max_price)]; [fetched] is the
    answer of the API should the manager hold no snapshot. *)
Definition _place_order_with_log (self : t) (fetched : option OrderBook.t)
    (now : Q) (side : string) (qty max_price : Q) : t :=
  match order_manager self with
  | None => self
  | Some manager =>
    let '(order, manager') :=
      OrderManager.place_limit_order manager fetched now side qty max_price in
    let self' := with_manager self manager' in
    match order with
    | Some o =>
      if OrderStatus_eqb (Order.status o) FILLED then
        log self' now
            (SimulatedFill side (Order.filled_qty o) (Order.filled_price o)
               (Order.filled_qty o * Order.filled_price o))
      else self'
    | None => self'
    end
  end.

(** [on_orderbook_update(orderbook)]: the monitor calls [on_price_alert]
    from inside [check_price], after the manager took the snapshot. *)
Definition on_orderbook_update (self : t) (now : Q) (orderbook : OrderBook.t)
  : outcome (t * option Task) :=
  let self1 :=
    match order_manager self with
    | Some manager =>
      with_manager self (OrderManager.update_orderbook manager orderbook)
    | None => self
    end in
  let tick := PriceMonitor.check_price (monitor self1) orderbook in
  let finish (bot : t) : t :=
    mk (position bot) (order_manager bot) (PriceMonitor.after tick)
       (rebalancer bot) (trade_logs bot) (Some orderbook) (is_trading bot) in
  match PriceMonitor.alerted tick with
  | Some (side, price) =>
    match on_price_alert self1 now side price with
    | Raises e => Raises e
    | Returns (self2, task) => Returns (finish self2, task)
    end
  | None => Returns (finish self1, None)
  end.

(** One pass through the body of the [while self.is_trading] loop of
    [trading_loop], without its sleeps. *)
Definition trading_loop_step (self : t) (now : Q) : outcome t :=
  match order_manager self with
  | None => Returns self
  | Some manager =>
    match OrderManager.current_orderbook manager with
    | None => Returns self
    | Some order_book =>
      let pos := ledger self in
      if PairPosition.is_profitable pos then
        Returns (with_manager (stop_trading self)
                   (snd (OrderManager.cancel_all_orders manager)))
      else if Rebalancer.should_rebalance (rebalancer self) pos then
        let priority_side := Rebalancer.get_priority_side (rebalancer self) pos in
        let price :=
          if String.eqb priority_side "YES"
          then OrderBook.yes_mid_price order_book
          else OrderBook.no_mid_price order_book in
        if Qle_bool Config.ENTRY_PRICE_MIN price
           && Qle_bool price Config.ENTRY_PRICE_MAX
        then
          let qty := Config.REBALANCE_ORDER_SIZE in
          let opposite_avg :=
            if String.eqb priority_side "YES"
            then Position.avg_price (PairPosition.no pos)
            else Position.avg_price (PairPosition.yes pos) in
          let target_price :=
            OrderManager.calculate_target_price manager priority_side
              opposite_avg in
          match PairPosition.can_buy pos priority_side qty price with
          | Raises e => Raises e
          | Returns false => Returns self
          | Returns true =>
            let self1 := log self now (RebalanceTrade priority_side price) in
            let '(order, manager') :=
              OrderManager.place_limit_order manager None now priority_side
                qty target_price in
            let self2 := with_manager self1 manager' in
            match order with
            | Some o =>
              if OrderStatus_eqb (Order.status o) FILLED then
                Returns (log self2 now
                           (RebalanceFill priority_side (Order.filled_qty o)
                              (Order.filled_price o)))
              else Returns self2
            | None => Returns self2
            end
          end
        else Returns self
      else Returns self
    end
  end.

End TradingBot.

(** ** The ledger and the order manager in binary64

    A Python [float] is an IEEE 754 binary64 number.  Whether a fill is
    admitted, and what a fill leaves on the ledger, depends on how a
    product, a quotient and a sum are rounded, so
    [src/core/position.py] and the placing of an order in
    [src/execution/order_manager.py] are embedded a second time, over
    the primitive binary64 numbers: [+], [*] and [/] round to nearest
    even, [<?], [<=?] and [=?] are the comparisons of the source, and a
    literal such as [0.98] is the binary64 number Python reads it as.
    Each division of the source sits behind a guard ([qty == 0],
    [new_qty > 0]) that keeps a zero divisor away, so no
    [ZeroDivisionError] is raised.  Instants stay in [Q]. *)

Module Binary64.

Import PrimFloat.
Local Open Scope float_scope.

Definition fee_ceiling : float := 0.98.

(** Python's [min(a, b)]: the first argument unless the second is smaller. *)
Definition py_min (a b : float) : float := if b <? a then b else a.

(** *** src/core/position.py *)

Module Position.

Record t : Type := mk { qty : float; cost : float }.

Definition init : t := mk 0 0.

Definition avg_price (self : t) : float :=
  if qty self =? 0 then 0.5 else cost self / qty self.

Definition add_position (self : t) (q price : float) : t :=
  mk (qty self + q) (cost self + price * q).

End Position.

Module PairPosition.

Record t : Type := mk { yes : Position.t; no : Position.t }.

Definition init : t := mk Position.init Position.init.

Definition can_buy (self : t) (side : string) (q price : float)
  : outcome bool :=
  let allowed (current_pos : Position.t) (opposite_avg : float) : bool :=
    let new_cost := Position.cost current_pos + price * q in
    let new_qty := Position.qty current_pos + q in
    let new_avg := if 0 <? new_qty then new_cost / new_qty else price in
    new_avg + opposite_avg <? fee_ceiling in
  if String.eqb (upper side) "YES" then
    Returns (allowed (yes self) (Position.avg_price (no self)))
  else if String.eqb (upper side) "NO" then
    Returns (allowed (no self) (Position.avg_price (yes self)))
  else Raises (ValueError ("Invalid side: " ++ side)).

End PairPosition.

(** *** src/market/polymarket_api.py *)

Module OrderBookLevel.
Record t : Type := mk { price : float; qty : float }.
End OrderBookLevel.

Module OrderBook.

Record t : Type := mk {
  yes_bids : list OrderBookLevel.t;
  yes_asks : list OrderBookLevel.t;
  no_bids : list OrderBookLevel.t;
  no_asks : list OrderBookLevel.t;
  timestamp : Q
}.

Definition get_best_ask (self : t) (side : string) : option OrderBookLevel.t :=
  if String.eqb (upper side) "YES" then hd_error (yes_asks self)
  else if String.eqb (upper side) "NO" then hd_error (no_asks self)
  else None.

End OrderBook.

(** *** src/execution/order_manager.py *)

Module Order.

Record t : Type := mk {
  side : string;
  price : float;
  qty : float;
  status : OrderStatus;
  filled_qty : float;
  filled_price : float;
  timestamp : Q;
  is_simulated : bool
}.

Definition new (side : string) (price qty : float) (now : Q) : t :=
  mk side price qty PENDING 0 0 now true.

(** The dataclass [__eq__] between two distinct order objects, field by
    field. *)
Definition eqb (a b : t) : bool :=
  String.eqb (side a) (side b) && (price a =? price b)
  && (qty a =? qty b) && OrderStatus_eqb (status a) (status b)
  && (filled_qty a =? filled_qty b)
  && (filled_price a =? filled_price b)
  && Qeq_bool (timestamp a) (timestamp b)
  && Bool.eqb (is_simulated a) (is_simulated b).

End Order.

(** [pending_orders.remove(order)] for the order appended last to the
    list, [others] being the elements before it: the first element equal
    to the order goes, and the order itself, met last, is found by
    identity. *)
Fixpoint remove_shared (x : Order.t) (others : list Order.t) : list Order.t :=
  match others with
  | [] => []
  | y :: rest =>
    if Order.eqb y x then rest ++ [x] else y :: remove_shared x rest
  end.

Module OrderManager.

Record t : Type := mk {
  position : PairPosition.t;
  pending_orders : list Order.t;
  filled_orders : list Order.t;
  current_orderbook : option OrderBook.t;
  trade_history : list Order.t
}.

Definition init (position : PairPosition.t) : t := mk position [] [] None [].

Definition update_orderbook (self : t) (orderbook : OrderBook.t) : t :=
  mk (position self) (pending_orders self) (filled_orders self)
     (Some orderbook) (trade_history self).

(** [_try_fill_order] on the order that [place_limit_order] has just
    appended to [pending_orders]; [others] is that list without it. *)
Definition _try_fill_order (self : t) (others : list Order.t) (order : Order.t)
  : Order.t * t :=
  if negb (OrderStatus_eqb (Order.status order) PENDING) then (order, self)
  else
    match current_orderbook self with
    | None => (order, self)
    | Some book =>
      match OrderBook.get_best_ask book (Order.side order) with
      | Some best_ask =>
        if OrderBookLevel.price best_ask <=? Order.price order then
          let fq := py_min (Order.qty order) (OrderBookLevel.qty best_ask) in
          let fp := OrderBookLevel.price best_ask in
          let order' :=
            Order.mk (Order.side order) (Order.price order) (Order.qty order)
                     FILLED fq fp (Order.timestamp order)
                     (Order.is_simulated order) in
          let pos := position self in
          let pos' :=
            if String.eqb (Order.side order) "YES" then
              PairPosition.mk
                (Position.add_position (PairPosition.yes pos) fq fp)
                (PairPosition.no pos)
            else
              PairPosition.mk
                (PairPosition.yes pos)
                (Position.add_position (PairPosition.no pos) fq fp) in
          (order',
           mk pos' (remove_shared order' others)
              (filled_orders self ++ [order'])
              (current_orderbook self)
              (trade_history self ++ [order']))
        else (order, self)
      | None => (order, self)
      end
    end.

Definition place_limit_order (self : t) (fetched : option OrderBook.t)
    (now : Q) (side : string) (qty max_price : float) : option Order.t * t :=
  let book_opt :=
    match current_orderbook self with
    | Some b => Some b
    | None => fetched
    end in
  let self1 :=
    mk (position self) (pending_orders self) (filled_orders self)
       book_opt (trade_history self) in
  match book_opt with
  | None => (None, self1)
  | Some book =>
    match OrderBook.get_best_ask book side with
    | None => (None, self1)
    | Some best_ask =>
      if max_price <? OrderBookLevel.price best_ask then (None, self1)
      else
        let target_price := OrderBookLevel.price best_ask in
        let order := Order.new side target_price qty now in
        let self2 :=
          mk (position self1) (pending_orders self1 ++ [order])
             (filled_orders self1) (current_orderbook self1)
             (trade_history self1) in
        let '(order', self3) :=
          _try_fill_order self2 (pending_orders self1) order in
        (Some order', self3)
    end
  end.

End OrderManager.

End Binary64.

(** * Vocabulary of the statements *)

(** A one-level snapshot with the given best bid and ask on each side. *)
Definition snapshot (yes_bid yes_ask no_bid no_ask : Q) : OrderBook.t :=
  OrderBook.mk [OrderBookLevel.mk yes_bid 100] [OrderBookLevel.mk yes_ask 100]
               [OrderBookLevel.mk no_bid 100] [OrderBookLevel.mk no_ask 100] 0.

(** The two sides, for statements that range over YES and NO. *)
Inductive Side : Type := YES | NO.

Definition side_name (s : Side) : string :=
  match s with YES => "YES" | NO => "NO" end.

Definition opposite (s : Side) : Side :=
  match s with YES => NO | NO => YES end.

Definition held (pos : PairPosition.t) (s : Side) : Position.t :=
  match s with YES => PairPosition.yes pos | NO => PairPosition.no pos end.

(** The average price of a side after a fill of [q] units at [price]:
    (cost + price * q) / (quantity + q). *)
Definition post_fill_average (p : Position.t) (q price : Q) : Q :=
  (Position.cost p + price * q) / (Position.qty p + q).

(** The sum the admission rule bounds: the post-fill average of the side
    bought plus the current average of the opposite side. *)
Definition admission_sum (pos : PairPosition.t) (s : Side) (q price : Q) : Q :=
  post_fill_average (held pos s) q price
  + Position.avg_price (held pos (opposite s)).

(** The snapshot a call of [place_limit_order] works on: the one the
    manager holds, else the one fetched. *)
Definition available (mgr : OrderManager.t) (fetched : option OrderBook.t)
  : option OrderBook.t :=
  match OrderManager.current_orderbook mgr with
  | Some b => Some b
  | None => fetched
  end.

(** The ledger after a fill is booked: [add_position] on YES when the
    order's side is the string "YES", on NO otherwise, as
    [_try_fill_order] dispatches it. *)
Definition add_fill (pos : PairPosition.t) (side : string) (q price : Q)
  : PairPosition.t :=
  if String.eqb side "YES" then
    PairPosition.mk (Position.add_position (PairPosition.yes pos) q price)
                    (PairPosition.no pos)
  else
    PairPosition.mk (PairPosition.yes pos)
                    (Position.add_position (PairPosition.no pos) q price).

(** Everything of the manager but the snapshot it holds. *)
Definition books_kept (before after : OrderManager.t) : Prop :=
  OrderManager.position after = OrderManager.position before
  /\ OrderManager.pending_orders after = OrderManager.pending_orders before
  /\ OrderManager.filled_orders after = OrderManager.filled_orders before
  /\ OrderManager.trade_history after = OrderManager.trade_history before.

(** The controller as the application builds it (dashboard.py), every
    limit taken from [Config]. *)
Definition configured : RiskController.t :=
  RiskController.init Config.MAX_TOTAL_CAPITAL Config.MAX_POS_PER_WINDOW
    Config.MAX_UNHEDGED_SEC Config.MAX_PAIR_COST Config.MAX_LOSS_RATIO
    Config.SETTLEMENT_BUFFER_SECONDS Config.PAIR_COST_CHECK_DELAY_SECONDS.

(** The three stops that are decided before the capital limits. *)
Definition early_stop (r : Reason) : bool :=
  match r with
  | ProfitLocked | UnhedgedTooLong _ _ | PairCostTooHigh _ _ => true
  | _ => false
  end.

(** The side held alone, if any: the test and the name
    [check_stop_conditions] computes from the two quantities. *)
Definition unhedged_side (position : PairPosition.t) : option string :=
  let has_yes := Qltb 0 (Position.qty (PairPosition.yes position)) in
  let has_no := Qltb 0 (Position.qty (PairPosition.no position)) in
  if (has_yes && negb has_no) || (has_no && negb has_yes)
  then Some (if has_yes then "YES" else "NO")%string
  else None.

(** What a call does to the clock fields while [side] is held alone. *)
Definition restart (self : RiskController.t) (side : string) (now : Q)
  : RiskController.t :=
  if negb (opt_string_eqb (RiskController.last_unhedged_side self) (Some side))
  then RiskController.with_clock self (Some now) (Some side)
  else match RiskController.unhedged_start_time self with
       | None => RiskController.with_clock self (Some now)
                   (RiskController.last_unhedged_side self)
       | Some _ => self
       end.

(** One call on the order manager, for statements about sequences of
    calls. *)
Inductive Call : Type :=
| UpdateOrderbook (orderbook : OrderBook.t)
| PlaceLimitOrder (fetched : option OrderBook.t) (now : Q) (side : string)
                  (qty max_price : Q)
| CancelAllOrders.

Definition call (mgr : OrderManager.t) (c : Call) : OrderManager.t :=
  match c with
  | UpdateOrderbook orderbook => OrderManager.update_orderbook mgr orderbook
  | PlaceLimitOrder fetched now side qty max_price =>
    snd (OrderManager.place_limit_order mgr fetched now side qty max_price)
  | CancelAllOrders => snd (OrderManager.cancel_all_orders mgr)
  end.

Definition calls (mgr : OrderManager.t) (cs : list Call) : OrderManager.t :=
  fold_left call cs mgr.

(** A filled order booked on a ledger. *)
Definition book_fill (pos : PairPosition.t) (o : Order.t) : PairPosition.t :=
  add_fill pos (Order.side o) (Order.filled_qty o) (Order.filled_price o).

(** A side of the ledger as fills leave it: quantity and cost are not
    negative, and an empty side has cost nothing. *)
Definition well_kept (p : Position.t) : Prop :=
  0 <= Position.qty p /\ 0 <= Position.cost p
  /\ (Position.qty p == 0 -> Position.cost p == 0).

(** The ledger is flat, or its pair cost is within the fee ceiling. *)
Definition within_ceiling (pos : PairPosition.t) : Prop :=
  well_kept (PairPosition.yes pos) /\ well_kept (PairPosition.no pos)
  /\ ((Position.qty (PairPosition.yes pos) == 0
       /\ Position.qty (PairPosition.no pos) == 0)
      \/ PairPosition.pair_cost pos <= fee_ceiling).

(** The books of a manager between calls: nothing pending, the trade
    history and the filled list the same, every order in them filled at
    its own price, and the ledger equal to [base] with the filled orders
    booked in order. *)
Definition settled (base : PairPosition.t) (mgr : OrderManager.t) : Prop :=
  OrderManager.pending_orders mgr = []
  /\ OrderManager.trade_history mgr = OrderManager.filled_orders mgr
  /\ Forall (fun o => Order.status o = FILLED
                      /\ Order.filled_price o = Order.price o)
            (OrderManager.filled_orders mgr)
  /\ OrderManager.position mgr
     = fold_left book_fill (OrderManager.filled_orders mgr) base.


(** The ask queue of a side. *)
Definition asks_of (book : OrderBook.t) (s : Side) : list OrderBookLevel.t :=
  match s with
  | YES => OrderBook.yes_asks book
  | NO => OrderBook.no_asks book
  end.

(** ** The vocabulary over binary64 *)

Section Vocabulary64.

Import PrimFloat.
Local Open Scope float_scope.

Definition snapshot64 (yes_bid yes_ask no_bid no_ask : float)
  : Binary64.OrderBook.t :=
  Binary64.OrderBook.mk
    [Binary64.OrderBookLevel.mk yes_bid 100]
    [Binary64.OrderBookLevel.mk yes_ask 100]
    [Binary64.OrderBookLevel.mk no_bid 100]
    [Binary64.OrderBookLevel.mk no_ask 100] 0%Q.

Definition held64 (pos : Binary64.PairPosition.t) (s : Side)
  : Binary64.Position.t :=
  match s with
  | YES => Binary64.PairPosition.yes pos
  | NO => Binary64.PairPosition.no pos
  end.

Definition asks64 (book : Binary64.OrderBook.t) (s : Side)
  : list Binary64.OrderBookLevel.t :=
  match s with
  | YES => Binary64.OrderBook.yes_asks book
  | NO => Binary64.OrderBook.no_asks book
  end.

(** The average price of a side as the ledger is documented: cost over
    quantity, and the neutral 0.5 for a side that holds nothing. *)
Definition average_held (p : Binary64.Position.t) : float :=
  if Binary64.Position.qty p =? 0 then 0.5
  else Binary64.Position.cost p / Binary64.Position.qty p.

(** The average price a side would have after a fill of [q] units at
    [price]: (cost + price * q) / (quantity + q). *)
Definition average_after_fill (p : Binary64.Position.t) (q price : float)
  : float :=
  (Binary64.Position.cost p + price * q) / (Binary64.Position.qty p + q).

(** The sum the admission rule is documented to bound by 0.98: the
    average of side [s] after the fill plus the average the opposite
    side has now. *)
Definition pair_sum_after_fill (pos : Binary64.PairPosition.t) (s : Side)
    (q price : float) : float :=
  average_after_fill (held64 pos s) q price
  + average_held (held64 pos (opposite s)).

(** The ledger once a fill of [q] units at [price] is added to side
    [s]: the quantity of that side grows by [q], its cost by
    [price * q], and the other side stays as it is. *)
Definition ledger_after_fill (pos : Binary64.PairPosition.t) (s : Side)
    (q price : float) : Binary64.PairPosition.t :=
  let grown (p : Binary64.Position.t) :=
    Binary64.Position.mk (Binary64.Position.qty p + q)
                         (Binary64.Position.cost p + price * q) in
  match s with
  | YES => Binary64.PairPosition.mk (grown (Binary64.PairPosition.yes pos))
                                    (Binary64.PairPosition.no pos)
  | NO => Binary64.PairPosition.mk (Binary64.PairPosition.yes pos)
                                   (grown (Binary64.PairPosition.no pos))
  end.

(** The snapshot a call of [place_limit_order] works on. *)
Definition available64 (mgr : Binary64.OrderManager.t)
    (fetched : option Binary64.OrderBook.t) : option Binary64.OrderBook.t :=
  match Binary64.OrderManager.current_orderbook mgr with
  | Some b => Some b
  | None => fetched
  end.

(** The ledger and the three order lists are those of [before]. *)
Definition books_kept64 (before after : Binary64.OrderManager.t) : Prop :=
  Binary64.OrderManager.position after = Binary64.OrderManager.position before
  /\ Binary64.OrderManager.pending_orders after
     = Binary64.OrderManager.pending_orders before
  /\ Binary64.OrderManager.filled_orders after
     = Binary64.OrderManager.filled_orders before
  /\ Binary64.OrderManager.trade_history after
     = Binary64.OrderManager.trade_history before.

End Vocabulary64.

(** * Properties *)

(** ** The boolean comparisons against the order on [Q] *)

Lemma Qltb_lt (a b : Q) : Qltb a b = true <-> a < b.
Proof.
  unfold Qltb. rewrite negb_true_iff.
  split; intro H.
  - apply Qnot_le_lt. intro Hle. apply Qle_bool_iff in Hle. congruence.
  - destruct (Qle_bool b a) eqn:E; [ | reflexivity ].
    apply Qle_bool_iff in E. exfalso. apply (Qlt_not_le _ _ H E).
Qed.

Lemma Qltb_ge (a b : Q) : Qltb a b = false <-> b <= a.
Proof.
  unfold Qltb. rewrite negb_false_iff. apply Qle_bool_iff.
Qed.

Lemma Qeq_bool_false (a b : Q) : Qeq_bool a b = false <-> ~ a == b.
Proof.
  split; intro H.
  - intro E. apply Qeq_bool_iff in E. congruence.
  - destruct (Qeq_bool a b) eqn:E; [ | reflexivity ].
    apply Qeq_bool_iff in E. contradiction.
Qed.

(** ** Price band monitor *)

Section Monitor.

Import PriceMonitor.

(** A tick that fires leaves the monitor as it was. *)
Lemma check_price_fired_keeps_state (m : t) (ob : OrderBook.t) (s : string) :
  returned (check_price m ob) = Some s -> after (check_price m ob) = m.
Proof.
  unfold check_price.
  destruct (in_band m (OrderBook.yes_mid_price ob)
            && was_outside m (last_yes_price m)); [ reflexivity | ].
  destruct (in_band m (OrderBook.no_mid_price ob)
            && was_outside m (last_no_price m)); [ reflexivity | ].
  discriminate.
Qed.

(** A tick that does not fire records both mid-prices. *)
Lemma check_price_quiet_records (m : t) (ob : OrderBook.t) :
  returned (check_price m ob) = None ->
  after (check_price m ob)
  = mk (entry_price_min m) (entry_price_max m) (callback m)
       (OrderBook.yes_mid_price ob) (OrderBook.no_mid_price ob).
Proof.
  unfold check_price.
  destruct (in_band m (OrderBook.yes_mid_price ob)
            && was_outside m (last_yes_price m)); [ discriminate | ].
  destruct (in_band m (OrderBook.no_mid_price ob)
            && was_outside m (last_no_price m)); [ discriminate | ].
  reflexivity.
Qed.

(** Since a firing tick records nothing, the same snapshot fires again:
    the monitor keeps returning the side on every tick for which the
    price stays inside the band. *)
Lemma check_price_fires_again (m : t) (ob : OrderBook.t) (s : string) :
  returned (check_price m ob) = Some s ->
  check_price (after (check_price m ob)) ob = check_price m ob.
Proof.
  intro H. rewrite (check_price_fired_keeps_state m ob s H). reflexivity.
Qed.

Lemma was_outside_inside (m : t) (p : Q) :
  entry_price_min m <= p -> p <= entry_price_max m -> was_outside m p = false.
Proof.
  intros Hlo Hhi. unfold was_outside.
  apply orb_false_iff. split; apply Qltb_ge; assumption.
Qed.

End Monitor.

(** C1 (the code departs from the claim).  On the default monitor, with
    band [0.35, 0.50], the YES mid-price is 0.60 on the first tick and 0.45
    on the second and on the third tick.  The second tick is the edge into
    the band and returns YES.  On the third tick the price was inside the
    band on the previous tick and is still inside, and [check_price]
    returns YES again: the firing tick returned before recording the
    price, so the monitor still compares against 0.60. *)
Theorem C1_refires_inside_band :
  let ticks := [snapshot (59 # 100) (61 # 100) (39 # 100) (41 # 100);
                snapshot (44 # 100) (46 # 100) (54 # 100) (56 # 100);
                snapshot (44 # 100) (46 # 100) (54 # 100) (56 # 100)] in
  map (fun ob => PriceMonitor.in_band PriceMonitor.default
                   (OrderBook.yes_mid_price ob)) ticks
  = [false; true; true]
  /\ PriceMonitor.run PriceMonitor.default ticks
     = [None; Some "YES"%string; Some "YES"%string].
Proof.
  split; reflexivity.
Qed.

(** C10.  A new monitor holds 0.5 as the last mid-price of both sides; a
    tick on which a side fires leaves the monitor unchanged and a tick on
    which none fires records both mid-prices; and when the band contains
    0.5, the first [check_price] on a new monitor returns no side, whatever
    the snapshot. *)
Theorem C10_first_tick_reference (lo hi : Q) (cb : bool) (ob : OrderBook.t) :
  lo <= 1 # 2 -> 1 # 2 <= hi ->
  PriceMonitor.last_yes_price (PriceMonitor.init lo hi cb) = 1 # 2
  /\ PriceMonitor.last_no_price (PriceMonitor.init lo hi cb) = 1 # 2
  /\ (forall (m : PriceMonitor.t) (b : OrderBook.t),
        match PriceMonitor.returned (PriceMonitor.check_price m b) with
        | Some _ => PriceMonitor.after (PriceMonitor.check_price m b) = m
        | None =>
          PriceMonitor.last_yes_price
            (PriceMonitor.after (PriceMonitor.check_price m b))
          = OrderBook.yes_mid_price b
          /\ PriceMonitor.last_no_price
               (PriceMonitor.after (PriceMonitor.check_price m b))
             = OrderBook.no_mid_price b
        end)
  /\ PriceMonitor.returned
       (PriceMonitor.check_price (PriceMonitor.init lo hi cb) ob) = None
  /\ PriceMonitor.alerted
       (PriceMonitor.check_price (PriceMonitor.init lo hi cb) ob) = None.
Proof.
  intros Hlo Hhi.
  split; [ reflexivity | ]. split; [ reflexivity | ]. split.
  - intros m b.
    destruct (PriceMonitor.returned (PriceMonitor.check_price m b)) as [s | ] eqn:E.
    + exact (check_price_fired_keeps_state m b s E).
    + rewrite (check_price_quiet_records m b E). split; reflexivity.
  - assert (Hin : PriceMonitor.was_outside (PriceMonitor.init lo hi cb) (1 # 2)
                  = false)
      by (apply was_outside_inside; assumption).
    unfold PriceMonitor.check_price.
    change (PriceMonitor.last_yes_price (PriceMonitor.init lo hi cb)) with (1 # 2).
    change (PriceMonitor.last_no_price (PriceMonitor.init lo hi cb)) with (1 # 2).
    rewrite Hin, !andb_false_r. split; reflexivity.
Qed.

Lemma C10_first_tick_reference_witness :
  35 # 100 <= 1 # 2 /\ 1 # 2 <= 50 # 100
  /\ PriceMonitor.returned
       (PriceMonitor.check_price (PriceMonitor.init (35 # 100) (50 # 100) true)
          (snapshot (44 # 100) (46 # 100) (54 # 100) (56 # 100))) = None.
Proof.
  assert (Hlo : 35 # 100 <= 1 # 2) by (unfold Qle; simpl; lia).
  assert (Hhi : 1 # 2 <= 50 # 100) by (unfold Qle; simpl; lia).
  split; [ exact Hlo | ]. split; [ exact Hhi | ].
  apply (C10_first_tick_reference (35 # 100) (50 # 100) true
           (snapshot (44 # 100) (46 # 100) (54 # 100) (56 # 100)) Hlo Hhi).
Defined.

(** ** The order on binary64 *)

Section Binary64Order.

Import PrimFloat FloatOps FloatAxioms SpecFloat.
Local Open Scope float_scope.

Lemma SFcompare_swap (a b : spec_float) :
  SFcompare b a = option_map CompOpp (SFcompare a b).
Proof.
  destruct a as [ [ | ] | [ | ] | | [ | ] m e ],
           b as [ [ | ] | [ | ] | | [ | ] m' e' ];
    cbn; try reflexivity.
  - rewrite (Z.compare_antisym e e').
    destruct (e ?= e')%Z; cbn; try reflexivity.
    rewrite (Pos.compare_cont_antisym m m' Eq). cbn.
    destruct (Pos.compare_cont Eq m m'); reflexivity.
  - rewrite (Z.compare_antisym e e').
    destruct (e ?= e')%Z; cbn; try reflexivity.
    rewrite (Pos.compare_cont_antisym m m' Eq). reflexivity.
Qed.

Lemma SFcompare_self (a b : spec_float) :
  SFcompare a b <> None -> SFcompare a a = Some Eq.
Proof.
  destruct a as [ [ | ] | [ | ] | | [ | ] m e ]; cbn; try reflexivity.
  - destruct b; cbn; congruence.
  - intros _. rewrite Z.compare_refl, Pos.compare_cont_refl. reflexivity.
  - intros _. rewrite Z.compare_refl, Pos.compare_cont_refl. reflexivity.
Qed.

(** [x <= y] excludes [y < x]. *)
Lemma leb_not_ltb (x y : float) : (x <=? y) = true -> (y <? x) = false.
Proof.
  rewrite leb_spec, ltb_spec. unfold SFleb, SFltb.
  rewrite (SFcompare_swap (Prim2SF x) (Prim2SF y)).
  destruct (SFcompare (Prim2SF x) (Prim2SF y)) as [ [ | | ] | ];
    cbn; congruence.
Qed.

(** Between two numbers (neither is NaN), [y < x] fails only when
    [x <= y]. *)
Lemma not_ltb_leb (x y : float) :
  (x =? x) = true -> (y =? y) = true -> (y <? x) = false -> (x <=? y) = true.
Proof.
  rewrite leb_spec, ltb_spec, !eqb_spec. unfold SFleb, SFltb, SFeqb.
  rewrite (SFcompare_swap (Prim2SF x) (Prim2SF y)).
  destruct (Prim2SF x) as [ [ | ] | [ | ] | | [ | ] m e ],
           (Prim2SF y) as [ [ | ] | [ | ] | | [ | ] m' e' ];
    cbn; try congruence; intros _ _;
    destruct (e ?= e')%Z; cbn; try congruence;
    destruct (Pos.compare_cont Eq m m'); cbn; congruence.
Qed.

(** What is below or equal to something is equal to itself (it is not
    NaN). *)
Lemma leb_refl_left (x y : float) : (x <=? y) = true -> (x <=? x) = true.
Proof.
  rewrite !leb_spec. unfold SFleb. intro H.
  rewrite (SFcompare_self (Prim2SF x) (Prim2SF y)); [ reflexivity | ].
  destruct (SFcompare (Prim2SF x) (Prim2SF y)); congruence.
Qed.

Lemma ltb_asym (x y : float) : (x <? y) = true -> (y <? x) = false.
Proof.
  rewrite !ltb_spec. unfold SFltb.
  rewrite (SFcompare_swap (Prim2SF x) (Prim2SF y)).
  destruct (SFcompare (Prim2SF x) (Prim2SF y)) as [ [ | | ] | ];
    cbn; congruence.
Qed.

Lemma ltb_irrefl (x : float) : (x <? x) = false.
Proof.
  destruct (x <? x) eqn:E; [ | reflexivity ].
  rewrite (ltb_asym x x E) in E. discriminate E.
Qed.

(** [min(a, b)] is one of its arguments and neither is below it. *)
Lemma py_min64_spec (a b : float) :
  (Binary64.py_min a b = a \/ Binary64.py_min a b = b)
  /\ (a <? Binary64.py_min a b) = false
  /\ (b <? Binary64.py_min a b) = false.
Proof.
  unfold Binary64.py_min. destruct (b <? a) eqn:E.
  - split; [ right; reflexivity | ].
    split; [ apply ltb_asym; exact E | apply ltb_irrefl ].
  - split; [ left; reflexivity | ].
    split; [ apply ltb_irrefl | exact E ].
Qed.

End Binary64Order.

(** ** Admission control and target price *)

Section Admission.

Lemma upper_side_name (s : Side) : upper (side_name s) = side_name s.
Proof. destruct s; reflexivity. Qed.

(** What [can_buy] computes once the side is recognised and the
    quantity after the fill is positive. *)
Lemma can_buy_recognised (pos : PairPosition.t) (side : string) (s : Side)
    (q price : Q) :
  upper side = side_name s ->
  0 < Position.qty (held pos s) + q ->
  PairPosition.can_buy pos side q price
  = Returns (Qltb (admission_sum pos s q price) fee_ceiling).
Proof.
  intros Hside Hpos.
  apply Qltb_lt in Hpos.
  unfold PairPosition.can_buy, admission_sum, post_fill_average.
  rewrite Hside.
  destruct s; cbn [side_name String.eqb Ascii.eqb Bool.eqb held opposite] in *;
    rewrite Hpos; reflexivity.
Qed.


End Admission.

Section Admission64.

Import PrimFloat.
Local Open Scope float_scope.

(** [can_buy] in binary64, once the side is recognised and the quantity
    after the fill tests positive. *)
Lemma can_buy64_recognised (pos : Binary64.PairPosition.t) (side : string)
    (s : Side) (q price : float) :
  upper side = side_name s ->
  (0 <? Binary64.Position.qty (held64 pos s) + q) = true ->
  Binary64.PairPosition.can_buy pos side q price
  = Returns (pair_sum_after_fill pos s q price <? 0.98).
Proof.
  intros Hside Hpos.
  unfold Binary64.PairPosition.can_buy, pair_sum_after_fill,
    average_after_fill, average_held, Binary64.Position.avg_price,
    Binary64.fee_ceiling.
  rewrite Hside.
  destruct s; cbn [side_name String.eqb Ascii.eqb Bool.eqb held64 opposite] in *;
    rewrite Hpos; reflexivity.
Qed.

(** C5.  In the arithmetic of the code (binary64), for a side named YES
    or NO in any letter case, a quantity [q] and a price, with the
    quantity of the side after the fill positive: let the sum be the
    post-fill average of the side, (cost + price * q) / (quantity + q),
    plus the current average of the opposite side, its cost over its
    quantity, or 0.5 when it holds nothing.  Then [can_buy] returns
    true exactly when the sum is strictly below 0.98 and false
    otherwise; it returns false whenever the sum is at least 0.98, and,
    the sum being a number, only then. *)
Theorem C5_can_buy_strict_boundary (pos : Binary64.PairPosition.t)
    (side : string) (s : Side) (q price : float) :
  upper side = side_name s ->
  (0 <? Binary64.Position.qty (held64 pos s) + q) = true ->
  let sum := pair_sum_after_fill pos s q price in
  let answer := Binary64.PairPosition.can_buy pos side q price in
  (answer = Returns true <-> (sum <? 0.98) = true)
  /\ (answer = Returns false <-> (sum <? 0.98) = false)
  /\ ((0.98 <=? sum) = true -> answer = Returns false)
  /\ ((sum =? sum) = true ->
      answer = Returns false -> (0.98 <=? sum) = true).
Proof.
  intros Hside Hqty sum answer. subst answer.
  rewrite (can_buy64_recognised pos side s q price Hside Hqty).
  fold sum.
  split; [ | split; [ | split ] ].
  - split; intro H; [ injection H as H; exact H | rewrite H; reflexivity ].
  - split; intro H; [ injection H as H; exact H | rewrite H; reflexivity ].
  - intro H. rewrite (leb_not_ltb _ _ H). reflexivity.
  - intros Hnum H. injection H as H.
    apply not_ltb_leb; [ reflexivity | exact Hnum | exact H ].
Qed.

(** Scenario: NO holds 100 units that cost 30, an average of 0.30, and
    YES is empty.  100 units of YES at 0.60 give the sum 0.60 + 0.30,
    below 0.98, and are admitted: the neutral 0.5 in place of the
    average of NO would have refused them. *)
Lemma C5_can_buy_strict_boundary_witness :
  Binary64.PairPosition.can_buy
    (Binary64.PairPosition.mk Binary64.Position.init
       (Binary64.Position.mk 100 30)) "YES" 100 0.60
  = Returns true
  /\ (0.60 + 0.5 <? 0.98) = false.
Proof.
  split; [ | reflexivity ].
  apply (C5_can_buy_strict_boundary
           (Binary64.PairPosition.mk Binary64.Position.init
              (Binary64.Position.mk 100 30)) "YES" YES 100 0.60).
  - reflexivity.
  - reflexivity.
  - reflexivity.
Defined.

(** Rounding at the boundary.  YES holds 100 units bought at 0.411; 100
    units of NO at 0.569 are admitted, since the post-fill average
    0.569 * 100 / 100 and the average 0.411 * 100 / 100 add up, as
    rounded, to a number below 0.98, whereas 0.411 + 0.569 itself does
    not test below 0.98. *)
Example boundary_rounding_admits :
  let pos :=
    Binary64.PairPosition.mk
      (Binary64.Position.add_position Binary64.Position.init 100 0.411)
      Binary64.Position.init in
  Binary64.PairPosition.can_buy pos "NO" 100 0.569 = Returns true
  /\ (pair_sum_after_fill pos NO 100 0.569 <? 0.98) = true
  /\ (0.411 + 0.569 <? 0.98) = false.
Proof.
  cbv zeta. repeat split.
Qed.

End Admission64.




(** ** Order execution *)

Section Execution.

Variables (mgr : OrderManager.t) (fetched : option OrderBook.t) (now : Q).
Variables (side : string) (qty max_price : Q).

Abbreviation placed :=
  (OrderManager.place_limit_order mgr fetched now side qty max_price).

Lemma Qle_bool_refl (x : Q) : Qle_bool x x = true.
Proof. apply Qle_bool_iff. apply Qle_refl. Qed.

(** No snapshot held and none fetched. *)
Lemma place_without_book :
  available mgr fetched = None -> fst placed = None /\ books_kept mgr (snd placed).
Proof.
  unfold OrderManager.place_limit_order, available.
  intro H. rewrite H. cbn. repeat split.
Qed.

(** No resting ask for the side: also the case of a side the book does
    not know. *)
Lemma place_without_ask (book : OrderBook.t) :
  available mgr fetched = Some book ->
  OrderBook.get_best_ask book side = None ->
  fst placed = None /\ books_kept mgr (snd placed).
Proof.
  unfold OrderManager.place_limit_order, available.
  intros H Hask. rewrite H, Hask. cbn. repeat split.
Qed.

(** The limit reaches the best ask: the order is filled in the call. *)
Lemma place_at_ask (book : OrderBook.t) (best_ask : OrderBookLevel.t) :
  available mgr fetched = Some book ->
  OrderBook.get_best_ask book side = Some best_ask ->
  OrderBookLevel.price best_ask <= max_price ->
  let fq := py_min qty (OrderBookLevel.qty best_ask) in
  let fp := OrderBookLevel.price best_ask in
  let order := Order.mk side fp qty FILLED fq fp now true in
  fst placed = Some order
  /\ OrderManager.position (snd placed)
     = add_fill (OrderManager.position mgr) side fq fp
  /\ OrderManager.filled_orders (snd placed)
     = OrderManager.filled_orders mgr ++ [order]
  /\ OrderManager.trade_history (snd placed)
     = OrderManager.trade_history mgr ++ [order].
Proof.
  unfold OrderManager.place_limit_order, available.
  intros H Hask Hle. apply Qltb_ge in Hle. rewrite H, Hask, Hle.
  unfold OrderManager._try_fill_order.
  cbn [Order.new Order.status OrderStatus_eqb negb Order.side Order.price
       Order.qty Order.timestamp Order.is_simulated
       OrderManager.current_orderbook OrderManager.position
       OrderManager.filled_orders OrderManager.trade_history].
  rewrite Hask, Qle_bool_refl.
  cbn [fst snd OrderManager.position OrderManager.filled_orders
       OrderManager.trade_history].
  repeat split.
Qed.

End Execution.

Section Execution64.

Import PrimFloat.
Local Open Scope float_scope.

Variables (mgr : Binary64.OrderManager.t).
Variables (fetched : option Binary64.OrderBook.t) (now : Q).
Variables (side : string) (qty max_price : float).

Abbreviation placed64 :=
  (Binary64.OrderManager.place_limit_order mgr fetched now side qty max_price).

Lemma place64_without_book :
  available64 mgr fetched = None ->
  fst placed64 = None /\ books_kept64 mgr (snd placed64).
Proof.
  unfold Binary64.OrderManager.place_limit_order, available64.
  intro H. rewrite H. cbn. repeat split.
Qed.

Lemma place64_without_ask (book : Binary64.OrderBook.t) :
  available64 mgr fetched = Some book ->
  Binary64.OrderBook.get_best_ask book side = None ->
  fst placed64 = None /\ books_kept64 mgr (snd placed64).
Proof.
  unfold Binary64.OrderManager.place_limit_order, available64.
  intros H Hask. rewrite H, Hask. cbn. repeat split.
Qed.

Lemma place64_below_ask (book : Binary64.OrderBook.t)
    (best_ask : Binary64.OrderBookLevel.t) :
  available64 mgr fetched = Some book ->
  Binary64.OrderBook.get_best_ask book side = Some best_ask ->
  (max_price <? Binary64.OrderBookLevel.price best_ask) = true ->
  fst placed64 = None /\ books_kept64 mgr (snd placed64).
Proof.
  unfold Binary64.OrderManager.place_limit_order, available64.
  intros H Hask Hlt. rewrite H, Hask, Hlt. cbn. repeat split.
Qed.

(** The limit reaches the best ask: the order is filled in the call,
    and booked by the literal comparison of its side with "YES". *)
Lemma place64_at_ask (book : Binary64.OrderBook.t)
    (best_ask : Binary64.OrderBookLevel.t) :
  available64 mgr fetched = Some book ->
  Binary64.OrderBook.get_best_ask book side = Some best_ask ->
  (Binary64.OrderBookLevel.price best_ask <=? max_price) = true ->
  let fq := Binary64.py_min qty (Binary64.OrderBookLevel.qty best_ask) in
  let fp := Binary64.OrderBookLevel.price best_ask in
  let order := Binary64.Order.mk side fp qty FILLED fq fp now true in
  let pos := Binary64.OrderManager.position mgr in
  fst placed64 = Some order
  /\ Binary64.OrderManager.position (snd placed64)
     = (if String.eqb side "YES" then
          Binary64.PairPosition.mk
            (Binary64.Position.add_position (Binary64.PairPosition.yes pos)
               fq fp)
            (Binary64.PairPosition.no pos)
        else
          Binary64.PairPosition.mk
            (Binary64.PairPosition.yes pos)
            (Binary64.Position.add_position (Binary64.PairPosition.no pos)
               fq fp))
  /\ Binary64.OrderManager.filled_orders (snd placed64)
     = Binary64.OrderManager.filled_orders mgr ++ [order]
  /\ Binary64.OrderManager.trade_history (snd placed64)
     = Binary64.OrderManager.trade_history mgr ++ [order].
Proof.
  unfold Binary64.OrderManager.place_limit_order, available64.
  intros H Hask Hle.
  rewrite H, Hask, (leb_not_ltb _ _ Hle).
  unfold Binary64.OrderManager._try_fill_order.
  cbn [Binary64.Order.new Binary64.Order.status OrderStatus_eqb negb
       Binary64.Order.side Binary64.Order.price Binary64.Order.qty
       Binary64.Order.timestamp Binary64.Order.is_simulated
       Binary64.OrderManager.current_orderbook
       Binary64.OrderManager.position Binary64.OrderManager.filled_orders
       Binary64.OrderManager.trade_history].
  rewrite Hask, (leb_refl_left _ _ Hle).
  cbn [fst snd Binary64.OrderManager.position
       Binary64.OrderManager.filled_orders
       Binary64.OrderManager.trade_history].
  repeat split.
Qed.

End Execution64.

Section CaseVariant.

Import PrimFloat.
Local Open Scope float_scope.

(** C6 fails on the code for a side written in another letter case.
    The manager holds a snapshot whose best YES ask is 0.42 for 100
    units and whose best NO ask is 0.58, and a flat ledger.  The call
    [place_limit_order("yes", 50, 0.45)] finds the YES ask through
    [.upper()] and returns the order FILLED for min(50, 100) = 50 units
    at 0.42; the ledger is then not the old one with that fill added to
    YES: YES is still empty and NO holds the 50 units at a cost of 21.
    The same call with the side "YES" leaves the ledger with the fill
    added to YES. *)
Theorem C6_case_variant_fill_booked_on_no :
  let book := snapshot64 0.40 0.42 0.56 0.58 in
  let mgr :=
    Binary64.OrderManager.update_orderbook
      (Binary64.OrderManager.init Binary64.PairPosition.init) book in
  let placed :=
    Binary64.OrderManager.place_limit_order mgr None 0%Q "yes" 50 0.45 in
  let canonical :=
    Binary64.OrderManager.place_limit_order mgr None 0%Q "YES" 50 0.45 in
  Binary64.OrderBook.get_best_ask book "yes"
  = Some (Binary64.OrderBookLevel.mk 0.42 100)
  /\ fst placed = Some (Binary64.Order.mk "yes" 0.42 50 FILLED 50 0.42 0%Q true)
  /\ Binary64.OrderManager.position (snd placed)
     = Binary64.PairPosition.mk (Binary64.Position.mk 0 0)
                                (Binary64.Position.mk 50 21)
  /\ Binary64.OrderManager.position (snd placed)
     <> ledger_after_fill Binary64.PairPosition.init YES 50 0.42
  /\ Binary64.OrderManager.position (snd canonical)
     = ledger_after_fill Binary64.PairPosition.init YES 50 0.42
  /\ ledger_after_fill Binary64.PairPosition.init YES 50 0.42
     = Binary64.PairPosition.mk (Binary64.Position.mk 50 21)
                                (Binary64.Position.mk 0 0).
Proof.
  cbv zeta. split; [ reflexivity | ]. split; [ reflexivity | ].
  split; [ reflexivity | ]. split; [ | split; reflexivity ].
  intro H.
  apply (f_equal (fun pos =>
                    Binary64.Position.qty (Binary64.PairPosition.yes pos) =? 0))
    in H.
  vm_compute in H. discriminate H.
Qed.

End CaseVariant.

(** C9, as claimed, fails for [place_limit_order]: given the side
    "MAYBE", which is neither YES nor NO after [.upper()], the call
    returns normally with no order and an untouched manager. *)
Lemma C9_invalid_side_counterexample :
  let mgr :=
    OrderManager.update_orderbook (OrderManager.init PairPosition.init)
      (snapshot (40 # 100) (42 # 100) (56 # 100) (58 # 100)) in
  upper "MAYBE" <> "YES"%string /\ upper "MAYBE" <> "NO"%string
  /\ OrderManager.place_limit_order mgr None 0 "MAYBE" 100 (1 # 2) = (None, mgr).
Proof.
  cbv zeta. repeat split; discriminate.
Qed.

(** C9, amended.  For a side that is neither YES nor NO after
    [.upper()]: [can_buy] raises [ValueError] ("Invalid side: ..."),
    whereas [place_limit_order] does not abort: it returns no order and
    leaves the ledger and the order lists unchanged, the same absent
    result as for a side without a resting ask. *)
Theorem C9_invalid_side (side : string) :
  upper side <> "YES"%string -> upper side <> "NO"%string ->
  (forall pos q price,
     PairPosition.can_buy pos side q price
     = Raises (ValueError ("Invalid side: " ++ side)))
  /\ (forall mgr fetched now qty max_price,
        fst (OrderManager.place_limit_order mgr fetched now side qty max_price)
        = None
        /\ books_kept mgr
             (snd (OrderManager.place_limit_order mgr fetched now side qty
                     max_price))).
Proof.
  intros Hyes Hno.
  apply String.eqb_neq in Hyes. apply String.eqb_neq in Hno.
  split.
  - intros pos q price. unfold PairPosition.can_buy.
    rewrite Hyes, Hno. reflexivity.
  - intros mgr fetched now qty max_price.
    destruct (available mgr fetched) as [book | ] eqn:Hbook.
    + apply (place_without_ask _ _ _ _ _ _ book Hbook).
      unfold OrderBook.get_best_ask. rewrite Hyes, Hno. reflexivity.
    + apply place_without_book. exact Hbook.
Qed.

Lemma C9_invalid_side_witness :
  PairPosition.can_buy PairPosition.init "MAYBE" 100 (1 # 2)
  = Raises (ValueError "Invalid side: MAYBE").
Proof.
  apply (C9_invalid_side "MAYBE"); discriminate.
Defined.

(** ** Risk controller *)

Section Limits.

Import RiskController.

Variables (self : t) (position : PairPosition.t).
Variables (orderbook : option OrderBook.t) (market_end_time : option datetime).
Variable clock : Clock.

Abbreviation checked :=
  (check_stop_conditions self position orderbook market_end_time clock).

(** The call never changes a limit of the controller. *)
Lemma check_keeps_limits :
  with_clock self (unhedged_start_time (snd checked))
             (last_unhedged_side (snd checked)) = snd checked.
Proof.
  unfold check_stop_conditions.
  destruct self as [c w u p l b d st sd]. cbn -[Qltb].
  repeat match goal with
         | |- context [if ?b then _ else _] => destruct b
         | |- context [match ?o with Some _ => _ | None => _ end] => destruct o
         end; reflexivity.
Qed.

(** Either an early stop is returned, or the answer is the one of the
    capital and settlement checks. *)
Lemma check_early_or_limits :
  (should_stop (fst checked) = true /\ early_stop (reason (fst checked)) = true)
  \/ fst checked = check_limits (snd checked) position market_end_time clock.
Proof.
  unfold check_stop_conditions.
  repeat match goal with
         | |- context [if ?b then _ else _] => destruct b
         | |- context [match ?o with Some _ => _ | None => _ end] => destruct o
         end; cbn [fst snd should_stop reason early_stop];
    solve [ left; split; reflexivity | right; reflexivity ].
Qed.

(** The per-side cap inside [check_limits]. *)
Lemma check_limits_side_cap :
  PairPosition.total_cost position <= max_total_capital self ->
  (max_pos_per_window self < Position.cost (PairPosition.yes position) ->
   check_limits self position market_end_time clock
   = mkResult true
       (SideCostExceeded "YES" (Position.cost (PairPosition.yes position))
                         (max_pos_per_window self))
       [("type", VStr "max_pos_exceeded"); ("side", VStr "YES");
        ("cost", VFloat (Position.cost (PairPosition.yes position)));
        ("max_allowed", VFloat (max_pos_per_window self))]%string)
  /\ (Position.cost (PairPosition.yes position) <= max_pos_per_window self ->
      max_pos_per_window self < Position.cost (PairPosition.no position) ->
      check_limits self position market_end_time clock
      = mkResult true
          (SideCostExceeded "NO" (Position.cost (PairPosition.no position))
                            (max_pos_per_window self))
          [("type", VStr "max_pos_exceeded"); ("side", VStr "NO");
           ("cost", VFloat (Position.cost (PairPosition.no position)));
           ("max_allowed", VFloat (max_pos_per_window self))]%string).
Proof.
  intro Hcap. apply Qltb_ge in Hcap. unfold check_limits. rewrite Hcap.
  split.
  - intro Hyes. apply Qltb_lt in Hyes. rewrite Hyes. reflexivity.
  - intros Hyes Hno. apply Qltb_ge in Hyes. apply Qltb_lt in Hno.
    rewrite Hyes, Hno. reflexivity.
Qed.

End Limits.

(** Whatever the state of the clock fields, a per-side cost above the cap
    stops trading; when no early stop and no total-capital stop is
    returned, the reason names the side over the cap, YES first. *)
Lemma side_cap_stops (self : RiskController.t) (position : PairPosition.t)
    (orderbook : option OrderBook.t) (market_end_time : option datetime)
    (clock : Clock) :
  let r := fst (RiskController.check_stop_conditions self position orderbook
                  market_end_time clock) in
  let cap := RiskController.max_pos_per_window self in
  early_stop (reason r) = false ->
  PairPosition.total_cost position <= RiskController.max_total_capital self ->
  (cap < Position.cost (PairPosition.yes position) ->
   should_stop r = true
   /\ reason r = SideCostExceeded "YES" (Position.cost (PairPosition.yes position)) cap)
  /\ (Position.cost (PairPosition.yes position) <= cap ->
      cap < Position.cost (PairPosition.no position) ->
      should_stop r = true
      /\ reason r = SideCostExceeded "NO" (Position.cost (PairPosition.no position)) cap).
Proof.
  intros r cap Hearly Hcap. subst r cap.
  destruct (check_early_or_limits self position orderbook market_end_time clock)
    as [[_ He] | Heq]; [ congruence | ].
  pose proof (check_keeps_limits self position orderbook market_end_time clock)
    as Hkeep.
  set (self' := snd (RiskController.check_stop_conditions self position orderbook
                       market_end_time clock)) in *.
  assert (Hw : RiskController.max_pos_per_window self'
               = RiskController.max_pos_per_window self)
    by (rewrite <- Hkeep; reflexivity).
  assert (Hc : RiskController.max_total_capital self'
               = RiskController.max_total_capital self)
    by (rewrite <- Hkeep; reflexivity).
  rewrite <- Hc in Hcap. rewrite <- Hw.
  destruct (check_limits_side_cap self' position market_end_time clock Hcap)
    as [Hy Hn].
  rewrite Heq. split.
  - intro H. rewrite (Hy H). split; reflexivity.
  - intros H1 H2. rewrite (Hn H1 H2). split; reflexivity.
Qed.

(** Scenario: yes.cost = 310, no.cost = 50 under a cap of 300. *)
Example side_cap_310_over_300 :
  fst (RiskController.check_stop_conditions configured
         (PairPosition.mk (Position.mk 700 310) (Position.mk 100 50))
         None None (frozen 0))
  = mkResult true (SideCostExceeded "YES" 310 300)
      [("type", VStr "max_pos_exceeded"); ("side", VStr "YES");
       ("cost", VFloat 310); ("max_allowed", VFloat 300)]%string.
Proof.
  reflexivity.
Qed.

(** C3 (the code departs from the claim).  [RiskController()] has the
    per-side cap 200, not 300; the value 300 is the one of [Config], which
    the application passes in.  With yes.cost = 250 and no.cost = 50 (not
    profitable, pair cost below 0.98, total cost 300) the controller built
    with its own defaults stops, citing YES and 250 > 200, whereas under
    the cap of 300 trading continues. *)
Theorem C3_constructor_cap_is_200 :
  let pos := PairPosition.mk (Position.mk 600 250) (Position.mk 100 50) in
  RiskController.max_pos_per_window RiskController.default = 200
  /\ RiskController.max_pos_per_window configured = 300
  /\ fst (RiskController.check_stop_conditions RiskController.default pos
            None None (frozen 0))
     = mkResult true (SideCostExceeded "YES" 250 200)
         [("type", VStr "max_pos_exceeded"); ("side", VStr "YES");
          ("cost", VFloat 250); ("max_allowed", VFloat 200)]%string
  /\ fst (RiskController.check_stop_conditions configured pos
            None None (frozen 0))
     = mkResult false AllChecksPassed [].
Proof.
  repeat split.
Qed.

(** C4, as claimed, fails without a snapshot.  Both sides hold 100 units
    bought at 0.50: the position is hedged, not profitable (100 is not
    above the total cost 100) and its pair cost 1.00 exceeds 0.98.  With
    a snapshot the call stops on the pair cost; with [None] for the
    snapshot the check is skipped and the call answers that trading may
    continue. *)
Lemma C4_pair_cost_counterexample :
  let pos := PairPosition.mk (Position.mk 100 50) (Position.mk 100 50) in
  let book := snapshot (49 # 100) (51 # 100) (49 # 100) (51 # 100) in
  PairPosition.is_profitable pos = false
  /\ RiskController.max_pair_cost RiskController.default
     < Position.avg_price (PairPosition.yes pos)
       + Position.avg_price (PairPosition.no pos)
  /\ reason (fst (RiskController.check_stop_conditions RiskController.default
                    pos (Some book) None (frozen 0)))
     = PairCostTooHigh (50 / 100 + 50 / 100) (98 # 100)
  /\ fst (RiskController.check_stop_conditions RiskController.default pos
            None None (frozen 0))
     = mkResult false AllChecksPassed [].
Proof.
  repeat split.
Qed.

(** C4, amended.  For every hedged position (yes.qty > 0 and no.qty > 0)
    that is not profitable and whose realized pair cost yes.avg_price +
    no.avg_price exceeds [max_pair_cost], [check_stop_conditions] called
    with an order-book snapshot stops with the pair-cost reason, and
    leaves both clock fields empty. *)
Theorem C4_pair_cost_stop (self : RiskController.t) (position : PairPosition.t)
    (book : OrderBook.t) (market_end_time : option datetime) (clock : Clock) :
  let yes := PairPosition.yes position in
  let no := PairPosition.no position in
  let pair_cost := Position.avg_price yes + Position.avg_price no in
  PairPosition.is_profitable position = false ->
  0 < Position.qty yes -> 0 < Position.qty no ->
  RiskController.max_pair_cost self < pair_cost ->
  RiskController.check_stop_conditions self position (Some book)
    market_end_time clock
  = (mkResult true
       (PairCostTooHigh pair_cost (RiskController.max_pair_cost self))
       [("type", VStr "pair_cost_too_high");
        ("pair_cost", VFloat pair_cost);
        ("max_allowed", VFloat (RiskController.max_pair_cost self));
        ("yes_avg", VFloat (Position.avg_price yes));
        ("no_avg", VFloat (Position.avg_price no));
        ("is_hedged", VBool true)]%string,
     RiskController.reset self).
Proof.
  intros yes no pair_cost Hprofit Hyes Hno Hcost.
  apply Qltb_lt in Hyes. apply Qltb_lt in Hno. apply Qltb_lt in Hcost.
  unfold RiskController.check_stop_conditions.
  rewrite Hprofit.
  fold yes. fold no. rewrite Hyes, Hno.
  cbn [negb andb orb].
  change (RiskController.max_pair_cost
            (RiskController.with_clock self None None))
    with (RiskController.max_pair_cost self).
  fold pair_cost. rewrite Hcost. reflexivity.
Qed.

Lemma C4_pair_cost_stop_witness :
  should_stop
    (fst (RiskController.check_stop_conditions configured
            (PairPosition.mk (Position.mk 100 50) (Position.mk 100 50))
            (Some (snapshot (49 # 100) (51 # 100) (49 # 100) (51 # 100)))
            None (frozen 0)))
  = true.
Proof.
  rewrite (C4_pair_cost_stop configured
             (PairPosition.mk (Position.mk 100 50) (Position.mk 100 50))
             (snapshot (49 # 100) (51 # 100) (49 # 100) (51 # 100))
             None (frozen 0));
    reflexivity.
Defined.

(** *** The unhedged clock *)

Section UnhedgedClock.

Import RiskController.

Lemma unhedged_not_profitable (position : PairPosition.t) (side : string) :
  0 <= Position.qty (PairPosition.yes position) ->
  0 <= Position.qty (PairPosition.no position) ->
  unhedged_side position = Some side ->
  PairPosition.is_profitable position = false.
Proof.
  intros Hy Hn. unfold unhedged_side, PairPosition.is_profitable,
    PairPosition.min_qty, py_min.
  destruct (Qltb 0 (Position.qty (PairPosition.yes position))) eqn:Ey;
    destruct (Qltb 0 (Position.qty (PairPosition.no position))) eqn:En;
    cbn [andb orb negb]; try discriminate; intros _.
  - apply Qltb_lt in Ey. apply Qltb_ge in En.
    assert (E0 : Position.qty (PairPosition.no position) == 0) by lra.
    assert (Hlt : Qltb (Position.qty (PairPosition.no position))
                    (Position.qty (PairPosition.yes position)) = true)
      by (apply Qltb_lt; lra).
    rewrite Hlt. apply Qeq_bool_iff in E0. rewrite E0. reflexivity.
  - apply Qltb_ge in Ey. apply Qltb_lt in En.
    assert (E0 : Position.qty (PairPosition.yes position) == 0) by lra.
    assert (Hge : Qltb (Position.qty (PairPosition.no position))
                    (Position.qty (PairPosition.yes position)) = false)
      by (apply Qltb_ge; lra).
    rewrite Hge. apply Qeq_bool_iff in E0. rewrite E0. reflexivity.
Qed.

(** While a side is held alone the clock always runs after the call, on
    that side. *)
Lemma restart_runs (self : t) (side : string) (now : Q) :
  last_unhedged_side (restart self side now) = Some side
  /\ exists start, unhedged_start_time (restart self side now) = Some start.
Proof.
  unfold restart.
  destruct (opt_string_eqb (last_unhedged_side self) (Some side)) eqn:E;
    cbn [negb].
  - assert (Hlast : last_unhedged_side self = Some side).
    { destruct (last_unhedged_side self) as [x | ]; cbn in E;
        [ apply String.eqb_eq in E; congruence | discriminate ]. }
    destruct (unhedged_start_time self) as [st | ] eqn:Est.
    + split; [ exact Hlast | exists st; exact Est ].
    + split; [ exact Hlast | exists now; reflexivity ].
  - split; [ reflexivity | exists now; reflexivity ].
Qed.

(** A flip of the side restarts the clock at the reading of the call. *)
Lemma restart_on_flip (self : t) (side : string) (now : Q) :
  last_unhedged_side self <> Some side ->
  restart self side now = with_clock self (Some now) (Some side).
Proof.
  intro Hne. unfold restart.
  destruct (opt_string_eqb (last_unhedged_side self) (Some side)) eqn:E;
    [ | reflexivity ].
  exfalso. apply Hne.
  destruct (last_unhedged_side self) as [x | ]; cbn in E;
    [ apply String.eqb_eq in E; congruence | discriminate ].
Qed.

(** The whole call while a side is held alone: the clock fields are
    updated by [restart], then the duration is measured against the
    updated start. *)
Lemma check_unhedged (self : t) (position : PairPosition.t)
    (orderbook : option OrderBook.t) (market_end_time : option datetime)
    (clock : Clock) (side : string) :
  PairPosition.is_profitable position = false ->
  unhedged_side position = Some side ->
  let self1 := restart self side (now_start clock) in
  snd (check_stop_conditions self position orderbook market_end_time clock)
  = self1
  /\ forall start, unhedged_start_time self1 = Some start ->
     let elapsed := now_duration clock - start in
     (inject_Z (max_unhedged_seconds self) < elapsed ->
      fst (check_stop_conditions self position orderbook market_end_time clock)
      = mkResult true
          (UnhedgedTooLong (py_int elapsed) (max_unhedged_seconds self))
          [("type", VStr "unhedged_timeout"); ("side", VStr side);
           ("duration_seconds", VFloat elapsed);
           ("max_allowed", VInt (max_unhedged_seconds self))]%string)
     /\ (elapsed <= inject_Z (max_unhedged_seconds self) ->
         fst (check_stop_conditions self position orderbook market_end_time
                clock)
         = check_limits self1 position market_end_time clock).
Proof.
  intros Hprofit Hside self1.
  unfold check_stop_conditions. rewrite Hprofit.
  unfold unhedged_side in Hside.
  destruct ((Qltb 0 (Position.qty (PairPosition.yes position))
             && negb (Qltb 0 (Position.qty (PairPosition.no position))))
            || (Qltb 0 (Position.qty (PairPosition.no position))
                && negb (Qltb 0 (Position.qty (PairPosition.yes position)))))
    eqn:Eun; [ | discriminate ].
  injection Hside as Hside. rewrite Hside.
  fold (restart self side (now_start clock)). fold self1.
  assert (Hmax : max_unhedged_seconds self1 = max_unhedged_seconds self).
  { unfold self1, restart.
    destruct (negb (opt_string_eqb (last_unhedged_side self) (Some side)));
      [ reflexivity | ].
    destruct (unhedged_start_time self); reflexivity. }
  rewrite Hmax.
  split.
  - destruct (unhedged_start_time self1) as [st | ]; [ | reflexivity ].
    destruct (Qltb (inject_Z (max_unhedged_seconds self))
                (now_duration clock - st)); reflexivity.
  - intros start Hstart. rewrite Hstart. split.
    + intro H. apply Qltb_lt in H. rewrite H. reflexivity.
    + intro H. apply Qltb_ge in H. rewrite H. reflexivity.
Qed.

Lemma restart_max_unhedged (self : t) (side : string) (now : Q) :
  max_unhedged_seconds (restart self side now) = max_unhedged_seconds self.
Proof.
  unfold restart.
  destruct (negb (opt_string_eqb (last_unhedged_side self) (Some side)));
    [ reflexivity | ].
  destruct (unhedged_start_time self); reflexivity.
Qed.

(** Once the clock runs on a side, a further call on that side leaves
    the clock fields alone. *)
Lemma restart_settled (self : t) (side : string) (now now' : Q) :
  restart (restart self side now) side now' = restart self side now.
Proof.
  destruct (restart_runs self side now) as (Hlast & start & Hstart).
  unfold restart at 1. rewrite Hlast, Hstart.
  cbn [opt_string_eqb]. rewrite String.eqb_refl. reflexivity.
Qed.

Lemma check_limits_not_early (self : t) (position : PairPosition.t)
    (market_end_time : option datetime) (clock : Clock) :
  early_stop (reason (check_limits self position market_end_time clock))
  = false.
Proof.
  unfold check_limits.
  repeat match goal with
         | |- context [if ?b then _ else _] => destruct b
         | |- context [match ?o with Some _ => _ | None => _ end] => destruct o
         end; reflexivity.
Qed.

End UnhedgedClock.

(** C7.  Two consecutive calls, the position held on one side alone in
    the first and on the other side alone in the second (quantities
    non-negative): after the second call the clock start is the reading
    taken in the second call and the recorded side is the new one; the
    elapsed time the second call measures is counted from that reading
    only, so a timeout is reported exactly when that time alone exceeds
    [max_unhedged_seconds], whatever the first call had accumulated. *)
Theorem C7_flip_restarts_clock (self : RiskController.t)
    (pos1 pos2 : PairPosition.t) (ob1 ob2 : option OrderBook.t)
    (end1 end2 : option datetime) (clock1 clock2 : Clock) (side1 side2 : string) :
  0 <= Position.qty (PairPosition.yes pos1) ->
  0 <= Position.qty (PairPosition.no pos1) ->
  0 <= Position.qty (PairPosition.yes pos2) ->
  0 <= Position.qty (PairPosition.no pos2) ->
  unhedged_side pos1 = Some side1 ->
  unhedged_side pos2 = Some side2 ->
  side1 <> side2 ->
  let first := RiskController.check_stop_conditions self pos1 ob1 end1 clock1 in
  let second :=
    RiskController.check_stop_conditions (snd first) pos2 ob2 end2 clock2 in
  let elapsed := now_duration clock2 - now_start clock2 in
  let limit := RiskController.max_unhedged_seconds self in
  RiskController.last_unhedged_side (snd first) = Some side1
  /\ RiskController.unhedged_start_time (snd second) = Some (now_start clock2)
  /\ RiskController.last_unhedged_side (snd second) = Some side2
  /\ (inject_Z limit < elapsed ->
      reason (fst second) = UnhedgedTooLong (py_int elapsed) limit
      /\ In ("duration_seconds"%string, VFloat elapsed) (details (fst second)))
  /\ (elapsed <= inject_Z limit -> early_stop (reason (fst second)) = false).
Proof.
  intros Hy1 Hn1 Hy2 Hn2 Hs1 Hs2 Hflip first second elapsed limit.
  pose proof (unhedged_not_profitable pos1 side1 Hy1 Hn1 Hs1) as Hp1.
  pose proof (unhedged_not_profitable pos2 side2 Hy2 Hn2 Hs2) as Hp2.
  destruct (check_unhedged self pos1 ob1 end1 clock1 side1 Hp1 Hs1)
    as [Hst1 _].
  fold first in Hst1.
  destruct (restart_runs self side1 (now_start clock1)) as [Hlast1 _].
  rewrite <- Hst1 in Hlast1.
  assert (Hne : RiskController.last_unhedged_side (snd first) <> Some side2)
    by (rewrite Hlast1; congruence).
  destruct (check_unhedged (snd first) pos2 ob2 end2 clock2 side2 Hp2 Hs2)
    as [Hst2 Hres2].
  fold second in Hst2, Hres2.
  rewrite (restart_on_flip _ _ (now_start clock2) Hne) in Hst2, Hres2.
  assert (Hlimit : RiskController.max_unhedged_seconds (snd first) = limit).
  { rewrite Hst1. apply restart_max_unhedged. }
  rewrite Hlimit in Hres2.
  destruct (Hres2 (now_start clock2) eq_refl) as [Hover Hunder].
  split; [ exact Hlast1 | ].
  split; [ rewrite Hst2; reflexivity | ].
  split; [ rewrite Hst2; reflexivity | ].
  split.
  - intro H. rewrite (Hover H). split; [ reflexivity | ].
    cbn [details]. right. right. left. reflexivity.
  - intro H. rewrite (Hunder H). apply check_limits_not_early.
Qed.

(** NO held alone at t = 0, then YES held alone at t = 100 and measured
    at t = 101: the clock reads 1 second, not 101. *)
Lemma C7_flip_restarts_clock_witness :
  let second :=
    RiskController.check_stop_conditions
      (snd (RiskController.check_stop_conditions RiskController.default
              (PairPosition.mk Position.init (Position.mk 50 10))
              None None (frozen 0)))
      (PairPosition.mk (Position.mk 50 20) Position.init)
      None None (mkClock 100 101 101) in
  RiskController.unhedged_start_time (snd second) = Some 100
  /\ RiskController.last_unhedged_side (snd second) = Some "YES"%string.
Proof.
  intro second.
  destruct (C7_flip_restarts_clock RiskController.default
              (PairPosition.mk Position.init (Position.mk 50 10))
              (PairPosition.mk (Position.mk 50 20) Position.init)
              None None None None (frozen 0) (mkClock 100 101 101)
              "NO" "YES")
    as (_ & Hstart & Hside & _).
  - unfold Qle; simpl; lia.
  - unfold Qle; simpl; lia.
  - unfold Qle; simpl; lia.
  - unfold Qle; simpl; lia.
  - reflexivity.
  - reflexivity.
  - discriminate.
  - split; [ exact Hstart | exact Hside ].
Defined.

(** *** Repeating a call at the same instant *)

Section Repeat.

Import RiskController.

Variables (position : PairPosition.t) (orderbook : option OrderBook.t).
Variables (market_end_time : option datetime) (now : Q).

Abbreviation check self :=
  (check_stop_conditions self position orderbook market_end_time (frozen now)).

(** Held on one side alone: the second call finds the clock running on
    that side and measures the same duration. *)
Lemma repeat_unhedged (self : t) (side : string) :
  PairPosition.is_profitable position = false ->
  unhedged_side position = Some side ->
  check (snd (check self)) = check self.
Proof.
  intros Hp Hs.
  destruct (check_unhedged self position orderbook market_end_time
              (frozen now) side Hp Hs) as [Hst1 Hres1].
  set (first := check_stop_conditions self position orderbook
                  market_end_time (frozen now)) in *.
  destruct (check_unhedged (snd first) position orderbook market_end_time
              (frozen now) side Hp Hs) as [Hst2 Hres2].
  set (second := check_stop_conditions (snd first) position orderbook
                   market_end_time (frozen now)) in *.
  rewrite Hst1, restart_settled in Hst2.
  rewrite Hst1, restart_settled, restart_max_unhedged in Hres2.
  destruct (restart_runs self side (now_start (frozen now)))
    as (_ & start & Hstart).
  destruct (Hres1 start Hstart) as [Hover1 Hunder1].
  destruct (Hres2 start Hstart) as [Hover2 Hunder2].
  rewrite (surjective_pairing second), (surjective_pairing first).
  rewrite Hst1, Hst2. f_equal.
  destruct (Qlt_le_dec (inject_Z (max_unhedged_seconds self))
              (now_duration (frozen now) - start)) as [H | H].
  - rewrite (Hover1 H), (Hover2 H). reflexivity.
  - rewrite (Hunder1 H), (Hunder2 H). reflexivity.
Qed.

(** Hedged or flat: both calls clear the clock and decide on the
    position alone. *)
Lemma repeat_hedged (self : t) :
  PairPosition.is_profitable position = false ->
  unhedged_side position = None ->
  check (snd (check self)) = check self.
Proof.
  intros Hp Hs. unfold check_stop_conditions.
  rewrite Hp. unfold unhedged_side in Hs.
  destruct ((Qltb 0 (Position.qty (PairPosition.yes position))
             && negb (Qltb 0 (Position.qty (PairPosition.no position))))
            || (Qltb 0 (Position.qty (PairPosition.no position))
                && negb (Qltb 0 (Position.qty (PairPosition.yes position)))));
    [ discriminate | ].
  destruct orderbook as [book | ]; [ | reflexivity ].
  destruct (Qltb 0 (Position.qty (PairPosition.yes position))
            && Qltb 0 (Position.qty (PairPosition.no position)));
    [ | reflexivity ].
  assert (Hm : forall x, max_pair_cost (with_clock x None None)
                         = max_pair_cost x) by reflexivity.
  rewrite Hm.
  destruct (Qltb (max_pair_cost self)
              (Position.avg_price (PairPosition.yes position)
               + Position.avg_price (PairPosition.no position))) eqn:E;
    repeat first [ progress cbn [snd] | rewrite Hm | rewrite E ];
    reflexivity.
Qed.

(** Profitable: the call returns before it reads or writes the clock. *)
Lemma repeat_profitable (self : t) :
  PairPosition.is_profitable position = true ->
  check (snd (check self)) = check self.
Proof.
  intro Hp. unfold check_stop_conditions. rewrite Hp. reflexivity.
Qed.

Lemma repeat_check (self : t) : check (snd (check self)) = check self.
Proof.
  destruct (PairPosition.is_profitable position) eqn:Hp.
  - apply repeat_profitable. exact Hp.
  - destruct (unhedged_side position) as [side | ] eqn:Hs.
    + apply (repeat_unhedged self side Hp Hs).
    + apply (repeat_hedged self Hp Hs).
Qed.

End Repeat.

(** C8.  For every controller state and every position, snapshot and
    settlement time: a second [check_stop_conditions] with the same
    inputs, every clock reading of both calls being the same instant,
    returns the same [StopConditionResult] (same [should_stop], [reason]
    and [details]) and leaves [unhedged_start_time] and
    [last_unhedged_side] as the first call left them. *)
Theorem C8_repeat_is_idempotent (self : RiskController.t)
    (position : PairPosition.t) (orderbook : option OrderBook.t)
    (market_end_time : option datetime) (now : Q) :
  let first :=
    RiskController.check_stop_conditions self position orderbook
      market_end_time (frozen now) in
  let second :=
    RiskController.check_stop_conditions (snd first) position orderbook
      market_end_time (frozen now) in
  fst second = fst first
  /\ should_stop (fst second) = should_stop (fst first)
  /\ reason (fst second) = reason (fst first)
  /\ details (fst second) = details (fst first)
  /\ RiskController.unhedged_start_time (snd second)
     = RiskController.unhedged_start_time (snd first)
  /\ RiskController.last_unhedged_side (snd second)
     = RiskController.last_unhedged_side (snd first)
  /\ snd second = snd first.
Proof.
  intros first second.
  assert (H : second = first)
    by apply (repeat_check position orderbook market_end_time now self).
  rewrite H. repeat split.
Qed.

(** * Further properties of the core *)

(** ** The position ledger *)

Section Ledger.




End Ledger.



(** *** Imbalance and the side to favour *)

Section Imbalance.

Variable pos : PairPosition.t.

Abbreviation y := (Position.qty (PairPosition.yes pos)).
Abbreviation n := (Position.qty (PairPosition.no pos)).

Hypothesis Hy : 0 <= y.
Hypothesis Hn : 0 <= n.

Lemma py_abs_spec (x : Q) : 0 <= py_abs x /\ (py_abs x == x \/ py_abs x == - x).
Proof.
  unfold py_abs. destruct (Qltb x 0) eqn:E.
  - apply Qltb_lt in E. split; [ lra | right; reflexivity ].
  - apply Qltb_ge in E. split; [ lra | left; reflexivity ].
Qed.

Lemma ratio_of_held :
  0 < y + n ->
  PairPosition.get_imbalance_ratio pos = py_abs (y - n) / (y + n).
Proof.
  intro H. unfold PairPosition.get_imbalance_ratio.
  assert (E : Qeq_bool (y + n) 0 = false) by (apply Qeq_bool_false; lra).
  rewrite E. reflexivity.
Qed.

Lemma ratio_of_flat :
  y + n == 0 -> PairPosition.get_imbalance_ratio pos = 0.
Proof.
  intro H. unfold PairPosition.get_imbalance_ratio.
  apply Qeq_bool_iff in H. rewrite H. reflexivity.
Qed.

Lemma ratio_bounds :
  0 <= PairPosition.get_imbalance_ratio pos
  /\ PairPosition.get_imbalance_ratio pos <= 1.
Proof.
  destruct (Qlt_le_dec 0 (y + n)) as [Hpos | Hzero].
  - rewrite (ratio_of_held Hpos).
    destruct (py_abs_spec (y - n)) as [Habs [E | E]].
    + split; [ apply Qle_shift_div_l; lra | apply Qle_shift_div_r; lra ].
    + split; [ apply Qle_shift_div_l; lra | apply Qle_shift_div_r; lra ].
  - rewrite ratio_of_flat by lra. split; lra.
Qed.

(** [get_target_side] answers with a side exactly when the imbalance
    ratio is above 1/11, and the side it names holds fewer units. *)
Lemma target_side_cases :
  (PairPosition.get_target_side pos = Some "NO"%string
   /\ n < y /\ 1 # 11 < PairPosition.get_imbalance_ratio pos)
  \/ (PairPosition.get_target_side pos = Some "YES"%string
      /\ y < n /\ 1 # 11 < PairPosition.get_imbalance_ratio pos)
  \/ (PairPosition.get_target_side pos = None
      /\ PairPosition.get_imbalance_ratio pos <= 1 # 11).
Proof.
  unfold PairPosition.get_target_side.
  destruct (Qltb (n * (12 # 10)) y) eqn:E1.
  - left. apply Qltb_lt in E1.
    assert (Hpos : 0 < y + n) by lra.
    rewrite (ratio_of_held Hpos).
    split; [ reflexivity | ]. split; [ lra | ].
    destruct (py_abs_spec (y - n)) as [Habs [E | E]];
      apply Qlt_shift_div_l; lra.
  - apply Qltb_ge in E1. right.
    destruct (Qltb (y * (12 # 10)) n) eqn:E2.
    + left. apply Qltb_lt in E2.
      assert (Hpos : 0 < y + n) by lra.
      rewrite (ratio_of_held Hpos).
      split; [ reflexivity | ]. split; [ lra | ].
      destruct (py_abs_spec (y - n)) as [Habs [E | E]];
        apply Qlt_shift_div_l; lra.
    + right. apply Qltb_ge in E2. split; [ reflexivity | ].
      destruct (Qlt_le_dec 0 (y + n)) as [Hpos | Hzero].
      * rewrite (ratio_of_held Hpos).
        destruct (py_abs_spec (y - n)) as [Habs [E | E]];
          apply Qle_shift_div_r; lra.
      * rewrite ratio_of_flat by lra. unfold Qle; simpl; lia.
Qed.

End Imbalance.

(** With non-negative quantities the imbalance ratio lies in [0, 1]; it
    is 0 for a flat position, the division by the zero total being
    guarded. *)
Theorem imbalance_ratio_bounds (pos : PairPosition.t) :
  0 <= Position.qty (PairPosition.yes pos) ->
  0 <= Position.qty (PairPosition.no pos) ->
  0 <= PairPosition.get_imbalance_ratio pos
  /\ PairPosition.get_imbalance_ratio pos <= 1
  /\ (Position.qty (PairPosition.yes pos) == 0 ->
      Position.qty (PairPosition.no pos) == 0 ->
      PairPosition.get_imbalance_ratio pos = 0).
Proof.
  intros Hy Hn.
  destruct (ratio_bounds pos Hy Hn) as [H0 H1].
  split; [ exact H0 | ]. split; [ exact H1 | ].
  intros Ey En. apply ratio_of_flat. lra.
Qed.

Lemma imbalance_ratio_bounds_witness :
  PairPosition.get_imbalance_ratio
    (PairPosition.mk (Position.mk 130 60) (Position.mk 100 45)) <= 1.
Proof.
  apply (imbalance_ratio_bounds
           (PairPosition.mk (Position.mk 130 60) (Position.mk 100 45)));
    unfold Qle; simpl; lia.
Defined.

(** With non-negative quantities, the side [get_target_side] names is
    YES or NO and always the one holding strictly fewer units; with
    equal quantities it names none. *)
Theorem target_side_is_underheld (pos : PairPosition.t) :
  let y := Position.qty (PairPosition.yes pos) in
  let n := Position.qty (PairPosition.no pos) in
  0 <= y -> 0 <= n ->
  (PairPosition.get_target_side pos = Some "NO"%string -> n < y)
  /\ (PairPosition.get_target_side pos = Some "YES"%string -> y < n)
  /\ (forall s, PairPosition.get_target_side pos = Some s ->
                s = "YES"%string \/ s = "NO"%string)
  /\ (y == n -> PairPosition.get_target_side pos = None).
Proof.
  intros y n Hy Hn.
  destruct (target_side_cases pos Hy Hn)
    as [(E & Hlt & _) | [(E & Hlt & _) | (E & _)]]; rewrite E.
  - split; [ intros _; exact Hlt | ]. split; [ discriminate | ].
    split; [ intros s Hs; injection Hs as <-; right; reflexivity | ].
    intro Heq. exfalso. fold y n in Hlt. lra.
  - split; [ discriminate | ]. split; [ intros _; exact Hlt | ].
    split; [ intros s Hs; injection Hs as <-; left; reflexivity | ].
    intro Heq. exfalso. fold y n in Hlt. lra.
  - split; [ discriminate | ]. split; [ discriminate | ].
    split; [ discriminate | reflexivity ].
Qed.

Lemma target_side_is_underheld_witness :
  (100 < 130)%Q
  /\ PairPosition.get_target_side
       (PairPosition.mk (Position.mk 130 60) (Position.mk 100 45))
     = Some "NO"%string.
Proof.
  split; [ | reflexivity ].
  apply (target_side_is_underheld
           (PairPosition.mk (Position.mk 130 60) (Position.mk 100 45))).
  - unfold Qle; simpl; lia.
  - unfold Qle; simpl; lia.
  - reflexivity.
Defined.

(** The rebalancer never favours the side that holds more: with
    non-negative quantities [get_priority_side] answers "YES" only when
    YES holds strictly fewer units than NO, and "NO" only when NO holds
    no more than YES. *)
Theorem priority_side_never_overheld (r : Rebalancer.t) (pos : PairPosition.t) :
  let y := Position.qty (PairPosition.yes pos) in
  let n := Position.qty (PairPosition.no pos) in
  0 <= y -> 0 <= n ->
  (Rebalancer.get_priority_side r pos = "YES"%string /\ y < n)
  \/ (Rebalancer.get_priority_side r pos = "NO"%string /\ n <= y).
Proof.
  intros y n Hy Hn. unfold Rebalancer.get_priority_side.
  destruct (target_side_cases pos Hy Hn)
    as [(E & Hlt & _) | [(E & Hlt & _) | (E & _)]]; rewrite E.
  - right. split; [ reflexivity | ]. fold y n in Hlt. lra.
  - left. split; [ reflexivity | exact Hlt ].
  - fold y. fold n. destruct (Qltb y n) eqn:El.
    + left. split; [ reflexivity | apply Qltb_lt; exact El ].
    + right. split; [ reflexivity | apply Qltb_ge; exact El ].
Qed.

Lemma priority_side_never_overheld_witness :
  Rebalancer.get_priority_side Rebalancer.default
    (PairPosition.mk (Position.mk 130 60) (Position.mk 100 45)) = "NO"%string
  /\ 100 <= 130.
Proof.
  destruct (priority_side_never_overheld Rebalancer.default
              (PairPosition.mk (Position.mk 130 60) (Position.mk 100 45)))
    as [[E _] | H].
  - unfold Qle; simpl; lia.
  - unfold Qle; simpl; lia.
  - discriminate E.
  - exact H.
Defined.

(** Whenever the rebalancer asks for a rebalance, its threshold being
    at least the default 0.2, the ledger names a target side, so
    [get_priority_side] returns that target and never falls back to the
    plain comparison of the two quantities. *)
Theorem rebalance_has_target (r : Rebalancer.t) (pos : PairPosition.t) :
  0 <= Position.qty (PairPosition.yes pos) ->
  0 <= Position.qty (PairPosition.no pos) ->
  2 # 10 <= Rebalancer.imbalance_threshold r ->
  Rebalancer.should_rebalance r pos = true ->
  PairPosition.get_target_side pos = Some (Rebalancer.get_priority_side r pos).
Proof.
  intros Hy Hn Ht Hreb. unfold Rebalancer.should_rebalance in Hreb.
  apply Qltb_lt in Hreb. unfold Rebalancer.get_priority_side.
  destruct (target_side_cases pos Hy Hn)
    as [(E & _) | [(E & _) | (E & Hr)]]; rewrite E; try reflexivity.
  exfalso. lra.
Qed.

Lemma rebalance_has_target_witness :
  PairPosition.get_target_side
    (PairPosition.mk (Position.mk 200 90) (Position.mk 100 45))
  = Some (Rebalancer.get_priority_side Rebalancer.default
            (PairPosition.mk (Position.mk 200 90) (Position.mk 100 45))).
Proof.
  apply (rebalance_has_target Rebalancer.default
           (PairPosition.mk (Position.mk 200 90) (Position.mk 100 45)));
    try reflexivity; unfold Qle; simpl; lia.
Defined.

(** ** Admission and target price, further *)

Section AdmissionFurther.


Lemma post_fill_average_monotone (p : Position.t) (q lower higher : Q) :
  0 < Position.qty p + q -> 0 <= q -> lower <= higher ->
  post_fill_average p q lower <= post_fill_average p q higher.
Proof.
  intros Hd Hq Hle. unfold post_fill_average, Qdiv.
  apply Qmult_le_compat_r.
  - assert (lower * q <= higher * q) by (apply Qmult_le_compat_r; assumption).
    lra.
  - apply Qlt_le_weak. apply Qinv_lt_0_compat. exact Hd.
Qed.

End AdmissionFurther.

(** Admission is monotone in the price: a fill that [can_buy] accepts
    at some price is accepted at every lower price. *)
Theorem can_buy_cheaper_still_admitted (pos : PairPosition.t) (side : string)
    (s : Side) (q price cheaper : Q) :
  upper side = side_name s ->
  0 <= Position.qty (held pos s) -> 0 < q ->
  cheaper <= price ->
  PairPosition.can_buy pos side q price = Returns true ->
  PairPosition.can_buy pos side q cheaper = Returns true.
Proof.
  intros Hside Hqty Hq Hle.
  rewrite !(can_buy_recognised pos side s q _ Hside) by lra.
  intro H. injection H as H. apply Qltb_lt in H.
  f_equal. apply Qltb_lt. unfold admission_sum in *.
  pose proof (post_fill_average_monotone (held pos s) q cheaper price) as Hm.
  assert (post_fill_average (held pos s) q cheaper
          <= post_fill_average (held pos s) q price) by (apply Hm; lra).
  lra.
Qed.

Lemma can_buy_cheaper_still_admitted_witness :
  PairPosition.can_buy (PairPosition.mk (Position.mk 100 40) (Position.mk 100 50))
    "yes" 50 (30 # 100)
  = Returns true.
Proof.
  apply (can_buy_cheaper_still_admitted
           (PairPosition.mk (Position.mk 100 40) (Position.mk 100 50))
           "yes" YES 50 (45 # 100) (30 # 100)).
  - reflexivity.
  - unfold Qle; simpl; lia.
  - reflexivity.
  - unfold Qle; simpl; lia.
  - reflexivity.
Defined.



(** ** The order manager over many calls *)

Section BookKeeping.

Lemma Qeq_bool_refl (x : Q) : Qeq_bool x x = true.
Proof. apply Qeq_bool_iff. reflexivity. Qed.

Lemma Order_eqb_refl (o : Order.t) : Order.eqb o o = true.
Proof.
  unfold Order.eqb.
  rewrite String.eqb_refl, !Qeq_bool_refl, Bool.eqb_reflx.
  destruct (Order.status o); reflexivity.
Qed.

Lemma py_min_spec (a b : Q) :
  py_min a b <= a /\ py_min a b <= b /\ (py_min a b = a \/ py_min a b = b).
Proof.
  unfold py_min. destruct (Qltb b a) eqn:E.
  - apply Qltb_lt in E. repeat split; try lra. right. reflexivity.
  - apply Qltb_ge in E. repeat split; try lra. left. reflexivity.
Qed.

(** The three ways a call of [place_limit_order] can end. *)
Lemma place_cases (mgr : OrderManager.t) (fetched : option OrderBook.t)
    (now : Q) (side : string) (qty max_price : Q) :
  let placed :=
    OrderManager.place_limit_order mgr fetched now side qty max_price in
  (fst placed = None /\ books_kept mgr (snd placed)
   /\ OrderManager.current_orderbook (snd placed) = available mgr fetched)
  \/ exists book best_ask,
       available mgr fetched = Some book
       /\ OrderBook.get_best_ask book side = Some best_ask
       /\ OrderBookLevel.price best_ask <= max_price
       /\ let fq := py_min qty (OrderBookLevel.qty best_ask) in
          let fp := OrderBookLevel.price best_ask in
          let order := Order.mk side fp qty FILLED fq fp now true in
          placed
          = (Some order,
             OrderManager.mk
               (add_fill (OrderManager.position mgr) side fq fp)
               (remove_first order (OrderManager.pending_orders mgr ++ [order]))
               (OrderManager.filled_orders mgr ++ [order])
               (Some book)
               (OrderManager.trade_history mgr ++ [order])).
Proof.
  cbv zeta.
  unfold OrderManager.place_limit_order. fold (available mgr fetched).
  destruct (available mgr fetched) as [book | ]; [ | left; cbn; repeat split ].
  destruct (OrderBook.get_best_ask book side) as [best_ask | ] eqn:Hask;
    [ | left; cbn; repeat split ].
  destruct (Qltb max_price (OrderBookLevel.price best_ask)) eqn:Hlt;
    [ left; cbn; repeat split | ].
  right. exists book, best_ask. apply Qltb_ge in Hlt.
  repeat split; try assumption.
  unfold OrderManager._try_fill_order.
  cbn [Order.new Order.status OrderStatus_eqb negb Order.side Order.price
       Order.qty Order.timestamp Order.is_simulated
       OrderManager.current_orderbook OrderManager.position
       OrderManager.pending_orders OrderManager.filled_orders
       OrderManager.trade_history].
  rewrite Hask, Qle_bool_refl. reflexivity.
Qed.

End BookKeeping.

(** A call [place_limit_order(side, qty, max_price)] never fills more
    than was asked for, more than rests at the best ask, or above the
    limit: an order it returns is FILLED at the best ask of the side,
    which is at most [max_price], for a quantity that is [qty] or the
    quantity resting there and exceeds neither; and when it returns no
    order, the ledger and the order lists are as before. *)
Theorem limit_order_fill_bounds (mgr : OrderManager.t)
    (fetched : option OrderBook.t) (now : Q) (side : string)
    (qty max_price : Q) (book : OrderBook.t) :
  available mgr fetched = Some book ->
  let placed :=
    OrderManager.place_limit_order mgr fetched now side qty max_price in
  (fst placed = None -> books_kept mgr (snd placed))
  /\ forall order, fst placed = Some order ->
       exists best_ask,
         OrderBook.get_best_ask book side = Some best_ask
         /\ Order.status order = FILLED
         /\ Order.filled_price order = OrderBookLevel.price best_ask
         /\ Order.filled_price order <= max_price
         /\ Order.filled_qty order <= qty
         /\ Order.filled_qty order <= OrderBookLevel.qty best_ask
         /\ (Order.filled_qty order = qty
             \/ Order.filled_qty order = OrderBookLevel.qty best_ask).
Proof.
  intros Hbook placed. subst placed.
  destruct (place_cases mgr fetched now side qty max_price)
    as [(Hnone & Hkept & _) | (book' & best_ask & Hb & Hask & Hle & Heq)].
  - split; [ intros _; exact Hkept | ].
    intros order Horder. rewrite Hnone in Horder. discriminate Horder.
  - cbv zeta in Heq. rewrite Heq. cbn [fst snd].
    rewrite Hb in Hbook. injection Hbook as ->.
    split; [ discriminate | ].
    intros order Horder. injection Horder as <-.
    exists best_ask.
    cbn [Order.status Order.filled_qty Order.filled_price].
    destruct (py_min_spec qty (OrderBookLevel.qty best_ask))
      as (Hl & Hr & Hcase).
    split; [ exact Hask | ]. split; [ reflexivity | ].
    split; [ reflexivity | ]. split; [ exact Hle | ].
    split; [ exact Hl | ]. split; [ exact Hr | exact Hcase ].
Qed.

Lemma limit_order_fill_bounds_witness :
  let mgr :=
    OrderManager.update_orderbook (OrderManager.init PairPosition.init)
      (snapshot (40 # 100) (42 # 100) (56 # 100) (58 # 100)) in
  exists order,
    fst (OrderManager.place_limit_order mgr None 0 "YES" 150 (45 # 100))
    = Some order
    /\ Order.filled_qty order <= 100 /\ Order.filled_price order <= 45 # 100.
Proof.
  intro mgr.
  destruct (limit_order_fill_bounds mgr None 0 "YES" 150 (45 # 100)
              (snapshot (40 # 100) (42 # 100) (56 # 100) (58 # 100))
              eq_refl) as [_ Hfill].
  eexists. split; [ reflexivity | ].
  destruct (Hfill _ eq_refl)
    as (best_ask & Hask & _ & _ & Hprice & _ & Hqty & _).
  injection Hask as <-. split; [ exact Hqty | exact Hprice ].
Defined.

Section Sequences.

Variable base : PairPosition.t.

Lemma call_keeps_settled (mgr : OrderManager.t) (c : Call) :
  settled base mgr -> settled base (call mgr c).
Proof.
  intros (Hpend & Hhist & Hall & Hpos).
  destruct c as [orderbook | fetched now side qty max_price | ].
  - repeat split; assumption.
  - cbn [call].
    destruct (place_cases mgr fetched now side qty max_price)
      as [(_ & (Kpos & Kpend & Kfill & Khist) & _)
         | (book & best_ask & _ & _ & _ & Heq)].
    + unfold settled. rewrite Kpos, Kpend, Kfill, Khist.
      repeat split; assumption.
    + cbv zeta in Heq. rewrite Heq. unfold settled.
      cbn [snd OrderManager.pending_orders OrderManager.trade_history
           OrderManager.filled_orders OrderManager.position].
      rewrite Hpend, Hhist. cbn [app remove_first].
      rewrite Order_eqb_refl.
      split; [ reflexivity | ]. split; [ reflexivity | ]. split.
      * apply Forall_app. split; [ exact Hall | ].
        constructor; [ split; reflexivity | constructor ].
      * rewrite fold_left_app. cbn [fold_left]. rewrite <- Hpos. reflexivity.
  - unfold settled. cbn [call OrderManager.cancel_all_orders snd
                         OrderManager.pending_orders OrderManager.trade_history
                         OrderManager.filled_orders OrderManager.position].
    repeat split; assumption.
Qed.

Lemma calls_keep_settled (cs : list Call) (mgr : OrderManager.t) :
  settled base mgr -> settled base (calls mgr cs).
Proof.
  revert mgr. induction cs as [ | c cs IH ]; intros mgr H.
  - exact H.
  - apply (IH (call mgr c)). apply call_keeps_settled. exact H.
Qed.

End Sequences.

(** After any sequence of [update_orderbook], [place_limit_order] and
    [cancel_all_orders] calls on a new manager, no order is left
    pending, the trade history is the list of filled orders, each of
    them is FILLED at its own limit price, and the ledger is exactly the
    initial position with those fills booked in order: nothing is
    bought that the history does not show. *)
Theorem ledger_replays_filled_orders (base : PairPosition.t) (cs : list Call) :
  let mgr := calls (OrderManager.init base) cs in
  OrderManager.pending_orders mgr = []
  /\ OrderManager.trade_history mgr = OrderManager.filled_orders mgr
  /\ Forall (fun o => Order.status o = FILLED
                      /\ Order.filled_price o = Order.price o)
            (OrderManager.filled_orders mgr)
  /\ OrderManager.position mgr
     = fold_left book_fill (OrderManager.filled_orders mgr) base.
Proof.
  apply (calls_keep_settled base cs (OrderManager.init base)).
  repeat split. constructor.
Qed.

(** ** Sides in another letter case *)

(** A side string that [.upper()] turns into "YES" without being "YES"
    itself (such as "yes") is priced and filled against the YES asks, but
    the fill is booked on the NO side of the ledger: the book is looked
    up through [.upper()], the ledger through a literal comparison. *)
Theorem case_variant_of_yes_booked_on_no (mgr : OrderManager.t)
    (fetched : option OrderBook.t) (now : Q) (side : string)
    (qty max_price : Q) (book : OrderBook.t) (best_ask : OrderBookLevel.t) :
  upper side = "YES"%string -> side <> "YES"%string ->
  available mgr fetched = Some book ->
  hd_error (OrderBook.yes_asks book) = Some best_ask ->
  OrderBookLevel.price best_ask <= max_price ->
  let pos := OrderManager.position mgr in
  OrderManager.position
    (snd (OrderManager.place_limit_order mgr fetched now side qty max_price))
  = PairPosition.mk (PairPosition.yes pos)
      (Position.add_position (PairPosition.no pos)
         (py_min qty (OrderBookLevel.qty best_ask))
         (OrderBookLevel.price best_ask)).
Proof.
  intros Hup Hne Hbook Hhd Hle pos.
  assert (Hask : OrderBook.get_best_ask book side = Some best_ask).
  { unfold OrderBook.get_best_ask. rewrite Hup. exact Hhd. }
  destruct (place_at_ask mgr fetched now side qty max_price book best_ask
              Hbook Hask Hle) as (_ & Hpos & _).
  rewrite Hpos. unfold add_fill.
  apply String.eqb_neq in Hne. rewrite Hne. reflexivity.
Qed.

Lemma case_variant_of_yes_booked_on_no_witness :
  let mgr :=
    OrderManager.update_orderbook (OrderManager.init PairPosition.init)
      (snapshot (40 # 100) (42 # 100) (56 # 100) (58 # 100)) in
  OrderManager.position
    (snd (OrderManager.place_limit_order mgr None 0 "Yes" 50 (45 # 100)))
  = PairPosition.mk Position.init
      (Position.add_position Position.init (py_min 50 100) (42 # 100)).
Proof.
  intro mgr.
  apply (case_variant_of_yes_booked_on_no mgr None 0 "Yes" 50 (45 # 100)
           (snapshot (40 # 100) (42 # 100) (56 # 100) (58 # 100))
           (OrderBookLevel.mk (42 # 100) 100)).
  - reflexivity.
  - discriminate.
  - reflexivity.
  - reflexivity.
  - unfold Qle; simpl; lia.
Defined.

Section NamedSide64.

Import PrimFloat.
Local Open Scope float_scope.

Lemma get_best_ask64_of_side (book : Binary64.OrderBook.t) (s : Side) :
  Binary64.OrderBook.get_best_ask book (side_name s) = hd_error (asks64 book s).
Proof. destruct s; reflexivity. Qed.

(** In binary64, for the side strings "YES" and "NO" themselves and a
    snapshot available to the call, [place_limit_order(side, qty,
    max_price)] does what it is documented to do.  Without a resting
    ask on the side, or with [max_price] below the best ask, it returns
    no order and leaves the ledger and the order lists as they were.
    With the best ask at or below [max_price] it returns the order
    priced at the best ask and FILLED at it, for a quantity that is
    [qty] or the quantity resting at the ask, neither being smaller;
    and the ledger is the old one with that quantity added to the side
    named, its cost grown by price times quantity, the other side
    untouched. *)
Theorem order_on_named_side_is_booked_on_it (mgr : Binary64.OrderManager.t)
    (fetched : option Binary64.OrderBook.t) (now : Q) (s : Side)
    (qty max_price : float) (book : Binary64.OrderBook.t) :
  available64 mgr fetched = Some book ->
  let placed :=
    Binary64.OrderManager.place_limit_order mgr fetched now (side_name s) qty
      max_price in
  (hd_error (asks64 book s) = None ->
   fst placed = None /\ books_kept64 mgr (snd placed))
  /\ (forall best_ask,
        hd_error (asks64 book s) = Some best_ask ->
        (max_price <? Binary64.OrderBookLevel.price best_ask) = true ->
        fst placed = None /\ books_kept64 mgr (snd placed))
  /\ (forall best_ask,
        hd_error (asks64 book s) = Some best_ask ->
        (Binary64.OrderBookLevel.price best_ask <=? max_price) = true ->
        exists order,
          fst placed = Some order
          /\ Binary64.Order.side order = side_name s
          /\ Binary64.Order.qty order = qty
          /\ Binary64.Order.price order = Binary64.OrderBookLevel.price best_ask
          /\ Binary64.Order.status order = FILLED
          /\ Binary64.Order.filled_price order
             = Binary64.OrderBookLevel.price best_ask
          /\ (Binary64.Order.filled_qty order = qty
              \/ Binary64.Order.filled_qty order
                 = Binary64.OrderBookLevel.qty best_ask)
          /\ (qty <? Binary64.Order.filled_qty order) = false
          /\ (Binary64.OrderBookLevel.qty best_ask
              <? Binary64.Order.filled_qty order) = false
          /\ Binary64.OrderManager.position (snd placed)
             = ledger_after_fill (Binary64.OrderManager.position mgr) s
                 (Binary64.Order.filled_qty order)
                 (Binary64.Order.filled_price order)
          /\ In order (Binary64.OrderManager.filled_orders (snd placed))).
Proof.
  intros Hbook placed. subst placed.
  split; [ | split ].
  - intro Hask. rewrite <- get_best_ask64_of_side in Hask.
    exact (place64_without_ask _ _ _ _ _ _ _ Hbook Hask).
  - intros best_ask Hask Hlt. rewrite <- get_best_ask64_of_side in Hask.
    exact (place64_below_ask _ _ _ _ _ _ _ _ Hbook Hask Hlt).
  - intros best_ask Hask Hle. rewrite <- get_best_ask64_of_side in Hask.
    destruct (place64_at_ask _ _ now _ qty _ _ _ Hbook Hask Hle)
      as (Hret & Hpos & Hfilled & _).
    destruct (py_min64_spec qty (Binary64.OrderBookLevel.qty best_ask))
      as (Hcase & Hq & Hr).
    eexists. split; [ exact Hret | ].
    cbn [Binary64.Order.side Binary64.Order.qty Binary64.Order.price
         Binary64.Order.status Binary64.Order.filled_qty
         Binary64.Order.filled_price].
    split; [ reflexivity | ]. split; [ reflexivity | ].
    split; [ reflexivity | ]. split; [ reflexivity | ].
    split; [ reflexivity | ]. split; [ exact Hcase | ].
    split; [ exact Hq | ]. split; [ exact Hr | ].
    split.
    + rewrite Hpos. destruct s; reflexivity.
    + rewrite Hfilled. apply in_or_app. right. left. reflexivity.
Qed.

(** Scenario: against a best YES ask of 0.42 for 100 units, a limit of
    0.45 for 150 units of "YES" is filled for the 100 units resting
    there, and the flat ledger then holds 100 units of YES that cost
    42. *)
Lemma order_on_named_side_is_booked_on_it_witness :
  let mgr :=
    Binary64.OrderManager.update_orderbook
      (Binary64.OrderManager.init Binary64.PairPosition.init)
      (snapshot64 0.40 0.42 0.56 0.58) in
  let placed :=
    Binary64.OrderManager.place_limit_order mgr None 0%Q "YES" 150 0.45 in
  exists order,
    fst placed = Some order
    /\ Binary64.Order.filled_qty order = 100
    /\ Binary64.OrderManager.position (snd placed)
       = Binary64.PairPosition.mk (Binary64.Position.mk 100 42)
                                  (Binary64.Position.mk 0 0).
Proof.
  intros mgr placed.
  destruct (order_on_named_side_is_booked_on_it mgr None 0%Q YES 150 0.45
              (snapshot64 0.40 0.42 0.56 0.58) eq_refl) as (_ & _ & Hfill).
  destruct (Hfill (Binary64.OrderBookLevel.mk 0.42 100) eq_refl eq_refl)
    as (order & Hret & _ & _ & _ & _ & Hfp & Hcase & _ & Hr & Hpos & _).
  exists order. split; [ exact Hret | ].
  assert (Hfq : Binary64.Order.filled_qty order = 100).
  { destruct Hcase as [E | E]; [ | exact E ].
    rewrite E in Hr. vm_compute in Hr. discriminate Hr. }
  split; [ exact Hfq | ].
  subst placed. cbn [side_name] in Hpos. rewrite Hpos, Hfq, Hfp. reflexivity.
Defined.

End NamedSide64.

(** ** The order book and the price monitor, further *)

(** The mid-price of a side lies within its spread when the best bid
    does not exceed the best ask, and is the neutral 0.5 as soon as one
    of the two queues is empty. *)
Theorem mid_price_within_spread (bids asks : list OrderBookLevel.t) :
  (bids = [] \/ asks = [] -> OrderBook.mid bids asks = 1 # 2)
  /\ forall b a bids' asks',
       bids = b :: bids' -> asks = a :: asks' ->
       OrderBookLevel.price b <= OrderBookLevel.price a ->
       OrderBookLevel.price b <= OrderBook.mid bids asks
       /\ OrderBook.mid bids asks <= OrderBookLevel.price a.
Proof.
  split.
  - intros [-> | ->]; [ reflexivity | destruct bids; reflexivity ].
  - intros b a bids' asks' -> -> Hle. cbn [OrderBook.mid].
    split.
    + apply Qle_shift_div_l; lra.
    + apply Qle_shift_div_r; lra.
Qed.

Lemma mid_price_within_spread_witness :
  44 # 100 <= OrderBook.mid [OrderBookLevel.mk (44 # 100) 10]
                            [OrderBookLevel.mk (46 # 100) 10].
Proof.
  destruct (mid_price_within_spread [OrderBookLevel.mk (44 # 100) 10]
              [OrderBookLevel.mk (46 # 100) 10]) as [_ H].
  apply (H (OrderBookLevel.mk (44 # 100) 10) (OrderBookLevel.mk (46 # 100) 10)
           [] []); try reflexivity.
  unfold Qle; simpl; lia.
Defined.

Section MonitorFurther.

Import PriceMonitor.

Lemma in_band_iff (m : t) (p : Q) :
  in_band m p = true <-> entry_price_min m <= p /\ p <= entry_price_max m.
Proof.
  unfold in_band. rewrite andb_true_iff, !Qle_bool_iff. reflexivity.
Qed.

Lemma was_outside_iff (m : t) (p : Q) :
  was_outside m p = true <-> p < entry_price_min m \/ entry_price_max m < p.
Proof.
  unfold was_outside. rewrite orb_true_iff, !Qltb_lt. reflexivity.
Qed.

(** A price cannot be inside and outside the band at once. *)
Lemma in_band_not_outside (m : t) (p : Q) :
  in_band m p = true -> was_outside m p = false.
Proof.
  intro H. apply in_band_iff in H. destruct H as [Hlo Hhi].
  apply was_outside_inside; assumption.
Qed.

End MonitorFurther.

(** [check_price] never returns a side whose mid-price is outside the
    band: a returned side is "YES" or "NO", its current mid-price is
    inside [entry_price_min, entry_price_max], the price last recorded
    for it is outside, and the callback, when one is set, is called once
    with that side and that mid-price (and not called when nothing is
    returned). *)
Theorem monitor_fires_inside_band_only (m : PriceMonitor.t) (ob : OrderBook.t) :
  let tick := PriceMonitor.check_price m ob in
  let lo := PriceMonitor.entry_price_min m in
  let hi := PriceMonitor.entry_price_max m in
  match PriceMonitor.returned tick with
  | Some side =>
    exists mid last,
      ((side = "YES"%string /\ mid = OrderBook.yes_mid_price ob
        /\ last = PriceMonitor.last_yes_price m)
       \/ (side = "NO"%string /\ mid = OrderBook.no_mid_price ob
           /\ last = PriceMonitor.last_no_price m))
      /\ lo <= mid /\ mid <= hi /\ (last < lo \/ hi < last)
      /\ PriceMonitor.alerted tick
         = (if PriceMonitor.callback m then Some (side, mid) else None)
  | None => PriceMonitor.alerted tick = None
  end.
Proof.
  cbv zeta. unfold PriceMonitor.check_price.
  destruct (PriceMonitor.in_band m (OrderBook.yes_mid_price ob)
            && PriceMonitor.was_outside m (PriceMonitor.last_yes_price m))
    eqn:Ey.
  - apply andb_true_iff in Ey. destruct Ey as [Hin Hout].
    apply in_band_iff in Hin. apply was_outside_iff in Hout.
    cbn [PriceMonitor.returned PriceMonitor.alerted].
    exists (OrderBook.yes_mid_price ob), (PriceMonitor.last_yes_price m).
    split; [ left; repeat split | ].
    destruct Hin. repeat split; assumption.
  - destruct (PriceMonitor.in_band m (OrderBook.no_mid_price ob)
              && PriceMonitor.was_outside m (PriceMonitor.last_no_price m))
      eqn:En.
    + apply andb_true_iff in En. destruct En as [Hin Hout].
      apply in_band_iff in Hin. apply was_outside_iff in Hout.
      cbn [PriceMonitor.returned PriceMonitor.alerted].
      exists (OrderBook.no_mid_price ob), (PriceMonitor.last_no_price m).
      split; [ right; repeat split | ].
      destruct Hin. repeat split; assumption.
    + reflexivity.
Qed.

(** After a tick that returned nothing the monitor is a true edge
    detector for the next tick: YES is returned exactly when the YES
    mid-price is now inside the band and was outside it on that previous
    tick.  In particular the same snapshot, repeated, stays quiet. *)
Theorem monitor_edge_after_quiet_tick (m : PriceMonitor.t)
    (previous current : OrderBook.t) :
  PriceMonitor.returned (PriceMonitor.check_price m previous) = None ->
  let m' := PriceMonitor.after (PriceMonitor.check_price m previous) in
  (PriceMonitor.returned (PriceMonitor.check_price m' current)
   = Some "YES"%string
   <-> PriceMonitor.in_band m (OrderBook.yes_mid_price current) = true
       /\ PriceMonitor.was_outside m (OrderBook.yes_mid_price previous) = true)
  /\ PriceMonitor.returned (PriceMonitor.check_price m' previous) = None.
Proof.
  intros Hquiet m'. subst m'.
  rewrite (check_price_quiet_records m previous Hquiet).
  unfold PriceMonitor.check_price, PriceMonitor.in_band, PriceMonitor.was_outside.
  cbn [PriceMonitor.entry_price_min PriceMonitor.entry_price_max
       PriceMonitor.last_yes_price PriceMonitor.last_no_price
       PriceMonitor.callback].
  fold (PriceMonitor.in_band m (OrderBook.yes_mid_price current)).
  fold (PriceMonitor.in_band m (OrderBook.no_mid_price current)).
  fold (PriceMonitor.in_band m (OrderBook.yes_mid_price previous)).
  fold (PriceMonitor.in_band m (OrderBook.no_mid_price previous)).
  fold (PriceMonitor.was_outside m (OrderBook.yes_mid_price previous)).
  fold (PriceMonitor.was_outside m (OrderBook.no_mid_price previous)).
  split.
  - destruct (PriceMonitor.in_band m (OrderBook.yes_mid_price current));
      destruct (PriceMonitor.was_outside m (OrderBook.yes_mid_price previous));
      cbn [andb PriceMonitor.returned].
    + split; [ intros _; split; reflexivity | reflexivity ].
    + destruct (PriceMonitor.in_band m (OrderBook.no_mid_price current)
                && PriceMonitor.was_outside m (OrderBook.no_mid_price previous));
        cbn [PriceMonitor.returned];
        (split; [ discriminate | intros [? ?]; discriminate ]).
    + destruct (PriceMonitor.in_band m (OrderBook.no_mid_price current)
                && PriceMonitor.was_outside m (OrderBook.no_mid_price previous));
        cbn [PriceMonitor.returned];
        (split; [ discriminate | intros [? ?]; discriminate ]).
    + destruct (PriceMonitor.in_band m (OrderBook.no_mid_price current)
                && PriceMonitor.was_outside m (OrderBook.no_mid_price previous));
        cbn [PriceMonitor.returned];
        (split; [ discriminate | intros [? ?]; discriminate ]).
  - destruct (PriceMonitor.in_band m (OrderBook.yes_mid_price previous)) eqn:Ey.
    + rewrite (in_band_not_outside m _ Ey). cbn [andb].
      destruct (PriceMonitor.in_band m (OrderBook.no_mid_price previous)) eqn:En.
      * rewrite (in_band_not_outside m _ En). reflexivity.
      * reflexivity.
    + cbn [andb].
      destruct (PriceMonitor.in_band m (OrderBook.no_mid_price previous)) eqn:En.
      * rewrite (in_band_not_outside m _ En). reflexivity.
      * reflexivity.
Qed.

Lemma monitor_edge_after_quiet_tick_witness :
  PriceMonitor.returned
    (PriceMonitor.check_price
       (PriceMonitor.after
          (PriceMonitor.check_price PriceMonitor.default
             (snapshot (59 # 100) (61 # 100) (39 # 100) (41 # 100))))
       (snapshot (59 # 100) (61 # 100) (39 # 100) (41 # 100)))
  = None.
Proof.
  apply (monitor_edge_after_quiet_tick PriceMonitor.default
           (snapshot (59 # 100) (61 # 100) (39 # 100) (41 # 100))
           (snapshot (59 # 100) (61 # 100) (39 # 100) (41 # 100))).
  reflexivity.
Defined.

(** A monitor built with an empty band ([entry_price_min >
    entry_price_max]) never returns a side and never calls back. *)
Theorem monitor_empty_band_never_fires (m : PriceMonitor.t) (ob : OrderBook.t) :
  PriceMonitor.entry_price_max m < PriceMonitor.entry_price_min m ->
  PriceMonitor.returned (PriceMonitor.check_price m ob) = None
  /\ PriceMonitor.alerted (PriceMonitor.check_price m ob) = None.
Proof.
  intro Hempty.
  assert (Hout : forall p, PriceMonitor.in_band m p = false).
  { intro p. destruct (PriceMonitor.in_band m p) eqn:E; [ | reflexivity ].
    apply in_band_iff in E. destruct E. exfalso. lra. }
  unfold PriceMonitor.check_price. rewrite !Hout. split; reflexivity.
Qed.

Lemma monitor_empty_band_never_fires_witness :
  PriceMonitor.returned
    (PriceMonitor.check_price (PriceMonitor.init (50 # 100) (35 # 100) true)
       (snapshot (44 # 100) (46 # 100) (54 # 100) (56 # 100)))
  = None.
Proof.
  apply (monitor_empty_band_never_fires
           (PriceMonitor.init (50 # 100) (35 # 100) true)
           (snapshot (44 # 100) (46 # 100) (54 # 100) (56 # 100))).
  reflexivity.
Defined.

(** ** The risk controller, further *)

Section RiskFurther.

Import RiskController.

Variables (self : t) (position : PairPosition.t).
Variables (orderbook : option OrderBook.t) (market_end_time : option datetime).
Variable clock : Clock.

Lemma normalized_end_time (e : datetime) :
  utc_seconds (if negb (tz_aware e) then mkDatetime (utc_seconds e) true else e)
  = utc_seconds e.
Proof. destruct (tz_aware e); reflexivity. Qed.

(** When the capital and settlement checks let trading continue, every
    one of their limits holds. *)
Lemma check_limits_continue (ctl : t) :
  should_stop (check_limits ctl position market_end_time clock) = false ->
  check_limits ctl position market_end_time clock
  = mkResult false AllChecksPassed []
  /\ PairPosition.total_cost position <= max_total_capital ctl
  /\ Position.cost (PairPosition.yes position) <= max_pos_per_window ctl
  /\ Position.cost (PairPosition.no position) <= max_pos_per_window ctl
  /\ forall e, market_end_time = Some e ->
       inject_Z (settlement_buffer_seconds ctl)
       < utc_seconds e - now_settlement clock.
Proof.
  unfold check_limits.
  destruct (Qltb (max_total_capital ctl) (PairPosition.total_cost position))
    eqn:E1; [ discriminate | ].
  destruct (Qltb (max_pos_per_window ctl)
              (Position.cost (PairPosition.yes position)))
    eqn:E2; [ discriminate | ].
  destruct (Qltb (max_pos_per_window ctl)
              (Position.cost (PairPosition.no position)))
    eqn:E3; [ discriminate | ].
  apply Qltb_ge in E1. apply Qltb_ge in E2. apply Qltb_ge in E3.
  destruct market_end_time as [e | ].
  - rewrite normalized_end_time.
    destruct (Qle_bool (utc_seconds e - now_settlement clock)
                (inject_Z (settlement_buffer_seconds ctl))) eqn:E4;
      [ discriminate | ].
    intros _. repeat split; try assumption.
    intros e' He. injection He as <-.
    apply Qnot_le_lt. intro Hle. apply Qle_bool_iff in Hle. congruence.
  - intros _. repeat split; try assumption. intros e He. discriminate He.
Qed.

(** The clock fields after a call that is neither profitable nor
    unhedged. *)
Lemma check_hedged_clears (ctl : t) :
  PairPosition.is_profitable position = false ->
  unhedged_side position = None ->
  snd (check_stop_conditions ctl position orderbook market_end_time clock)
  = reset ctl.
Proof.
  intros Hp Hs. unfold check_stop_conditions. rewrite Hp.
  unfold unhedged_side in Hs.
  destruct ((Qltb 0 (Position.qty (PairPosition.yes position))
             && negb (Qltb 0 (Position.qty (PairPosition.no position))))
            || (Qltb 0 (Position.qty (PairPosition.no position))
                && negb (Qltb 0 (Position.qty (PairPosition.yes position)))));
    [ discriminate | ].
  repeat match goal with
         | |- context [if ?b then _ else _] => destruct b
         | |- context [match ?o with Some _ => _ | None => _ end] => destruct o
         end; reflexivity.
Qed.

Lemma restart_is_with_clock (ctl : t) (side : string) (now : Q) :
  exists start last, restart ctl side now = with_clock ctl start last.
Proof.
  unfold restart.
  destruct (negb (opt_string_eqb (last_unhedged_side ctl) (Some side))).
  - eexists. eexists. reflexivity.
  - destruct (unhedged_start_time ctl) as [st | ] eqn:E.
    + exists (Some st), (last_unhedged_side ctl).
      destruct ctl. cbn in *. rewrite E. reflexivity.
    + eexists. eexists. reflexivity.
Qed.

Lemma hedged_not_unhedged :
  0 < Position.qty (PairPosition.yes position) ->
  0 < Position.qty (PairPosition.no position) ->
  unhedged_side position = None.
Proof.
  intros Hy Hn. apply Qltb_lt in Hy. apply Qltb_lt in Hn.
  unfold unhedged_side. rewrite Hy, Hn. reflexivity.
Qed.

(** A call that is neither profitable nor unhedged: the pair-cost stop
    or the capital and settlement checks. *)
Lemma check_hedged (ctl : t) :
  PairPosition.is_profitable position = false ->
  unhedged_side position = None ->
  let pair_cost := Position.avg_price (PairPosition.yes position)
                   + Position.avg_price (PairPosition.no position) in
  (orderbook <> None /\ 0 < Position.qty (PairPosition.yes position)
   /\ 0 < Position.qty (PairPosition.no position)
   /\ max_pair_cost ctl < pair_cost
   /\ reason (fst (check_stop_conditions ctl position orderbook
                     market_end_time clock))
      = PairCostTooHigh pair_cost (max_pair_cost ctl)
   /\ should_stop (fst (check_stop_conditions ctl position orderbook
                          market_end_time clock)) = true)
  \/ ((orderbook <> None -> 0 < Position.qty (PairPosition.yes position) ->
       0 < Position.qty (PairPosition.no position) ->
       pair_cost <= max_pair_cost ctl)
      /\ fst (check_stop_conditions ctl position orderbook market_end_time
                clock)
         = check_limits (reset ctl) position market_end_time clock).
Proof.
  intros Hp Hs pair_cost. subst pair_cost.
  unfold check_stop_conditions. rewrite Hp.
  unfold unhedged_side in Hs.
  destruct ((Qltb 0 (Position.qty (PairPosition.yes position))
             && negb (Qltb 0 (Position.qty (PairPosition.no position))))
            || (Qltb 0 (Position.qty (PairPosition.no position))
                && negb (Qltb 0 (Position.qty (PairPosition.yes position)))));
    [ discriminate | ].
  destruct orderbook as [book | ];
    [ | right; split; [ intro H; contradiction | reflexivity ] ].
  destruct (Qltb 0 (Position.qty (PairPosition.yes position))) eqn:Ey;
    [ | right; split; [ | reflexivity ];
        intros _ H; apply Qltb_lt in H; congruence ].
  destruct (Qltb 0 (Position.qty (PairPosition.no position))) eqn:En;
    [ | right; split; [ | reflexivity ];
        intros _ _ H; apply Qltb_lt in H; congruence ].
  cbn [andb].
  change (max_pair_cost (with_clock ctl None None)) with (max_pair_cost ctl).
  destruct (Qltb (max_pair_cost ctl)
              (Position.avg_price (PairPosition.yes position)
               + Position.avg_price (PairPosition.no position))) eqn:Ec.
  - left. apply Qltb_lt in Ey. apply Qltb_lt in En. apply Qltb_lt in Ec.
    repeat split; try assumption. discriminate.
  - right. apply Qltb_ge in Ec. split; [ intros; exact Ec | reflexivity ].
Qed.

End RiskFurther.

(** "Continue" is sound.  When [check_stop_conditions] lets trading
    continue, the result is the plain all-checks-passed one with empty
    details, and every limit of the controller holds: no profit lock,
    the unhedged clock (if the position is unhedged) within
    [max_unhedged_seconds], the pair cost of a hedged position within
    [max_pair_cost] when a snapshot was given, total and per-side costs
    within their caps, and the settlement further away than the
    buffer. *)
Theorem continue_means_within_limits (self : RiskController.t)
    (position : PairPosition.t) (orderbook : option OrderBook.t)
    (market_end_time : option datetime) (clock : Clock) :
  let checked :=
    RiskController.check_stop_conditions self position orderbook
      market_end_time clock in
  should_stop (fst checked) = false ->
  fst checked = mkResult false AllChecksPassed []
  /\ PairPosition.is_profitable position = false
  /\ (forall side, unhedged_side position = Some side ->
        exists start,
          RiskController.unhedged_start_time (snd checked) = Some start
          /\ now_duration clock - start
             <= inject_Z (RiskController.max_unhedged_seconds self))
  /\ (orderbook <> None ->
      0 < Position.qty (PairPosition.yes position) ->
      0 < Position.qty (PairPosition.no position) ->
      PairPosition.pair_cost position <= RiskController.max_pair_cost self)
  /\ PairPosition.total_cost position <= RiskController.max_total_capital self
  /\ Position.cost (PairPosition.yes position)
     <= RiskController.max_pos_per_window self
  /\ Position.cost (PairPosition.no position)
     <= RiskController.max_pos_per_window self
  /\ (forall e, market_end_time = Some e ->
        inject_Z (RiskController.settlement_buffer_seconds self)
        < utc_seconds e - now_settlement clock).
Proof.
  intros checked Hgo. subst checked.
  destruct (PairPosition.is_profitable position) eqn:Hp.
  { unfold RiskController.check_stop_conditions in Hgo. rewrite Hp in Hgo.
    discriminate Hgo. }
  destruct (unhedged_side position) as [side | ] eqn:Hs.
  - destruct (check_unhedged self position orderbook market_end_time clock
                side Hp Hs) as [Hst Hres].
    destruct (restart_runs self side (now_start clock)) as (_ & start & Hstart).
    destruct (Hres start Hstart) as [Hover Hunder].
    destruct (Qlt_le_dec (inject_Z (RiskController.max_unhedged_seconds self))
                (now_duration clock - start)) as [Hlate | Hok].
    { rewrite (Hover Hlate) in Hgo. discriminate Hgo. }
    rewrite (Hunder Hok) in Hgo |- *.
    destruct (restart_is_with_clock self side (now_start clock))
      as (st & sd & Hw).
    destruct (check_limits_continue position market_end_time clock _ Hgo)
      as (Hres' & Hcap & Hyes & Hno & Hend).
    rewrite Hw in Hcap, Hyes, Hno, Hend.
    split; [ exact Hres' | ]. split; [ reflexivity | ].
    split.
    { intros side' Hside'. exists start. rewrite Hst. split; assumption. }
    split.
    { intros _ Hy Hn.
      rewrite (hedged_not_unhedged position Hy Hn) in Hs. discriminate Hs. }
    repeat split; assumption.
  - destruct (check_hedged position orderbook market_end_time clock self
                Hp Hs) as [(_ & _ & _ & _ & _ & Hstop) | (Hpair & Hfst)].
    { rewrite Hstop in Hgo. discriminate Hgo. }
    rewrite Hfst in Hgo |- *.
    destruct (check_limits_continue position market_end_time clock _ Hgo)
      as (Hres' & Hcap & Hyes & Hno & Hend).
    split; [ exact Hres' | ]. split; [ reflexivity | ].
    split; [ intros side Hside; discriminate Hside | ].
    split; [ exact Hpair | ].
    repeat split; assumption.
Qed.

Lemma continue_means_within_limits_witness :
  PairPosition.total_cost
    (PairPosition.mk (Position.mk 100 45) (Position.mk 80 42))
  <= RiskController.max_total_capital configured.
Proof.
  apply (continue_means_within_limits configured
           (PairPosition.mk (Position.mk 100 45) (Position.mk 80 42))
           None None (frozen 0)).
  reflexivity.
Defined.

(** The unhedged timeout does fire.  Starting from a cleared clock, a
    first call with one side held alone starts the clock at its own
    reading; a later call with the same side still held alone keeps that
    start, and stops with the timeout reason as soon as the time since
    the first call's reading exceeds [max_unhedged_seconds], reporting
    that whole duration and the side. *)
Theorem unhedged_timeout_fires (self : RiskController.t)
    (pos1 pos2 : PairPosition.t) (ob1 ob2 : option OrderBook.t)
    (end1 end2 : option datetime) (clock1 clock2 : Clock) (side : string) :
  RiskController.last_unhedged_side self = None ->
  0 <= Position.qty (PairPosition.yes pos1) ->
  0 <= Position.qty (PairPosition.no pos1) ->
  0 <= Position.qty (PairPosition.yes pos2) ->
  0 <= Position.qty (PairPosition.no pos2) ->
  unhedged_side pos1 = Some side -> unhedged_side pos2 = Some side ->
  let first := RiskController.check_stop_conditions self pos1 ob1 end1 clock1 in
  let second :=
    RiskController.check_stop_conditions (snd first) pos2 ob2 end2 clock2 in
  let elapsed := now_duration clock2 - now_start clock1 in
  RiskController.unhedged_start_time (snd first) = Some (now_start clock1)
  /\ RiskController.unhedged_start_time (snd second) = Some (now_start clock1)
  /\ (inject_Z (RiskController.max_unhedged_seconds self) < elapsed ->
      fst second
      = mkResult true
          (UnhedgedTooLong (py_int elapsed)
             (RiskController.max_unhedged_seconds self))
          [("type", VStr "unhedged_timeout"); ("side", VStr side);
           ("duration_seconds", VFloat elapsed);
           ("max_allowed", VInt (RiskController.max_unhedged_seconds self))]%string).
Proof.
  intros Hlast Hy1 Hn1 Hy2 Hn2 Hs1 Hs2 first second elapsed.
  pose proof (unhedged_not_profitable pos1 side Hy1 Hn1 Hs1) as Hp1.
  pose proof (unhedged_not_profitable pos2 side Hy2 Hn2 Hs2) as Hp2.
  destruct (check_unhedged self pos1 ob1 end1 clock1 side Hp1 Hs1) as [Hst1 _].
  fold first in Hst1.
  assert (Hne : RiskController.last_unhedged_side self <> Some side)
    by (rewrite Hlast; discriminate).
  rewrite (restart_on_flip self side (now_start clock1) Hne) in Hst1.
  destruct (check_unhedged (snd first) pos2 ob2 end2 clock2 side Hp2 Hs2)
    as [Hst2 Hres2].
  fold second in Hst2, Hres2.
  assert (Hkeep : restart (snd first) side (now_start clock2) = snd first).
  { rewrite Hst1. unfold restart.
    cbn [RiskController.with_clock RiskController.last_unhedged_side
         RiskController.unhedged_start_time opt_string_eqb].
    rewrite String.eqb_refl. reflexivity. }
  rewrite Hkeep in Hst2, Hres2.
  assert (Hstart : RiskController.unhedged_start_time (snd first)
                   = Some (now_start clock1)) by (rewrite Hst1; reflexivity).
  assert (Hmax : RiskController.max_unhedged_seconds (snd first)
                 = RiskController.max_unhedged_seconds self)
    by (rewrite Hst1; reflexivity).
  split; [ exact Hstart | ]. split; [ rewrite Hst2; exact Hstart | ].
  intro Hlate. destruct (Hres2 _ Hstart) as [Hover _].
  rewrite Hmax in Hover. exact (Hover Hlate).
Qed.

(** NO 50 @ 0.20 bought at t = 0 and still alone at t = 121. *)
Lemma unhedged_timeout_fires_witness :
  should_stop
    (fst (RiskController.check_stop_conditions
            (snd (RiskController.check_stop_conditions configured
                    (PairPosition.mk Position.init (Position.mk 50 10))
                    None None (frozen 0)))
            (PairPosition.mk Position.init (Position.mk 50 10))
            None None (frozen 121)))
  = true.
Proof.
  assert (H0 : 0 <= 0) by (unfold Qle; simpl; lia).
  assert (H50 : 0 <= 50) by (unfold Qle; simpl; lia).
  destruct (unhedged_timeout_fires configured
              (PairPosition.mk Position.init (Position.mk 50 10))
              (PairPosition.mk Position.init (Position.mk 50 10))
              None None None None (frozen 0) (frozen 121) "NO"
              eq_refl H0 H50 H0 H50 eq_refl eq_refl)
    as (_ & _ & Hfire).
  rewrite Hfire; reflexivity.
Defined.

(** Becoming hedged or flat clears the clock, a profit lock does not
    touch it.  A call on a position that is neither profitable nor
    unhedged leaves both clock fields empty, so the next unhedged call
    starts the clock at its own reading even on the side held before;
    a call on a profitable position returns the controller exactly as it
    was. *)
Theorem hedged_call_clears_clock (self : RiskController.t)
    (hedged alone : PairPosition.t) (ob1 ob2 : option OrderBook.t)
    (end1 end2 : option datetime) (clock1 clock2 : Clock) (side : string) :
  PairPosition.is_profitable hedged = false ->
  unhedged_side hedged = None ->
  PairPosition.is_profitable alone = false ->
  unhedged_side alone = Some side ->
  let first := RiskController.check_stop_conditions self hedged ob1 end1 clock1 in
  let second :=
    RiskController.check_stop_conditions (snd first) alone ob2 end2 clock2 in
  snd first = RiskController.reset self
  /\ RiskController.unhedged_start_time (snd second) = Some (now_start clock2)
  /\ RiskController.last_unhedged_side (snd second) = Some side
  /\ (forall locked, PairPosition.is_profitable locked = true ->
        snd (RiskController.check_stop_conditions self locked ob1 end1 clock1)
        = self).
Proof.
  intros Hp1 Hs1 Hp2 Hs2 first second.
  assert (Hfirst : snd first = RiskController.reset self)
    by (apply check_hedged_clears; assumption).
  split; [ exact Hfirst | ].
  destruct (check_unhedged (snd first) alone ob2 end2 clock2 side Hp2 Hs2)
    as [Hst2 _].
  fold second in Hst2.
  assert (Hne : RiskController.last_unhedged_side (snd first) <> Some side)
    by (rewrite Hfirst; discriminate).
  rewrite (restart_on_flip _ side (now_start clock2) Hne) in Hst2.
  split; [ rewrite Hst2; reflexivity | ].
  split; [ rewrite Hst2; reflexivity | ].
  intros locked Hlocked. unfold RiskController.check_stop_conditions.
  rewrite Hlocked. reflexivity.
Qed.

Lemma hedged_call_clears_clock_witness :
  RiskController.unhedged_start_time
    (snd (RiskController.check_stop_conditions
            (snd (RiskController.check_stop_conditions
                    (RiskController.with_clock configured (Some 0) (Some "NO"%string))
                    PairPosition.init None None (frozen 50)))
            (PairPosition.mk Position.init (Position.mk 50 10))
            None None (frozen 100)))
  = Some 100.
Proof.
  apply (hedged_call_clears_clock
           (RiskController.with_clock configured (Some 0) (Some "NO"%string))
           PairPosition.init
           (PairPosition.mk Position.init (Position.mk 50 10))
           None None None None (frozen 50) (frozen 100) "NO"); reflexivity.
Defined.

(** Which stop can come from which state.  While one side is held
    alone the call never stops on the pair cost; on a hedged or flat
    position it never stops on the unhedged time; without a snapshot it
    never stops on the pair cost; and a ledger that is well kept and
    within the 0.98 ceiling never stops on the pair cost under a
    [max_pair_cost] of at least 0.98. *)
Theorem stop_reason_matches_state (self : RiskController.t)
    (position : PairPosition.t) (orderbook : option OrderBook.t)
    (market_end_time : option datetime) (clock : Clock) :
  let r :=
    reason (fst (RiskController.check_stop_conditions self position orderbook
                   market_end_time clock)) in
  PairPosition.is_profitable position = false ->
  (forall side pc mx, unhedged_side position = Some side ->
                      r <> PairCostTooHigh pc mx)
  /\ (forall s mx, unhedged_side position = None -> r <> UnhedgedTooLong s mx)
  /\ (forall pc mx, orderbook = None -> r <> PairCostTooHigh pc mx)
  /\ (forall pc mx, within_ceiling position ->
                    fee_ceiling <= RiskController.max_pair_cost self ->
                    r <> PairCostTooHigh pc mx).
Proof.
  intros r Hp. subst r.
  assert (Hlimits : forall ctl pc mx s mx',
            reason (RiskController.check_limits ctl position market_end_time clock)
            <> PairCostTooHigh pc mx
            /\ reason (RiskController.check_limits ctl position market_end_time
                         clock)
               <> UnhedgedTooLong s mx').
  { intros ctl pc mx s mx'.
    pose proof (check_limits_not_early ctl position market_end_time clock) as H.
    split; intro E; rewrite E in H; discriminate H. }
  assert (Hunhedged : forall side pc mx, unhedged_side position = Some side ->
            reason (fst (RiskController.check_stop_conditions self position
                           orderbook market_end_time clock))
            <> PairCostTooHigh pc mx).
  { intros side pc mx Hs.
    destruct (check_unhedged self position orderbook market_end_time clock
                side Hp Hs) as [_ Hres].
    destruct (restart_runs self side (now_start clock)) as (_ & start & Hstart).
    destruct (Hres start Hstart) as [Hover Hunder].
    destruct (Qlt_le_dec (inject_Z (RiskController.max_unhedged_seconds self))
                (now_duration clock - start)) as [Hlate | Hok].
    - rewrite (Hover Hlate). discriminate.
    - rewrite (Hunder Hok). apply Hlimits; exact 0%Z. }
  assert (Hhedged : forall pc mx,
            unhedged_side position = None ->
            (orderbook <> None ->
             0 < Position.qty (PairPosition.yes position) ->
             0 < Position.qty (PairPosition.no position) ->
             RiskController.max_pair_cost self
             < Position.avg_price (PairPosition.yes position)
               + Position.avg_price (PairPosition.no position) -> False) ->
            reason (fst (RiskController.check_stop_conditions self position
                           orderbook market_end_time clock))
            <> PairCostTooHigh pc mx).
  { intros pc mx Hs Hno.
    destruct (check_hedged position orderbook market_end_time clock self Hp Hs)
      as [(Hob & Hy & Hn & Hlt & _) | (_ & Hfst)].
    - exfalso. exact (Hno Hob Hy Hn Hlt).
    - rewrite Hfst. apply Hlimits; exact 0%Z. }
  split; [ exact Hunhedged | ]. split; [ | split ].
  - intros s mx Hs.
    destruct (check_hedged position orderbook market_end_time clock self Hp Hs)
      as [(_ & _ & _ & _ & Hr & _) | (_ & Hfst)].
    + rewrite Hr. discriminate.
    + rewrite Hfst. apply (Hlimits _ 0 0).
  - intros pc mx Hnone.
    destruct (unhedged_side position) as [side | ] eqn:Hs.
    + apply (Hunhedged side). reflexivity.
    + apply Hhedged; [ reflexivity | ]. intros Hob. contradiction.
  - intros pc mx (Hky & Hkn & Hc) Hmax.
    destruct (unhedged_side position) as [side | ] eqn:Hs.
    + apply (Hunhedged side). reflexivity.
    + apply Hhedged; [ reflexivity | ].
      intros _ Hy Hn Hlt. unfold PairPosition.pair_cost in Hc.
      destruct Hc as [[E _] | Hc]; lra.
Qed.

Lemma stop_reason_matches_state_witness :
  reason (fst (RiskController.check_stop_conditions configured
                 (PairPosition.mk (Position.mk 50 30) Position.init)
                 (Some (snapshot (49 # 100) (51 # 100) (49 # 100) (51 # 100)))
                 None (frozen 0)))
  <> PairCostTooHigh 0 0.
Proof.
  destruct (stop_reason_matches_state configured
              (PairPosition.mk (Position.mk 50 30) Position.init)
              (Some (snapshot (49 # 100) (51 # 100) (49 # 100) (51 # 100)))
              None (frozen 0) eq_refl) as [H _].
  apply (H "YES"%string). reflexivity.
Defined.

(** ** The simulated market *)

Section Simulator.

Lemma get_best_ask_of_side (book : OrderBook.t) (side : string) (s : Side) :
  upper side = side_name s ->
  OrderBook.get_best_ask book side = hd_error (asks_of book s).
Proof.
  intro H. unfold OrderBook.get_best_ask. rewrite H.
  destruct s; reflexivity.
Qed.

End Simulator.



(** ** The trade log *)

(** [add_trade_log] keeps the log bounded: a log of at most 100 entries
    stays at most 100 entries long, the new entry is always the last one,
    and only when the log was full is the oldest entry dropped. *)
Theorem trade_log_bounded {A : Type} (logs : list A) (entry : A) :
  (List.length logs <= 100)%nat ->
  (List.length (Display.add_trade_log logs entry) <= 100)%nat
  /\ last (Display.add_trade_log logs entry) entry = entry
  /\ ((List.length logs < 100)%nat ->
      Display.add_trade_log logs entry = logs ++ [entry])
  /\ (List.length logs = 100%nat ->
      Display.add_trade_log logs entry = tl logs ++ [entry]).
Proof.
  intro Hlen. unfold Display.add_trade_log.
  rewrite length_app. cbn [List.length].
  destruct (100 <? List.length logs + 1)%nat eqn:E.
  - apply Nat.ltb_lt in E.
    assert (Hfull : List.length logs = 100%nat) by lia.
    destruct logs as [ | first rest ]; [ discriminate Hfull | ].
    cbn [app tl]. cbn [List.length] in Hfull.
    repeat split.
    + rewrite length_app. cbn [List.length]. lia.
    + apply last_last.
    + intro H. cbn [List.length] in H. lia.
  - apply Nat.ltb_ge in E.
    repeat split.
    + rewrite length_app. cbn [List.length]. lia.
    + apply last_last.
    + intro H. lia.
Qed.

Lemma trade_log_bounded_witness :
  Display.add_trade_log [1%nat; 2%nat] 3%nat = [1%nat; 2%nat] ++ [3%nat].
Proof.
  apply (trade_log_bounded [1%nat; 2%nat] 3%nat); cbn; lia.
Defined.

(** ** The dashboard's buy decision *)

Section BuyCheck.

Lemma can_buy_returns_when_ask (position : PairPosition.t)
    (orderbook : OrderBook.t) (side : string) (best : OrderBookLevel.t)
    (q price : Q) :
  OrderBook.get_best_ask orderbook side = Some best ->
  exists b, PairPosition.can_buy position side q price = Returns b.
Proof.
  unfold OrderBook.get_best_ask, PairPosition.can_buy.
  destruct (String.eqb (upper side) "YES"); [ intros _; eexists; reflexivity | ].
  destruct (String.eqb (upper side) "NO"); [ intros _; eexists; reflexivity | ].
  discriminate.
Qed.

End BuyCheck.

Ltac buy_check_step H :=
  match goal with
  | |- exists r, (if ?b then _ else _) = _ /\ _ => destruct b eqn:H
  | |- exists r, match ?o with Some _ => _ | None => _ end = _ /\ _ =>
    destruct o eqn:H
  | |- exists r, match ?o with Returns _ => _ | Raises _ => _ end = _ /\ _ =>
    destruct o eqn:H
  end.

Ltac buy_check_refused :=
  eexists; split; [ reflexivity | cbn [DashboardScript.can_buy]; discriminate ].

(** The gates of [check_buy_conditions], read off its branches. *)
Lemma buy_check_gates (side : string) (price : Q)
    (position : PairPosition.t) (order_manager : option OrderManager.t)
    (orderbook : OrderBook.t) (auto_trading_enabled : bool)
    (last_check_time : option Q) (now : Q) :
  exists r,
    DashboardScript.check_buy_conditions side price position order_manager
      orderbook auto_trading_enabled last_check_time now = Returns r
    /\ (DashboardScript.can_buy r = true ->
        auto_trading_enabled = true
        /\ (forall last, last_check_time = Some last -> 5 < now - last)
        /\ PairPosition.is_profitable position = false
        /\ (Qltb 0 (Position.qty (PairPosition.yes position))
            && Qltb 0 (Position.qty (PairPosition.no position)) = false ->
            Config.ENTRY_PRICE_MIN <= price /\ price <= Config.ENTRY_PRICE_MAX)
        /\ PairPosition.can_buy position side Config.DEFAULT_ORDER_SIZE price
           = Returns true
        /\ exists manager best,
             order_manager = Some manager
             /\ OrderBook.get_best_ask orderbook side = Some best
             /\ let target :=
                  OrderManager.calculate_target_price manager side
                    (if String.eqb side "YES"
                     then Position.avg_price (PairPosition.no position)
                     else Position.avg_price (PairPosition.yes position)) in
                OrderBookLevel.price best <= target
                /\ DashboardScript.reason r = DashboardScript.AllConditionsMet
                /\ dict_get (DashboardScript.details r) "target_price"
                   = Some (Some (VFloat target))
                /\ dict_get (DashboardScript.details r) "qty"
                   = Some (Some (VFloat Config.DEFAULT_ORDER_SIZE))).
Proof.
  unfold DashboardScript.check_buy_conditions. cbv zeta.
  destruct auto_trading_enabled; cbn [negb]; [ | buy_check_refused ].
  buy_check_step Hrange; [ buy_check_refused | ].
  buy_check_step Hother; [ buy_check_refused | ].
  buy_check_step Hcool; [ buy_check_refused | ].
  buy_check_step Hprofit; [ buy_check_refused | ].
  buy_check_step Hmanager; [ | buy_check_refused ].
  buy_check_step Hask; [ | buy_check_refused ].
  buy_check_step Hadmit.
  2:{ destruct (can_buy_returns_when_ask position orderbook side _
                  Config.DEFAULT_ORDER_SIZE price Hask) as [b Hb].
      congruence. }
  destruct a; [ | buy_check_refused ].
  buy_check_step Htarget; [ buy_check_refused | ].
  eexists. split; [ reflexivity | ]. intros _.
  apply Qltb_ge in Htarget.
  split; [ reflexivity | ]. split.
  { intros last ->.
    destruct (Qle_bool (now - last) 5) eqn:E; [ discriminate Hcool | ].
    apply Qnot_le_lt. intro H. apply Qle_bool_iff in H. congruence. }
  split; [ reflexivity | ]. split.
  { intro Hnot.
    apply andb_false_iff in Hrange. destruct Hrange as [Hstage | Hin].
    - exfalso.
      destruct (Qltb 0 (Position.qty (PairPosition.yes position)));
        destruct (Qltb 0 (Position.qty (PairPosition.no position)));
        discriminate.
    - apply negb_false_iff in Hin. apply andb_true_iff in Hin.
      destruct Hin as [Hlo Hhi].
      apply Qle_bool_iff in Hlo. apply Qle_bool_iff in Hhi.
      split; assumption. }
  split; [ reflexivity | ].
  eexists. eexists. split; [ reflexivity | ]. split; [ reflexivity | ].
  cbv zeta. split; [ exact Htarget | ]. split; [ reflexivity | ].
  split; reflexivity.
Qed.

(** [check_buy_conditions] never raises, whatever the side string, and
    it answers [can_buy = True] only when every gate is open: automatic
    trading on, the last check more than 5 seconds ago, no profit lock,
    an order manager, a best ask on the side, an entry price inside the
    configured band unless both sides are held, [PairPosition.can_buy]
    accepting the default order size at the given price, and the target
    price of the manager at or above the best ask. *)
Theorem buy_check_accepts_only_when_open (side : string) (price : Q)
    (position : PairPosition.t) (order_manager : option OrderManager.t)
    (orderbook : OrderBook.t) (auto_trading_enabled : bool)
    (last_check_time : option Q) (now : Q) :
  exists r,
    DashboardScript.check_buy_conditions side price position order_manager
      orderbook auto_trading_enabled last_check_time now = Returns r
    /\ (DashboardScript.can_buy r = true ->
        auto_trading_enabled = true
        /\ (forall last, last_check_time = Some last -> 5 < now - last)
        /\ PairPosition.is_profitable position = false
        /\ (Qltb 0 (Position.qty (PairPosition.yes position))
            && Qltb 0 (Position.qty (PairPosition.no position)) = false ->
            Config.ENTRY_PRICE_MIN <= price /\ price <= Config.ENTRY_PRICE_MAX)
        /\ PairPosition.can_buy position side Config.DEFAULT_ORDER_SIZE price
           = Returns true
        /\ exists manager best,
             order_manager = Some manager
             /\ OrderBook.get_best_ask orderbook side = Some best
             /\ let target :=
                  OrderManager.calculate_target_price manager side
                    (if String.eqb side "YES"
                     then Position.avg_price (PairPosition.no position)
                     else Position.avg_price (PairPosition.yes position)) in
                OrderBookLevel.price best <= target
                /\ DashboardScript.reason r = DashboardScript.AllConditionsMet
                /\ dict_get (DashboardScript.details r) "target_price"
                   = Some (Some (VFloat target))
                /\ dict_get (DashboardScript.details r) "qty"
                   = Some (Some (VFloat Config.DEFAULT_ORDER_SIZE))).
Proof.
  exact (buy_check_gates side price position order_manager orderbook
           auto_trading_enabled last_check_time now).
Qed.

(** An accepted buy is a filled buy.  When [check_buy_conditions]
    answers [can_buy = True] for YES or NO and the manager works on the
    same ledger and snapshot, the order the dashboard then places,
    [place_limit_order(side, DEFAULT_ORDER_SIZE, target price)], is
    returned FILLED at the best ask of that side, for the default order
    size or the quantity resting at the ask, whichever is smaller; the
    side bought grows by the filled quantity and by the money paid for
    it, and the opposite side of the ledger is untouched. *)
Theorem accepted_buy_is_filled (s : Side) (price : Q)
    (position : PairPosition.t) (manager : OrderManager.t)
    (orderbook : OrderBook.t) (auto_trading_enabled : bool)
    (last_check_time : option Q) (now order_time : Q)
    (r : DashboardScript.BuyCheck) :
  DashboardScript.check_buy_conditions (side_name s) price position
    (Some manager) orderbook auto_trading_enabled last_check_time now
  = Returns r ->
  DashboardScript.can_buy r = true ->
  OrderManager.position manager = position ->
  OrderManager.current_orderbook manager = Some orderbook ->
  let target :=
    OrderManager.calculate_target_price manager (side_name s)
      (Position.avg_price (held position (opposite s))) in
  let placed :=
    OrderManager.place_limit_order manager None order_time (side_name s)
      Config.DEFAULT_ORDER_SIZE target in
  let after := OrderManager.position (snd placed) in
  exists order best,
    fst placed = Some order
    /\ hd_error (asks_of orderbook s) = Some best
    /\ Order.status order = FILLED
    /\ Order.filled_price order = OrderBookLevel.price best
    /\ Order.filled_qty order <= Config.DEFAULT_ORDER_SIZE
    /\ Order.filled_qty order <= OrderBookLevel.qty best
    /\ (Order.filled_qty order = Config.DEFAULT_ORDER_SIZE
        \/ Order.filled_qty order = OrderBookLevel.qty best)
    /\ Position.qty (held after s)
       = Position.qty (held position s) + Order.filled_qty order
    /\ Position.cost (held after s)
       = Position.cost (held position s)
         + Order.filled_price order * Order.filled_qty order
    /\ held after (opposite s) = held position (opposite s)
    /\ In order (OrderManager.filled_orders (snd placed)).
Proof.
  intros Hcheck Hyes Hpos Hbook target placed after.
  destruct (buy_check_gates (side_name s) price position (Some manager)
              orderbook auto_trading_enabled last_check_time now)
    as (r' & Hr' & Hgates).
  rewrite Hcheck in Hr'. injection Hr' as <-.
  destruct (Hgates Hyes)
    as (_ & _ & _ & _ & _ & manager' & best & Hm & Hask & Hle & _).
  injection Hm as <-. cbv zeta in Hle.
  replace (if String.eqb (side_name s) "YES"
           then Position.avg_price (PairPosition.no position)
           else Position.avg_price (PairPosition.yes position))
    with (Position.avg_price (held position (opposite s))) in Hle
    by (destruct s; reflexivity).
  fold target in Hle.
  assert (Havail : available manager None = Some orderbook)
    by (unfold available; rewrite Hbook; reflexivity).
  destruct (place_at_ask manager None order_time (side_name s)
              Config.DEFAULT_ORDER_SIZE target orderbook best Havail Hask Hle)
    as (Hfst & Hnew & Hfilled & _).
  eexists. exists best. fold placed in Hfst, Hnew, Hfilled.
  split; [ exact Hfst | ].
  split; [ rewrite <- (get_best_ask_of_side orderbook (side_name s) s
                         (upper_side_name s)); exact Hask | ].
  cbn [Order.status Order.filled_price Order.filled_qty].
  destruct (py_min_spec Config.DEFAULT_ORDER_SIZE (OrderBookLevel.qty best))
    as (Hl & Hr & Hcase).
  split; [ reflexivity | ]. split; [ reflexivity | ].
  split; [ exact Hl | ]. split; [ exact Hr | ]. split; [ exact Hcase | ].
  subst after. rewrite Hnew, Hpos, Hfilled.
  split; [ destruct s; reflexivity | ].
  split; [ destruct s; reflexivity | ].
  split; [ destruct s; reflexivity | ].
  apply in_or_app. right. left. reflexivity.
Qed.

Lemma accepted_buy_is_filled_witness :
  let manager :=
    OrderManager.update_orderbook (OrderManager.init PairPosition.init)
      (snapshot (44 # 100) (46 # 100) (52 # 100) (54 # 100)) in
  exists order,
    fst (OrderManager.place_limit_order manager None 1 "YES"
           Config.DEFAULT_ORDER_SIZE
           (OrderManager.calculate_target_price manager "YES"
              (Position.avg_price Position.init)))
    = Some order
    /\ Order.status order = FILLED
    /\ Order.filled_price order = 46 # 100.
Proof.
  intro manager.
  edestruct (accepted_buy_is_filled YES (45 # 100) PairPosition.init manager
               (snapshot (44 # 100) (46 # 100) (52 # 100) (54 # 100))
               true None 0 1)
    as (order & best & Hfst & Hbest & Hstatus & Hprice & _).
  - vm_compute. reflexivity.
  - reflexivity.
  - reflexivity.
  - reflexivity.
  - exists order. split; [ exact Hfst | ]. split; [ exact Hstatus | ].
    injection Hbest as <-. exact Hprice.
Defined.

(** ** The trading bot *)

Section Bot.

Import TradingBot.

Lemma ledger_log (bot : t) (now : Q) (message : LogMessage) :
  ledger (log bot now message) = ledger bot
  /\ order_manager (log bot now message) = order_manager bot
  /\ is_trading (log bot now message) = is_trading bot.
Proof. repeat split. Qed.

Lemma ledger_with_manager (bot : t) (manager : OrderManager.t) :
  ledger (with_manager bot manager) = OrderManager.position manager.
Proof. reflexivity. Qed.

(** What the monitor passes to its callback. *)
Lemma alerted_cases (m : PriceMonitor.t) (ob : OrderBook.t) :
  PriceMonitor.alerted (PriceMonitor.check_price m ob) = None
  \/ (PriceMonitor.alerted (PriceMonitor.check_price m ob)
      = Some ("YES"%string, OrderBook.yes_mid_price ob)
      /\ PriceMonitor.in_band m (OrderBook.yes_mid_price ob) = true)
  \/ (PriceMonitor.alerted (PriceMonitor.check_price m ob)
      = Some ("NO"%string, OrderBook.no_mid_price ob)
      /\ PriceMonitor.in_band m (OrderBook.no_mid_price ob) = true).
Proof.
  unfold PriceMonitor.check_price.
  destruct (PriceMonitor.in_band m (OrderBook.yes_mid_price ob)) eqn:Ey;
    destruct (PriceMonitor.was_outside m (PriceMonitor.last_yes_price m));
    cbn [andb].
  1:{ destruct (PriceMonitor.callback m);
        [ right; left; split; reflexivity | left; reflexivity ]. }
  all: destruct (PriceMonitor.in_band m (OrderBook.no_mid_price ob)) eqn:En;
    destruct (PriceMonitor.was_outside m (PriceMonitor.last_no_price m));
    cbn [andb PriceMonitor.alerted];
    try (left; reflexivity);
    (destruct (PriceMonitor.callback m);
     [ right; right; split; reflexivity | left; reflexivity ]).
Qed.

(** [on_price_alert] for YES or NO. *)
Lemma on_price_alert_cases (bot : t) (now : Q) (s : Side) (price : Q) :
  exists bot' task,
    on_price_alert bot now (side_name s) price = Returns (bot', task)
    /\ ledger bot' = ledger bot
    /\ order_manager bot' = order_manager bot
    /\ forall tk, task = Some tk ->
         exists manager,
           order_manager bot = Some manager
           /\ is_trading bot = true
           /\ PairPosition.is_profitable (ledger bot) = false
           /\ PairPosition.can_buy (ledger bot) (side_name s)
                Config.DEFAULT_ORDER_SIZE price = Returns true
           /\ tk = mkTask (side_name s) Config.DEFAULT_ORDER_SIZE
                     (OrderManager.calculate_target_price manager (side_name s)
                        (Position.avg_price (held (ledger bot) (opposite s)))).
Proof.
  unfold on_price_alert.
  destruct (order_manager bot) as [manager | ] eqn:Hm;
    [ | exists bot, None; repeat split; try assumption; discriminate ].
  destruct (is_trading bot) eqn:Ht; cbn [negb];
    [ | exists bot, None; repeat split; try assumption; discriminate ].
  destruct (PairPosition.is_profitable (ledger bot)) eqn:Hp.
  { eexists. exists None. split; [ reflexivity | ].
    split; [ unfold ledger; cbn; rewrite Hm; reflexivity | ].
    split; [ cbn; exact Hm | discriminate ]. }
  assert (Hcan : exists b,
            PairPosition.can_buy (ledger bot) (side_name s)
              Config.DEFAULT_ORDER_SIZE price = Returns b).
  { unfold PairPosition.can_buy. rewrite upper_side_name.
    destruct s; eexists; reflexivity. }
  destruct Hcan as [b Hb]. rewrite Hb.
  destruct b.
  - eexists. eexists. split; [ reflexivity | ].
    split; [ reflexivity | ]. split; [ cbn; exact Hm | ].
    intros tk Htk. injection Htk as <-.
    exists manager. repeat split.
    f_equal. f_equal. destruct s; reflexivity.
  - eexists. exists None. split; [ reflexivity | ].
    split; [ reflexivity | ]. split; [ cbn; exact Hm | discriminate ].
Qed.

Lemma priority_side_literal (r : Rebalancer.t) (pos : PairPosition.t) :
  exists s, Rebalancer.get_priority_side r pos = side_name s.
Proof.
  unfold Rebalancer.get_priority_side, PairPosition.get_target_side.
  destruct (Qltb (Position.qty (PairPosition.no pos) * (12 # 10))
              (Position.qty (PairPosition.yes pos)));
    [ exists NO; reflexivity | ].
  destruct (Qltb (Position.qty (PairPosition.yes pos) * (12 # 10))
              (Position.qty (PairPosition.no pos)));
    [ exists YES; reflexivity | ].
  destruct (Qltb (Position.qty (PairPosition.yes pos))
              (Position.qty (PairPosition.no pos)));
    [ exists YES | exists NO ]; reflexivity.
Qed.

End Bot.

(** What [on_orderbook_update] does, case by case. *)
Lemma orderbook_update_cases (self : TradingBot.t)
    (now : Q) (orderbook : OrderBook.t) :
  exists bot' task,
    TradingBot.on_orderbook_update self now orderbook = Returns (bot', task)
    /\ TradingBot.ledger bot' = TradingBot.ledger self
    /\ TradingBot.current_orderbook bot' = Some orderbook
    /\ forall tk, task = Some tk ->
         exists s mid manager,
           TradingBot.order_manager bot' = Some manager
           /\ OrderManager.current_orderbook manager = Some orderbook
           /\ mid = OrderBook.mid
                      (match s with
                       | YES => OrderBook.yes_bids orderbook
                       | NO => OrderBook.no_bids orderbook
                       end) (asks_of orderbook s)
           /\ PriceMonitor.in_band (TradingBot.monitor self) mid = true
           /\ PairPosition.is_profitable (TradingBot.ledger self) = false
           /\ PairPosition.can_buy (TradingBot.ledger self) (side_name s)
                Config.DEFAULT_ORDER_SIZE mid = Returns true
           /\ tk = TradingBot.mkTask (side_name s) Config.DEFAULT_ORDER_SIZE
                     (OrderManager.calculate_target_price manager (side_name s)
                        (Position.avg_price
                           (held (TradingBot.ledger self) (opposite s)))).
Proof.
  unfold TradingBot.on_orderbook_update.
  set (self1 :=
         match TradingBot.order_manager self with
         | Some manager =>
           TradingBot.with_manager self
             (OrderManager.update_orderbook manager orderbook)
         | None => self
         end).
  assert (Hledger : TradingBot.ledger self1 = TradingBot.ledger self).
  { unfold self1, TradingBot.ledger.
    destruct (TradingBot.order_manager self) eqn:E; cbn; rewrite ?E;
      reflexivity. }
  assert (Hmon : TradingBot.monitor self1 = TradingBot.monitor self).
  { unfold self1. destruct (TradingBot.order_manager self); reflexivity. }
  assert (Hbook : forall manager,
            TradingBot.order_manager self1 = Some manager ->
            OrderManager.current_orderbook manager = Some orderbook).
  { unfold self1. intros manager.
    destruct (TradingBot.order_manager self) as [m | ] eqn:E; cbn.
    - intro H. injection H as <-. reflexivity.
    - rewrite E. discriminate. }
  cbv zeta. rewrite Hmon.
  assert (Hquiet : forall bot,
            TradingBot.ledger
              (TradingBot.mk (TradingBot.position bot)
                 (TradingBot.order_manager bot)
                 (PriceMonitor.after
                    (PriceMonitor.check_price (TradingBot.monitor self)
                       orderbook))
                 (TradingBot.rebalancer bot) (TradingBot.trade_logs bot)
                 (Some orderbook) (TradingBot.is_trading bot))
            = TradingBot.ledger bot) by reflexivity.
  destruct (alerted_cases (TradingBot.monitor self) orderbook)
    as [Hnone | [[Hyes Hin] | [Hno Hin]]].
  - rewrite Hnone. eexists. exists None. split; [ reflexivity | ].
    split; [ rewrite Hquiet; exact Hledger | ].
    split; [ reflexivity | discriminate ].
  - rewrite Hyes.
    destruct (on_price_alert_cases self1 now YES
                (OrderBook.yes_mid_price orderbook))
      as (bot2 & task & Hcall & Hl2 & Hm2 & Htask).
    cbn [side_name] in Hcall. rewrite Hcall.
    eexists. exists task. split; [ reflexivity | ].
    split; [ rewrite Hquiet, Hl2; exact Hledger | ].
    split; [ reflexivity | ].
    intros tk Htk.
    destruct (Htask tk Htk) as (manager & Hmgr & _ & Hp & Hcan & Heq).
    exists YES, (OrderBook.yes_mid_price orderbook), manager.
    rewrite Hledger in Hp, Hcan, Heq.
    split; [ cbn; rewrite Hm2; exact Hmgr | ].
    split; [ apply Hbook; exact Hmgr | ].
    repeat split; assumption.
  - rewrite Hno.
    destruct (on_price_alert_cases self1 now NO
                (OrderBook.no_mid_price orderbook))
      as (bot2 & task & Hcall & Hl2 & Hm2 & Htask).
    cbn [side_name] in Hcall. rewrite Hcall.
    eexists. exists task. split; [ reflexivity | ].
    split; [ rewrite Hquiet, Hl2; exact Hledger | ].
    split; [ reflexivity | ].
    intros tk Htk.
    destruct (Htask tk Htk) as (manager & Hmgr & _ & Hp & Hcan & Heq).
    exists NO, (OrderBook.no_mid_price orderbook), manager.
    rewrite Hledger in Hp, Hcan, Heq.
    split; [ cbn; rewrite Hm2; exact Hmgr | ].
    split; [ apply Hbook; exact Hmgr | ].
    repeat split; assumption.
Qed.

(** An order-book update never raises and never touches the ledger: the
    snapshot goes to the manager and, when the monitor calls back, at
    most one task is created.  A created task is for YES or NO with a
    mid-price inside the monitor's band, for the default order size, it
    passed [can_buy] at that mid-price on a ledger that is not profit
    locked, and its limit is the manager's target price against the
    current average of the opposite side. *)
Theorem orderbook_update_schedules_admitted_buy (self : TradingBot.t)
    (now : Q) (orderbook : OrderBook.t) :
  exists bot' task,
    TradingBot.on_orderbook_update self now orderbook = Returns (bot', task)
    /\ TradingBot.ledger bot' = TradingBot.ledger self
    /\ TradingBot.current_orderbook bot' = Some orderbook
    /\ forall tk, task = Some tk ->
         exists s mid manager,
           TradingBot.order_manager bot' = Some manager
           /\ OrderManager.current_orderbook manager = Some orderbook
           /\ mid = OrderBook.mid
                      (match s with
                       | YES => OrderBook.yes_bids orderbook
                       | NO => OrderBook.no_bids orderbook
                       end) (asks_of orderbook s)
           /\ PriceMonitor.in_band (TradingBot.monitor self) mid = true
           /\ PairPosition.is_profitable (TradingBot.ledger self) = false
           /\ PairPosition.can_buy (TradingBot.ledger self) (side_name s)
                Config.DEFAULT_ORDER_SIZE mid = Returns true
           /\ tk = TradingBot.mkTask (side_name s) Config.DEFAULT_ORDER_SIZE
                     (OrderManager.calculate_target_price manager (side_name s)
                        (Position.avg_price
                           (held (TradingBot.ledger self) (opposite s)))).
Proof.
  exact (orderbook_update_cases self now orderbook).
Qed.

(** One pass of the trading loop never raises.  On a profit lock it
    stops trading and cancels what is pending without touching the
    ledger; otherwise it leaves [is_trading] alone and buys nothing
    unless the rebalancer asks for it. *)
Theorem trading_loop_step_safe (self : TradingBot.t) (now : Q) :
  exists bot',
    TradingBot.trading_loop_step self now = Returns bot'
    /\ (TradingBot.order_manager self = None -> bot' = self)
    /\ forall manager book,
         TradingBot.order_manager self = Some manager ->
         OrderManager.current_orderbook manager = Some book ->
         let pos := TradingBot.ledger self in
         (PairPosition.is_profitable pos = true ->
          TradingBot.is_trading bot' = false
          /\ TradingBot.ledger bot' = pos
          /\ exists manager',
               TradingBot.order_manager bot' = Some manager'
               /\ OrderManager.pending_orders manager' = [])
         /\ (PairPosition.is_profitable pos = false ->
             TradingBot.is_trading bot' = TradingBot.is_trading self)
         /\ (Rebalancer.should_rebalance (TradingBot.rebalancer self) pos = false ->
             TradingBot.ledger bot' = pos).
Proof.
  unfold TradingBot.trading_loop_step.
  destruct (TradingBot.order_manager self) as [manager | ] eqn:Hm;
    [ | exists self; split; [ reflexivity | ];
        split; [ reflexivity | intros ? ? H; discriminate H ] ].
  assert (Hledger : TradingBot.ledger self = OrderManager.position manager)
    by (unfold TradingBot.ledger; rewrite Hm; reflexivity).
  destruct (OrderManager.current_orderbook manager) as [book | ] eqn:Hb;
    [ | exists self; split; [ reflexivity | ];
        split; [ discriminate | intros ? ? H H'; injection H as <-;
                                rewrite Hb in H'; discriminate H' ] ].
  cbv zeta.
  destruct (PairPosition.is_profitable (TradingBot.ledger self)) eqn:Hp.
  { eexists. split; [ reflexivity | ]. split; [ discriminate | ].
    intros manager0 book0 H0 Hb0. injection H0 as <-.
    split; [ | split; [ discriminate | ] ].
    - intros _. split; [ reflexivity | ]. split; [ exact (eq_sym Hledger) | ].
      eexists. split; reflexivity.
    - intros _. exact (eq_sym Hledger). }
  assert (Hsame : forall bot,
            TradingBot.ledger bot = TradingBot.ledger self ->
            TradingBot.is_trading bot = TradingBot.is_trading self ->
            bot = bot /\
            forall manager0 book0,
              Some manager = Some manager0 ->
              OrderManager.current_orderbook manager0 = Some book0 ->
              (false = true ->
               TradingBot.is_trading bot = false
               /\ TradingBot.ledger bot = TradingBot.ledger self
               /\ exists manager',
                    TradingBot.order_manager bot = Some manager'
                    /\ OrderManager.pending_orders manager' = [])
              /\ (false = false ->
                  TradingBot.is_trading bot = TradingBot.is_trading self)
              /\ (Rebalancer.should_rebalance (TradingBot.rebalancer self)
                    (TradingBot.ledger self) = false ->
                  TradingBot.ledger bot = TradingBot.ledger self)).
  { intros bot Hl Ht. split; [ reflexivity | ].
    intros manager0 book0 _ _.
    split; [ discriminate | ]. split; [ intros _; exact Ht | ].
    intros _; exact Hl. }
  destruct (Rebalancer.should_rebalance (TradingBot.rebalancer self)
              (TradingBot.ledger self)) eqn:Hreb;
    [ | exists self; split; [ reflexivity | ];
        split; [ discriminate | apply (Hsame self); reflexivity ] ].
  destruct (priority_side_literal (TradingBot.rebalancer self)
              (TradingBot.ledger self)) as [s Hs].
  rewrite Hs.
  match goal with
  | |- context [if ?b then _ else _] =>
    destruct b;
      [ | exists self; split; [ reflexivity | ];
          split; [ discriminate | apply (Hsame self); reflexivity ] ]
  end.
  assert (Hcan : exists b,
            PairPosition.can_buy (TradingBot.ledger self) (side_name s)
              Config.REBALANCE_ORDER_SIZE
              (if String.eqb (side_name s) "YES"
               then OrderBook.yes_mid_price book
               else OrderBook.no_mid_price book) = Returns b).
  { unfold PairPosition.can_buy. rewrite upper_side_name.
    destruct s; eexists; reflexivity. }
  destruct Hcan as [b Hcan]. rewrite Hcan.
  destruct b;
    [ | exists self; split; [ reflexivity | ];
        split; [ discriminate | apply (Hsame self); reflexivity ] ].
  match goal with
  | |- context [OrderManager.place_limit_order ?m ?f ?t ?sd ?q ?mp] =>
    destruct (OrderManager.place_limit_order m f t sd q mp)
      as [order manager'] eqn:Hplace
  end.
  assert (Hfinal : forall bot,
            TradingBot.is_trading bot = TradingBot.is_trading self ->
            exists bot',
              Returns bot = Returns bot'
              /\ (Some manager = None -> bot' = self)
              /\ forall manager0 book0,
                   Some manager = Some manager0 ->
                   OrderManager.current_orderbook manager0 = Some book0 ->
                   (false = true ->
                    TradingBot.is_trading bot' = false
                    /\ TradingBot.ledger bot' = TradingBot.ledger self
                    /\ exists manager'',
                         TradingBot.order_manager bot' = Some manager''
                         /\ OrderManager.pending_orders manager'' = [])
                   /\ (false = false ->
                       TradingBot.is_trading bot' = TradingBot.is_trading self)
                   /\ (true = false ->
                       TradingBot.ledger bot' = TradingBot.ledger self)).
  { intros bot Ht. exists bot. split; [ reflexivity | ].
    split; [ discriminate | ].
    intros manager0 book0 _ _.
    split; [ discriminate | ]. split; [ intros _; exact Ht | discriminate ]. }
  destruct order as [o | ]; [ | apply Hfinal; reflexivity ].
  destruct (OrderStatus_eqb (Order.status o) FILLED); apply Hfinal; reflexivity.
Qed.

Lemma trading_loop_step_safe_witness :
  let manager :=
    OrderManager.update_orderbook
      (OrderManager.init
         (PairPosition.mk (Position.mk 100 45) (Position.mk 100 50)))
      (snapshot (44 # 100) (46 # 100) (52 # 100) (54 # 100)) in
  let bot :=
    TradingBot.mk (PairPosition.mk (Position.mk 100 45) (Position.mk 100 50))
      (Some manager)
      (PriceMonitor.init Config.ENTRY_PRICE_MIN Config.ENTRY_PRICE_MAX true)
      Rebalancer.default [] None true in
  exists bot',
    TradingBot.trading_loop_step bot 0 = Returns bot'
    /\ TradingBot.is_trading bot' = false.
Proof.
  intros manager bot.
  destruct (trading_loop_step_safe bot 0) as (bot' & Hrun & _ & Hcases).
  exists bot'. split; [ exact Hrun | ].
  destruct (Hcases manager
              (snapshot (44 # 100) (46 # 100) (52 # 100) (54 # 100))
              eq_refl eq_refl) as (Hlock & _).
  destruct (Hlock eq_refl) as (Hstop & _). exact Hstop.
Defined.

Lemma orderbook_update_schedules_admitted_buy_witness :
  let bot :=
    TradingBot.mk PairPosition.init (Some (OrderManager.init PairPosition.init))
      (PriceMonitor.mk (35 # 100) (50 # 100) true (60 # 100) (40 # 100))
      Rebalancer.default [] None true in
  let entry := snapshot (44 # 100) (46 # 100) (54 # 100) (56 # 100) in
  exists bot' tk,
    TradingBot.on_orderbook_update bot 1 entry = Returns (bot', Some tk)
    /\ PairPosition.is_profitable (TradingBot.ledger bot) = false.
Proof.
  intros bot entry.
  assert (Hrun : exists bot' tk,
            TradingBot.on_orderbook_update bot 1 entry = Returns (bot', Some tk)).
  { vm_compute. eexists. eexists. reflexivity. }
  destruct Hrun as (bot' & tk & Hrun).
  exists bot', tk. split; [ exact Hrun | ].
  destruct (orderbook_update_schedules_admitted_buy bot 1 entry)
    as (b & task & Hcall & _ & _ & Htask).
  rewrite Hrun in Hcall. injection Hcall as <- <-.
  destruct (Htask tk eq_refl) as (s & mid & m & _ & _ & _ & _ & Hp & _).
  exact Hp.
Defined.

Lemma buy_check_accepts_only_when_open_witness :
  PairPosition.can_buy PairPosition.init "YES" Config.DEFAULT_ORDER_SIZE
    (45 # 100)
  = Returns true.
Proof.
  destruct (buy_check_accepts_only_when_open "YES" (45 # 100) PairPosition.init
              (Some (OrderManager.update_orderbook
                       (OrderManager.init PairPosition.init)
                       (snapshot (44 # 100) (46 # 100) (52 # 100) (54 # 100))))
              (snapshot (44 # 100) (46 # 100) (52 # 100) (54 # 100))
              true None 0) as (r & Hr & Hgates).
  assert (Hyes : DashboardScript.can_buy r = true).
  { assert (Hrun : exists r0,
              DashboardScript.check_buy_conditions "YES" (45 # 100)
                PairPosition.init
                (Some (OrderManager.update_orderbook
                         (OrderManager.init PairPosition.init)
                         (snapshot (44 # 100) (46 # 100) (52 # 100) (54 # 100))))
                (snapshot (44 # 100) (46 # 100) (52 # 100) (54 # 100))
                true None 0 = Returns r0
              /\ DashboardScript.can_buy r0 = true).
    { vm_compute. eexists. split; reflexivity. }
    destruct Hrun as (r0 & Hr0 & Hc0). rewrite Hr in Hr0.
    injection Hr0 as ->. exact Hc0. }
  destruct (Hgates Hyes) as (_ & _ & _ & _ & Hcan & _). exact Hcan.
Defined.
